(** * jupyter_server.extension.manager

    A shallow embedding of [jupyter_server/extension/manager.py]: the three
    classes [ExtensionPoint], [ExtensionPackage] and [ExtensionManager], the
    Python dictionaries they keep (insertion ordered), the class-level
    attributes they share, and the exceptions they raise and catch.

    Python code with effects is written in a small monad [M]: a computation
    takes the interpreter state ([World]) and gives back either a value or a
    raised exception, together with the state reached.  The state reached
    is kept when an exception is raised, as in Python. *)

From Stdlib Require Import List String Ascii Bool Arith Lia.
From Stdlib Require Import Sorted Permutation OrderedTypeEx.
Import ListNotations.
Open Scope string_scope.

(* ================================================================== *)
(** * Exceptions *)

(** The exception classes that occur in the module.  [ExtensionMetadataError]
    and [ExtensionModuleNotFound] are imported from [.utils]; the built-in
    ones are raised by the interpreter itself (a failed subscript, a missing
    attribute, calling something that is not callable).  [UserException]
    stands for any other class deriving from [Exception] that extension code
    may raise, and [BaseExceptionOnly] for the classes that derive from
    [BaseException] but not from [Exception] ([KeyboardInterrupt],
    [SystemExit], [GeneratorExit]). *)
Inductive PyExc : Type :=
| ExtensionMetadataError (msg : string)
| ExtensionModuleNotFound (msg : string)
| LoaderNotFoundError (msg : string)
| ImportError (msg : string)
| KeyError (key : string)
| AttributeError (attr : string)
| TypeError (msg : string)
| UserException (cls : string)
| BaseExceptionOnly (cls : string).

(** Modelled from the spec: the error classes of [.utils] are not in the
    sources at hand.  The spec has every failure of construction recovered
    by [add_extension] and every failure of a load hook lookup recovered by
    [load_extension], whose handlers are [except Exception]: the three
    classes derive from [Exception].  So do the built-in ones and
    [UserException]; [BaseExceptionOnly] does not, which is what tells it
    apart in a handler [except Exception]. *)
Definition is_Exception (e : PyExc) : bool :=
  match e with
  | BaseExceptionOnly _ => false
  | _ => true
  end.

(** [except ImportError] ([ModuleNotFoundError] is a subclass and is the
    same constructor here). *)
Definition is_ImportError (e : PyExc) : bool :=
  match e with
  | ImportError _ => true
  | _ => false
  end.

(** What running a piece of Python gives: a value, or a raised exception. *)
Inductive Outcome (A : Type) : Type :=
| Ret (a : A)
| Raise (e : PyExc).
Arguments Ret {A} a.
Arguments Raise {A} e.

(* ================================================================== *)
(** * Python objects the module handles *)

(** The host application handed to every hook; the module never looks
    inside it. *)
Record ServerApp : Type := { serverapp_id : string }.

(** What a hook gives back: [None], or some object the module only passes
    on. *)
Inductive PyRet : Type :=
| RetNone
| RetObject (tag : string).

(** A function found under [_link_jupyter_server_extension] or
    [_load_jupyter_server_extension]: extension code, known here by a label
    and by what calling it on a host gives.  What the extension does to the
    host is its own business; it is taken not to reach back into the
    dictionaries of the three classes. *)
Record Hook : Type := {
  hook_id : string;
  hook_run : ServerApp -> Outcome PyRet
}.

(** An object the module reads attributes of or calls: an imported module,
    an [app] factory, or the application object a factory makes.  Each
    attribute the source reads is there or not; [obj_call] is what calling
    the object with no argument gives ([None] when it is not callable), the
    result being Python's [None] or an object.  Objects are truthy, as
    instances and classes are unless they define otherwise. *)
#[warnings="-register-all"]
Inductive PyObj : Type := mkObj {
  obj_id : string;
  obj_name : option string;
  obj_link : option Hook;
  obj_load : option Hook;
  obj_call : option (Outcome (option PyObj))
}.

(** A metadata packet: a dictionary of which the module reads the keys
    ['module'], ['name'] and ['app'].  A key is absent ([None]) or bound;
    the value under ['app'] is Python's [None] or an object. *)
Record Packet : Type := {
  pk_module : option string;
  pk_name : option string;
  pk_app : option (option PyObj)
}.

(** [metadata.get("app")] *)
Definition packet_get_app (metadata : Packet) : option PyObj :=
  match pk_app metadata with
  | Some v => v
  | None => None
  end.

(** [metadata["app"] = v] *)
Definition packet_set_app (metadata : Packet) (v : option PyObj) : Packet :=
  {| pk_module := pk_module metadata;
     pk_name := pk_name metadata;
     pk_app := Some v |}.

(* ================================================================== *)
(** * Dictionaries *)

(** A Python [dict] with [str] keys: the items in insertion order. *)
Definition Dict (V : Type) : Type := list (string * V).

Definition dict_keys {V} (d : Dict V) : list string := map fst d.

(** [d.get(k)] *)
Fixpoint dict_get {V} (d : Dict V) (k : string) : option V :=
  match d with
  | [] => None
  | (k', v) :: d' => if String.eqb k k' then Some v else dict_get d' k
  end.

(** [d[k] = v]: a key already there keeps its place and takes the new
    value, a new key goes last. *)
Fixpoint dict_set {V} (d : Dict V) (k : string) (v : V) : Dict V :=
  match d with
  | [] => [(k, v)]
  | (k', v') :: d' =>
      if String.eqb k k' then (k', v) :: d' else (k', v') :: dict_set d' k v
  end.

(** [dict(items)] *)
Definition dict_of_items {V} (items : list (string * V)) : Dict V :=
  fold_left (fun d kv => dict_set d (fst kv) (snd kv)) items [].

(** [sorted(items)] on (key, value) pairs: Python compares the pairs by
    their first components, and only on equal ones would it look at the
    values; the items of a dictionary have distinct keys.  The sort is
    stable; it is written as an insertion sort. *)
Fixpoint insert_item {V} (x : string * V) (l : list (string * V))
  : list (string * V) :=
  match l with
  | [] => [x]
  | y :: l' =>
      if String.leb (fst x) (fst y) then x :: l else y :: insert_item x l'
  end.

Definition sorted {V} (items : list (string * V)) : list (string * V) :=
  fold_right insert_item [] items.

(** The order of Python on [str]: strictly before.  Names are strings of
    one-byte characters here, compared character by character on their
    codes, as Python compares code points. *)
Definition str_lt (a b : string) : Prop := String.ltb a b = true.

(* ================================================================== *)
(** * The three classes: their instances *)

(** An [ExtensionPoint] after its [metadata] trait was validated. *)
Record ExtensionPoint : Type := {
  metadata : Packet;
  _module_name : string;
  _module : PyObj
}.

(** An [ExtensionPackage] after its [name] trait was validated. *)
Record ExtensionPackage : Type := {
  name : string;
  _metadata : list Packet;
  _extension_points : Dict ExtensionPoint
}.

(** An [ExtensionManager] instance.  The class gives an instance no
    attribute of its own besides what [LoggingConfigurable] does; an
    instance is known by its identity. *)
Record ExtensionManager : Type := { manager_id : nat }.

(* ================================================================== *)
(** * The interpreter state *)

Inductive LogEntry : Type :=
| LogWarning (e : PyExc)
| LogDebug (msg : string).

(** Calls into code outside the module, in the order they happen. *)
Inductive Event : Type :=
| EvCall (callee : string)
| EvHook (hook : string) (serverapp : ServerApp).

(** The state the module's code reads and writes.  The three dictionaries
    are attributes of the classes ([_linked_points = {}] in the body of
    [ExtensionPackage], [_enabled_extensions = {}] and
    [_linked_extensions = {}] in the body of [ExtensionManager]): there is
    one of each, whatever the number of instances, and [self._x] reaches it
    through the class since no method assigns [self._x]. *)
Record World : Type := {
  _linked_points : Dict bool;
  _enabled_extensions : Dict ExtensionPackage;
  _linked_extensions : Dict bool;
  log : list LogEntry;
  trace : list Event;
  instances : nat
}.

Definition initial_world : World :=
  {| _linked_points := [];
     _enabled_extensions := [];
     _linked_extensions := [];
     log := [];
     trace := [];
     instances := 0 |}.

Definition with_enabled (d : Dict ExtensionPackage) (w : World) : World :=
  {| _linked_points := _linked_points w;
     _enabled_extensions := d;
     _linked_extensions := _linked_extensions w;
     log := log w;
     trace := trace w;
     instances := instances w |}.

Definition with_log (l : list LogEntry) (w : World) : World :=
  {| _linked_points := _linked_points w;
     _enabled_extensions := _enabled_extensions w;
     _linked_extensions := _linked_extensions w;
     log := l;
     trace := trace w;
     instances := instances w |}.

Definition with_trace (t : list Event) (w : World) : World :=
  {| _linked_points := _linked_points w;
     _enabled_extensions := _enabled_extensions w;
     _linked_extensions := _linked_extensions w;
     log := log w;
     trace := t;
     instances := instances w |}.

Definition with_instances (n : nat) (w : World) : World :=
  {| _linked_points := _linked_points w;
     _enabled_extensions := _enabled_extensions w;
     _linked_extensions := _linked_extensions w;
     log := log w;
     trace := trace w;
     instances := n |}.

(* ================================================================== *)
(** * The monad of Python computations *)

Definition M (A : Type) : Type := World -> Outcome A * World.

Definition ret {A} (a : A) : M A := fun w => (Ret a, w).

Definition raise {A} (e : PyExc) : M A := fun w => (Raise e, w).

Definition bind {A B} (m : M A) (f : A -> M B) : M B :=
  fun w =>
    match m w with
    | (Ret a, w') => f a w'
    | (Raise e, w') => (Raise e, w')
    end.

Declare Scope py_scope.
Delimit Scope py_scope with py.
Notation "x <- m ;; k" := (bind m (fun x => k))
  (at level 61, m at next level, right associativity) : py_scope.
Notation "m ;; k" := (bind m (fun _ => k))
  (at level 61, right associativity) : py_scope.
Open Scope py_scope.

(** An expression that reads nothing of the state. *)
Definition lift {A} (o : Outcome A) : M A := fun w => (o, w).

Definition gets {A} (f : World -> A) : M A := fun w => (Ret (f w), w).

Definition modify (f : World -> World) : M unit := fun w => (Ret tt, f w).

(** [try: body  except C as e: handler e], where [catches] tells the
    instances of [C]. *)
Definition try_except {A} (catches : PyExc -> bool) (body : M A)
    (handler : PyExc -> M A) : M A :=
  fun w =>
    match body w with
    | (Ret a, w') => (Ret a, w')
    | (Raise e, w') => if catches e then handler e w' else (Raise e, w')
    end.

(** [for x in l: body x] *)
Fixpoint for_each {A} (l : list A) (body : A -> M unit) : M unit :=
  match l with
  | [] => ret tt
  | x :: l' => body x ;; for_each l' body
  end.

Definition record_event (ev : Event) : M unit :=
  modify (fun w => with_trace (trace w ++ [ev]) w).

(** [self.log.warning(e)] and [self.log.debug(msg)] *)
Definition log_warning (e : PyExc) : M unit :=
  modify (fun w => with_log (log w ++ [LogWarning e]) w).

Definition log_debug (msg : string) : M unit :=
  modify (fun w => with_log (log w ++ [LogDebug msg]) w).

(** [o()]: the call is recorded, then gives what the object gives. *)
Definition call (o : PyObj) : M (option PyObj) :=
  match obj_call o with
  | Some out => record_event (EvCall (obj_id o)) ;; lift out
  | None => raise (TypeError "object is not callable")
  end.

(** [h(serverapp)] for a hook of an extension. *)
Definition call_hook (h : Hook) (serverapp : ServerApp) : M PyRet :=
  record_event (EvHook (hook_id h) serverapp) ;; lift (hook_run h serverapp).

(** [d[k]] *)
Definition subscript {V} (d : Dict V) (k : string) : M V :=
  match dict_get d k with
  | Some v => ret v
  | None => raise (KeyError k)
  end.

(** [d.get(k, False)] on a dictionary of flags *)
Definition dict_get_flag (d : Dict bool) (k : string) : bool :=
  match dict_get d k with
  | Some b => b
  | None => false
  end.

(* ================================================================== *)
(** * What the module imports *)

(** [importlib.import_module] and [get_metadata] of [.utils] resolve names
    to installed code; what they give for each name is the environment the
    process runs in.  [import_module] gives the module object or raises;
    [get_metadata] gives the sequence of metadata packets of a package or
    raises. *)
Record Env : Type := {
  import_module : string -> Outcome PyObj;
  get_metadata : string -> Outcome (list Packet)
}.

Module utils.

(** Modelled from the spec: [get_loader] of [.utils] is not in the sources
    at hand.  The spec has the load hook looked up under its conventional
    name on the object given, and the lookup failing with
    LoaderNotFoundError when the object does not define it. *)
Definition get_loader (obj : PyObj) : M Hook :=
  match obj_load obj with
  | Some loader => ret loader
  | None =>
      raise (LoaderNotFoundError
               "_load_jupyter_server_extension function was not found.")
  end.

End utils.

(* ================================================================== *)
(** * class ExtensionPoint *)

Module ExtensionPoint.

Section Construction.
Variable env : Env.

(** [@validate('metadata')].  The validator runs once, when the
    constructor leaves the block in which traitlets holds
    notifications: the trait is assigned by then, so [self.metadata] is
    the proposed dictionary itself, and the assignment to
    [metadata["app"]] changes the one dictionary the point keeps. *)
Definition _valid_metadata (proposed : Packet) : M ExtensionPoint :=
  let metadata := proposed in
  match pk_module metadata with
  | None =>
      raise (ExtensionMetadataError
               "There is no 'module' key in the extension's metadata packet.")
  | Some module_name =>
      module <-
        try_except is_ImportError
          (lift (import_module env module_name))
          (fun _ =>
             raise (ExtensionModuleNotFound
                      ("The submodule '" ++ module_name ++
                       "' could not be found. Are you sure the extension is installed?"))) ;;
      metadata' <-
        match packet_get_app metadata with
        | Some app => v <- call app ;; ret (packet_set_app metadata v)
        | None => ret metadata
        end ;;
      ret {| metadata := metadata';
             _module_name := module_name;
             _module := module |}
  end.

(** [ExtensionPoint(metadata=m)] *)
Definition new (m : Packet) : M ExtensionPoint := _valid_metadata m.

End Construction.

Definition app (self : ExtensionPoint) : option PyObj :=
  packet_get_app (metadata self).

Definition module_name (self : ExtensionPoint) : string :=
  _module_name self.

(** [o.name] *)
Definition getattr_name (o : PyObj) : Outcome string :=
  match obj_name o with
  | Some n => Ret n
  | None => Raise (AttributeError "name")
  end.

Definition name (self : ExtensionPoint) : Outcome string :=
  match app self with
  | Some a => getattr_name a
  | None =>
      match pk_name (metadata self) with
      | Some n => Ret n
      | None => Ret (module_name self)
      end
  end.

Definition module (self : ExtensionPoint) : PyObj := _module self.

(** The linker is a hook of the extension ([Some]) or the function
    [lambda serverapp: None] the source gives [getattr] as default
    ([None]). *)
Definition link (self : ExtensionPoint) (serverapp : ServerApp) : M PyRet :=
  linker <-
    match app self with
    | Some a =>
        match obj_link a with
        | Some h => ret (Some h)
        | None => raise (AttributeError "_link_jupyter_server_extension")
        end
    | None => ret (obj_link (module self))
    end ;;
  match linker with
  | Some h => call_hook h serverapp
  | None => ret RetNone
  end.

Definition load (self : ExtensionPoint) (serverapp : ServerApp) : M PyRet :=
  let loc :=
    match app self with
    | Some a => a
    | None => module self
    end in
  loader <- utils.get_loader loc ;;
  call_hook loader serverapp.

End ExtensionPoint.

(* ================================================================== *)
(** * class ExtensionPackage *)

Module ExtensionPackage.

Section Construction.
Variable env : Env.

(** The loop of [_validate_name]: one point per packet, stored under
    its name.  [seen] are the packets done, as validation left them. *)
Fixpoint _validate_name_loop (todo seen : list Packet)
    (points : Dict ExtensionPoint)
  : M (list Packet * Dict ExtensionPoint) :=
  match todo with
  | [] => ret (seen, points)
  | m :: todo' =>
      point <- ExtensionPoint.new env m ;;
      point_name <- lift (ExtensionPoint.name point) ;;
      _validate_name_loop todo' (seen ++ [metadata point])
        (dict_set points point_name point)
  end.

(** [@validate("name")] *)
Definition _validate_name (proposed : string) : M ExtensionPackage :=
  let name := proposed in
  packets <-
    try_except is_ImportError
      (lift (get_metadata env name))
      (fun _ =>
         raise (ExtensionModuleNotFound
                  ("The module '" ++ name ++
                   "' could not be found. Are you sure the extension is installed?"))) ;;
  r <- _validate_name_loop packets [] [] ;;
  ret {| name := name;
         _metadata := fst r;
         _extension_points := snd r |}.

(** [ExtensionPackage(name=n)] *)
Definition new (n : string) : M ExtensionPackage := _validate_name n.

End Construction.

Definition extension_points (self : ExtensionPackage) : Dict ExtensionPoint :=
  _extension_points self.

Definition link_point (self : ExtensionPackage) (point_name : string)
    (serverapp : ServerApp) : M unit :=
  linked <- gets (fun w => dict_get_flag (_linked_points w) point_name) ;;
  if negb linked then
    point <- subscript (extension_points self) point_name ;;
    ExtensionPoint.link point serverapp ;;
    ret tt
  else ret tt.

Definition load_point (self : ExtensionPackage) (point_name : string)
    (serverapp : ServerApp) : M unit :=
  point <- subscript (extension_points self) point_name ;;
  ExtensionPoint.load point serverapp ;;
  ret tt.

Definition link_all_points (self : ExtensionPackage)
    (serverapp : ServerApp) : M unit :=
  for_each (dict_keys (extension_points self))
    (fun point_name => link_point self point_name serverapp).

Definition load_all_points (self : ExtensionPackage)
    (serverapp : ServerApp) : M unit :=
  for_each (dict_keys (extension_points self))
    (fun point_name => load_point self point_name serverapp).

End ExtensionPackage.

(* ================================================================== *)
(** * class ExtensionManager *)

Module ExtensionManager.

(** [ExtensionManager()]: a new instance; the attributes of the class are
    not touched. *)
Definition new : M ExtensionManager :=
  n <- gets instances ;;
  modify (with_instances (S n)) ;;
  ret {| manager_id := n |}.

(** The property [enabled_extensions]:
    [dict(sorted(self._enabled_extensions.items()))], a new dictionary at
    each read. *)
Definition enabled_extensions (self : ExtensionManager)
  : M (Dict ExtensionPackage) :=
  gets (fun w => dict_of_items (sorted (_enabled_extensions w))).

Section Operations.
Variable env : Env.

Definition add_extension (self : ExtensionManager) (extension_name : string)
  : M unit :=
  try_except is_Exception
    (extpkg <- ExtensionPackage.new env extension_name ;;
     modify (fun w =>
               with_enabled
                 (dict_set (_enabled_extensions w) extension_name extpkg) w))
    (fun e => log_warning e).

Definition from_jpserver_extensions (self : ExtensionManager)
    (jpserver_extensions : Dict bool) : M unit :=
  for_each jpserver_extensions
    (fun item =>
       if snd item then add_extension self (fst item) else ret tt).

End Operations.

Definition link_extension (self : ExtensionManager) (name : string)
    (serverapp : ServerApp) : M unit :=
  linked <- gets (fun w => dict_get_flag (_linked_extensions w) name) ;;
  enabled <- enabled_extensions self ;;
  extension <- subscript enabled name ;;
  if negb linked then
    try_except is_Exception
      (ExtensionPackage.link_all_points extension serverapp ;;
       log_debug ("The '" ++ name ++ "' extension was successfully linked."))
      (fun e => log_warning e)
  else ret tt.

(** [extension.load_all_points(serverapp)] where [extension] is what
    [.get(name)] gave: on [None] the attribute lookup raises. *)
Definition load_extension (self : ExtensionManager) (name : string)
    (serverapp : ServerApp) : M unit :=
  enabled <- enabled_extensions self ;;
  let extension := dict_get enabled name in
  try_except is_Exception
    match extension with
    | Some pkg => ExtensionPackage.load_all_points pkg serverapp
    | None => raise (AttributeError "load_all_points")
    end
    (fun e => log_warning e).

Definition link_all_extensions (self : ExtensionManager)
    (serverapp : ServerApp) : M unit :=
  enabled <- enabled_extensions self ;;
  for_each (dict_keys enabled)
    (fun name => link_extension self name serverapp).

Definition load_all_extensions (self : ExtensionManager)
    (serverapp : ServerApp) : M unit :=
  enabled <- enabled_extensions self ;;
  for_each (dict_keys enabled)
    (fun name => load_extension self name serverapp).

End ExtensionManager.

(* ================================================================== *)
(** * A sample installation *)

(** A small environment on which the statements below are tried: a few
    installed extensions, some of them broken in one way or another. *)
Module Sample.

Definition host : ServerApp := {| serverapp_id := "serverapp" |}.

Definition returns_none (id : string) : Hook :=
  {| hook_id := id; hook_run := fun _ => Ret RetNone |}.

Definition raises (id : string) (e : PyExc) : Hook :=
  {| hook_id := id; hook_run := fun _ => Raise e |}.

(** A module with both hooks. *)
Definition module_with_hooks (id : string) : PyObj :=
  {| obj_id := id;
     obj_name := None;
     obj_link := Some (returns_none (id ++ "._link"));
     obj_load := Some (returns_none (id ++ "._load"));
     obj_call := None |}.

(** A module whose load hook raises [e]. *)
Definition module_failing_load (id : string) (e : PyExc) : PyObj :=
  {| obj_id := id;
     obj_name := None;
     obj_link := Some (returns_none (id ++ "._link"));
     obj_load := Some (raises (id ++ "._load") e);
     obj_call := None |}.

(** A module whose link hook raises [e]. *)
Definition module_failing_link (id : string) (e : PyExc) : PyObj :=
  {| obj_id := id;
     obj_name := None;
     obj_link := Some (raises (id ++ "._link") e);
     obj_load := Some (returns_none (id ++ "._load"));
     obj_call := None |}.

(** A module that defines neither hook. *)
Definition bare_module (id : string) : PyObj :=
  {| obj_id := id;
     obj_name := None;
     obj_link := None;
     obj_load := None;
     obj_call := None |}.

(** An application object named X, and the class that makes it. *)
Definition x_app : PyObj :=
  {| obj_id := "XApp()";
     obj_name := Some "X";
     obj_link := Some (returns_none "XApp._link");
     obj_load := Some (returns_none "XApp._load");
     obj_call := None |}.

Definition XApp : PyObj :=
  {| obj_id := "XApp";
     obj_name := None;
     obj_link := None;
     obj_load := None;
     obj_call := Some (Ret (Some x_app)) |}.

Definition packet (module : string) : Packet :=
  {| pk_module := Some module; pk_name := None; pk_app := None |}.

Definition named_packet (module name : string) : Packet :=
  {| pk_module := Some module; pk_name := Some name; pk_app := None |}.

Definition app_packet (module : string) (factory : PyObj) : Packet :=
  {| pk_module := Some module; pk_name := None; pk_app := Some (Some factory) |}.

Definition packet_without_module : Packet :=
  {| pk_module := None; pk_name := Some "orphan"; pk_app := None |}.

Definition no_module_named (n : string) : PyExc :=
  ImportError ("No module named '" ++ n ++ "'").

Definition env : Env :=
  {| import_module := fun n =>
       if String.eqb n "a_ext" then Ret (module_with_hooks "a_ext")
       else if String.eqb n "b_ext" then Ret (module_with_hooks "b_ext")
       else if String.eqb n "c_ext" then Ret (module_with_hooks "c_ext")
       else if String.eqb n "pkgX" then Ret (bare_module "pkgX")
       else if String.eqb n "bare" then Ret (bare_module "bare")
       else if String.eqb n "flaky" then
         Ret (module_failing_load "flaky" (UserException "RuntimeError"))
       else if String.eqb n "stuck" then
         Ret (module_failing_link "stuck" (UserException "RuntimeError"))
       else if String.eqb n "exiting" then
         Ret (module_failing_load "exiting" (BaseExceptionOnly "SystemExit"))
       else Raise (no_module_named n);
     get_metadata := fun n =>
       if String.eqb n "a_ext" then Ret [packet "a_ext"]
       else if String.eqb n "b_ext" then Ret [packet "b_ext"]
       else if String.eqb n "c_ext" then Ret [packet "c_ext"]
       else if String.eqb n "pkgX" then Ret [app_packet "pkgX" XApp]
       else if String.eqb n "bare" then Ret [packet "bare"]
       else if String.eqb n "flaky" then Ret [packet "flaky"]
       else if String.eqb n "stuck" then Ret [packet "stuck"]
       else if String.eqb n "exiting" then Ret [packet "exiting"]
       else if String.eqb n "half" then
         Ret [packet "a_ext"; packet_without_module; packet "b_ext"]
       else Raise (no_module_named n) |}.

Definition manager : ExtensionManager := {| manager_id := 0 |}.

Definition other_manager : ExtensionManager := {| manager_id := 1 |}.

(** The state after [from_jpserver_extensions] on the names given. *)
Definition world_after (names : list string) : World :=
  snd (ExtensionManager.from_jpserver_extensions env manager
         (map (fun n => (n, true)) names) initial_world).

(** Points and a package as construction leaves them. *)
Definition a_point : ExtensionPoint :=
  {| metadata := packet "a_ext";
     _module_name := "a_ext";
     _module := module_with_hooks "a_ext" |}.

Definition a_package : ExtensionPackage :=
  {| name := "a_ext";
     _metadata := [packet "a_ext"];
     _extension_points := [("a_ext", a_point)] |}.

Definition bare_point : ExtensionPoint :=
  {| metadata := packet "bare";
     _module_name := "bare";
     _module := bare_module "bare" |}.

Definition named_point : ExtensionPoint :=
  {| metadata := named_packet "bare" "nickname";
     _module_name := "bare";
     _module := bare_module "bare" |}.

Definition x_point : ExtensionPoint :=
  {| metadata := packet_set_app (app_packet "pkgX" XApp) (Some x_app);
     _module_name := "pkgX";
     _module := bare_module "pkgX" |}.

Definition flaky_point : ExtensionPoint :=
  {| metadata := packet "flaky";
     _module_name := "flaky";
     _module := module_failing_load "flaky" (UserException "RuntimeError") |}.

Definition flaky_package : ExtensionPackage :=
  {| name := "flaky";
     _metadata := [packet "flaky"];
     _extension_points := [("flaky", flaky_point)] |}.

Definition stuck_point : ExtensionPoint :=
  {| metadata := packet "stuck";
     _module_name := "stuck";
     _module := module_failing_link "stuck" (UserException "RuntimeError") |}.

Definition stuck_package : ExtensionPackage :=
  {| name := "stuck";
     _metadata := [packet "stuck"];
     _extension_points := [("stuck", stuck_point)] |}.

(** Three extensions enabled, the second of which exits the process when
    loaded, the third of which fails when loaded. *)
Definition world_with_exit : World :=
  world_after ["a_ext"; "exiting"; "flaky"].

(** Four extensions enabled, one failing at link and one at load. *)
Definition world_with_failures : World :=
  world_after ["b_ext"; "stuck"; "flaky"; "a_ext"].

(** The scenario of the enabled map, in two orders. *)
Definition jp_b_a_c : Dict bool :=
  [("b_ext", true); ("a_ext", true); ("c_ext", false)].

Definition jp_a_b_c : Dict bool :=
  [("a_ext", true); ("b_ext", true); ("c_ext", false)].

End Sample.

(* ================================================================== *)
(** * Notions the statements use *)

Definition str_le (a b : string) : Prop := String.leb a b = true.

(** A computation that leaves a part [f] of the state as it found it,
    whether it returns or raises. *)
Definition preserves {A X} (f : World -> X) (m : M A) : Prop :=
  forall w, f (snd (m w)) = f w.

(** The exceptions a handler [except Exception] takes. *)
Definition caught (e : PyExc) : Prop := is_Exception e = true.

(** A computation that raises nothing but exceptions in [P]. *)
Definition raises_only {A} (P : PyExc -> Prop) (m : M A) : Prop :=
  forall w e, fst (m w) = Raise e -> P e.

(** A computation whose result does not depend on the state and whose only
    effect is to add the events [evs] to the trace. *)
Definition appends {A} (m : M A) (o : Outcome A) (evs : list Event) : Prop :=
  forall w, m w = (o, with_trace (trace w ++ evs) w).

Definition writer {A} (m : M A) : Prop :=
  exists o evs, appends m o evs.

Definition returns_normally {A} (m : M A) (w : World) : Prop :=
  exists a w', m w = (Ret a, w').

(** The calls of factories among the events so far. *)
Definition is_call (ev : Event) : bool :=
  match ev with
  | EvCall _ => true
  | EvHook _ _ => false
  end.

Definition calls (w : World) : list Event := filter is_call (trace w).

(** Parts of the state told by what they do not look at. *)
Definition ignores_hooks {X} (f : World -> X) : Prop :=
  forall w hook host, f (with_trace (trace w ++ [EvHook hook host]) w) = f w.

Definition ignores_trace {X} (f : World -> X) : Prop :=
  forall t w, f (with_trace t w) = f w.

Definition ignores_log {X} (f : World -> X) : Prop :=
  forall l w, f (with_log l w) = f w.

Definition ignores_enabled {X} (f : World -> X) : Prop :=
  forall d w, f (with_enabled d w) = f w.

Definition ignores_instances {X} (f : World -> X) : Prop :=
  forall n w, f (with_instances n w) = f w.

(** The dictionary the property [enabled_extensions] gives in a state. *)
Definition enabled_view (w : World) : Dict ExtensionPackage :=
  dict_of_items (sorted (_enabled_extensions w)).

(** A hook that, called on [host], returns or raises an instance of
    [Exception]. *)
Definition hook_catchable (host : ServerApp) (h : option Hook) : bool :=
  match h with
  | Some h =>
      match hook_run h host with
      | Ret _ => true
      | Raise e => is_Exception e
      end
  | None => true
  end.

(** The object whose hooks a point uses: its application object when it has
    one, its module otherwise. *)
Definition hook_owner (point : ExtensionPoint) : PyObj :=
  match ExtensionPoint.app point with
  | Some a => a
  | None => ExtensionPoint.module point
  end.

Definition point_catchable (host : ServerApp) (point : ExtensionPoint) : bool :=
  hook_catchable host (obj_link (hook_owner point)) &&
  hook_catchable host (obj_load (hook_owner point)).

Definition package_catchable (host : ServerApp) (pkg : ExtensionPackage)
  : bool :=
  forallb (fun item => point_catchable host (snd item))
    (ExtensionPackage.extension_points pkg).

(** Every hook of every enabled extension is catchable on [host]. *)
Definition registry_catchable (host : ServerApp) (w : World) : bool :=
  forallb (fun item => package_catchable host (snd item))
    (_enabled_extensions w).

(** One more extension linked, or loaded: the state [link_extension] or
    [load_extension] leaves. *)
Definition after_link (self : ExtensionManager) (host : ServerApp)
    (w : World) (name : string) : World :=
  snd (ExtensionManager.link_extension self name host w).

Definition after_load (self : ExtensionManager) (host : ServerApp)
    (w : World) (name : string) : World :=
  snd (ExtensionManager.load_extension self name host w).

Section Reachability.
Variable env : Env.

(** One operation of the module, at any of its three levels. *)
Inductive step : World -> World -> Prop :=
| step_point_new m w :
    step w (snd (ExtensionPoint.new env m w))
| step_point_link point host w :
    step w (snd (ExtensionPoint.link point host w))
| step_point_load point host w :
    step w (snd (ExtensionPoint.load point host w))
| step_package_new n w :
    step w (snd (ExtensionPackage.new env n w))
| step_link_point pkg point_name host w :
    step w (snd (ExtensionPackage.link_point pkg point_name host w))
| step_load_point pkg point_name host w :
    step w (snd (ExtensionPackage.load_point pkg point_name host w))
| step_link_all_points pkg host w :
    step w (snd (ExtensionPackage.link_all_points pkg host w))
| step_load_all_points pkg host w :
    step w (snd (ExtensionPackage.load_all_points pkg host w))
| step_manager_new w :
    step w (snd (ExtensionManager.new w))
| step_add_extension self n w :
    step w (snd (ExtensionManager.add_extension env self n w))
| step_from_jpserver_extensions self jp w :
    step w (snd (ExtensionManager.from_jpserver_extensions env self jp w))
| step_link_extension self n host w :
    step w (snd (ExtensionManager.link_extension self n host w))
| step_load_extension self n host w :
    step w (snd (ExtensionManager.load_extension self n host w))
| step_link_all_extensions self host w :
    step w (snd (ExtensionManager.link_all_extensions self host w))
| step_load_all_extensions self host w :
    step w (snd (ExtensionManager.load_all_extensions self host w)).

(** The states a process can be in: it starts with the three dictionaries
    of the classes empty and goes on by operations of the module. *)
Inductive reachable : World -> Prop :=
| reachable_initial : reachable initial_world
| reachable_step w w' : reachable w -> step w w' -> reachable w'.

(** A name of which the package is made, in any state. *)
Definition constructs (n : string) : Prop :=
  exists pkg, forall w, fst (ExtensionPackage.new env n w) = Ret pkg.

(** Every name in the registry is one of which the package is made. *)
Definition registry_sound (w : World) : Prop :=
  forall n, In n (dict_keys (_enabled_extensions w)) -> constructs n.


End Reachability.

(* ================================================================== *)
(** * Notions for the rest of the module *)

(** A package of which the points are stored under distinct names, each
    under its own name. *)
Definition package_wf (pkg : ExtensionPackage) : Prop :=
  NoDup (dict_keys (ExtensionPackage.extension_points pkg))
  /\ forall k p,
       dict_get (ExtensionPackage.extension_points pkg) k = Some p ->
       ExtensionPoint.name p = Ret k.

(** A registry of distinct names, each bound to a package of that name
    that is well formed. *)
Definition registry_wf (w : World) : Prop :=
  NoDup (dict_keys (_enabled_extensions w))
  /\ forall n pkg,
       dict_get (_enabled_extensions w) n = Some pkg ->
       name pkg = n /\ package_wf pkg.

(** The calls of factories that validating the packets makes, in order. *)
Definition factory_calls (packets : list Packet) : list Event :=
  flat_map
    (fun m =>
       match packet_get_app m with
       | Some f => [EvCall (obj_id f)]
       | None => []
       end)
    packets.

(** The calls of load hooks, and of link hooks, of the points given, in
    order; a point with no hook gives none. *)
Definition load_calls (host : ServerApp) (points : Dict ExtensionPoint)
  : list Event :=
  flat_map
    (fun item =>
       match obj_load (hook_owner (snd item)) with
       | Some h => [EvHook (hook_id h) host]
       | None => []
       end)
    points.

Definition link_calls (host : ServerApp) (points : Dict ExtensionPoint)
  : list Event :=
  flat_map
    (fun item =>
       match obj_link (hook_owner (snd item)) with
       | Some h => [EvHook (hook_id h) host]
       | None => []
       end)
    points.

(** A point of which [load] returns on [host]: the object it takes its
    hooks from has a load hook, and the hook returns. *)
Definition load_returns (host : ServerApp) (point : ExtensionPoint) : Prop :=
  exists h r,
    obj_load (hook_owner point) = Some h /\ hook_run h host = Ret r.

(** A point of which [link] returns on [host]: its link hook returns, or it
    has no application object and its module no link hook. *)
Definition link_returns (host : ServerApp) (point : ExtensionPoint) : Prop :=
  match obj_link (hook_owner point) with
  | Some h => exists r, hook_run h host = Ret r
  | None => ExtensionPoint.app point = None
  end.

Section Building.
Variable env : Env.

(** [item] is the point made from the packet [m], under its name. *)
Definition made_from (m : Packet) (item : string * ExtensionPoint) : Prop :=
  (forall w, fst (ExtensionPoint.new env m w) = Ret (snd item))
  /\ ExtensionPoint.name (snd item) = Ret (fst item).

End Building.

(* ================================================================== *)
(** * More of the sample installation *)

(** The installation of [Sample], with some more packages: one of which
    two packets give points of one name, one with three points of which
    two have application objects, one of which a point fails to load, and
    some that break in other ways. *)
Module Cases.

(** An application object with no link function, and its class. *)
Definition plain_app : PyObj :=
  {| obj_id := "PlainApp()";
     obj_name := Some "plain";
     obj_link := None;
     obj_load := Some (Sample.returns_none "PlainApp._load");
     obj_call := None |}.

Definition PlainApp : PyObj :=
  {| obj_id := "PlainApp";
     obj_name := None;
     obj_link := None;
     obj_load := None;
     obj_call := Some (Ret (Some plain_app)) |}.

Definition env : Env :=
  {| import_module := fun n =>
       if String.eqb n "broken" then Raise (UserException "SyntaxError")
       else import_module Sample.env n;
     get_metadata := fun n =>
       if String.eqb n "twins" then
         Ret [Sample.named_packet "a_ext" "same";
              Sample.named_packet "b_ext" "same"]
       else if String.eqb n "suite" then
         Ret [Sample.app_packet "pkgX" Sample.XApp;
              Sample.packet "a_ext";
              Sample.app_packet "a_ext" PlainApp]
       else if String.eqb n "pair" then
         Ret [Sample.packet "a_ext"; Sample.packet "bare"]
       else if String.eqb n "trio" then
         Ret [Sample.packet "a_ext"; Sample.packet "flaky";
              Sample.packet "b_ext"]
       else if String.eqb n "crash" then Raise (UserException "RuntimeError")
       else if String.eqb n "fatal" then
         Raise (BaseExceptionOnly "SystemExit")
       else get_metadata Sample.env n |}.

(** The package construction makes of a name, in the initial state. *)
Definition built (n : string) : ExtensionPackage :=
  match fst (ExtensionPackage.new env n initial_world) with
  | Ret pkg => pkg
  | Raise _ => {| name := n; _metadata := []; _extension_points := [] |}
  end.

(** The point of the application object with no link function, in a
    module that has one. *)
Definition plain_point : ExtensionPoint :=
  {| metadata :=
       packet_set_app (Sample.app_packet "a_ext" PlainApp) (Some plain_app);
     _module_name := "a_ext";
     _module := Sample.module_with_hooks "a_ext" |}.

Definition b_point : ExtensionPoint :=
  {| metadata := Sample.packet "b_ext";
     _module_name := "b_ext";
     _module := Sample.module_with_hooks "b_ext" |}.

Definition twin_point : ExtensionPoint :=
  {| metadata := Sample.named_packet "b_ext" "same";
     _module_name := "b_ext";
     _module := Sample.module_with_hooks "b_ext" |}.

(** The state after [from_jpserver_extensions] on the names given. *)
Definition world_after (names : list string) : World :=
  snd (ExtensionManager.from_jpserver_extensions env Sample.manager
         (map (fun n => (n, true)) names) initial_world).

End Cases.

(* ================================================================== *)
(** * Hooks of one phase *)

(** The hooks [link_all_extensions] runs, and those
    [load_all_extensions] runs, taken apart: every link hook (every load
    hook) of a point, of a package, of the registry returns on [host] or
    raises an instance of [Exception]. *)
Definition point_link_catchable (host : ServerApp) (point : ExtensionPoint)
  : bool :=
  hook_catchable host (obj_link (hook_owner point)).

Definition point_load_catchable (host : ServerApp) (point : ExtensionPoint)
  : bool :=
  hook_catchable host (obj_load (hook_owner point)).

Definition package_link_catchable (host : ServerApp) (pkg : ExtensionPackage)
  : bool :=
  forallb (fun item => point_link_catchable host (snd item))
    (ExtensionPackage.extension_points pkg).

Definition package_load_catchable (host : ServerApp) (pkg : ExtensionPackage)
  : bool :=
  forallb (fun item => point_load_catchable host (snd item))
    (ExtensionPackage.extension_points pkg).

Definition registry_link_catchable (host : ServerApp) (w : World) : bool :=
  forallb (fun item => package_link_catchable host (snd item))
    (_enabled_extensions w).

Definition registry_load_catchable (host : ServerApp) (w : World) : bool :=
  forallb (fun item => package_load_catchable host (snd item))
    (_enabled_extensions w).

(* ================================================================== *)
(** * Two more installations *)

(** The installation of [Sample], with an extension of which the link
    hook is interrupted from the keyboard. *)
Module Interrupted.

Definition env : Env :=
  {| import_module := fun n =>
       if String.eqb n "halting" then
         Ret (Sample.module_failing_link "halting"
                (BaseExceptionOnly "KeyboardInterrupt"))
       else import_module Sample.env n;
     get_metadata := fun n =>
       if String.eqb n "halting" then Ret [Sample.packet "halting"]
       else get_metadata Sample.env n |}.

Definition halting_point : ExtensionPoint :=
  {| metadata := Sample.packet "halting";
     _module_name := "halting";
     _module :=
       Sample.module_failing_link "halting"
         (BaseExceptionOnly "KeyboardInterrupt") |}.

Definition halting_package : ExtensionPackage :=
  {| name := "halting";
     _metadata := [Sample.packet "halting"];
     _extension_points := [("halting", halting_point)] |}.

(** The package of [Sample] that exits the process when loaded. *)
Definition exiting_point : ExtensionPoint :=
  {| metadata := Sample.packet "exiting";
     _module_name := "exiting";
     _module :=
       Sample.module_failing_load "exiting" (BaseExceptionOnly "SystemExit") |}.

Definition exiting_package : ExtensionPackage :=
  {| name := "exiting";
     _metadata := [Sample.packet "exiting"];
     _extension_points := [("exiting", exiting_point)] |}.

(** Three extensions enabled, the second of which is interrupted when
    linked, the third of which fails when linked. *)
Definition world : World :=
  snd (ExtensionManager.from_jpserver_extensions env Sample.manager
         [("a_ext", true); ("halting", true); ("stuck", true)]
         initial_world).

End Interrupted.

(** The installation once every package has been removed from it:
    nothing resolves any more. *)
Module Removed.

Definition env : Env :=
  {| import_module := fun n => Raise (Sample.no_module_named n);
     get_metadata := fun n => Raise (Sample.no_module_named n) |}.

End Removed.
(* ================================================================== *)
(** * The order on strings *)

Lemma str_lt_iff (a b : string) : str_lt a b <-> String_as_OT.lt a b.
Proof.
  unfold str_lt, String.ltb. rewrite <- String_as_OT.cmp_lt.
  unfold String_as_OT.cmp.
  destruct (String.compare a b); split; intro H; congruence.
Qed.

Lemma str_lt_trans (a b c : string) : str_lt a b -> str_lt b c -> str_lt a c.
Proof.
  rewrite !str_lt_iff. apply String_as_OT.lt_trans.
Qed.

Lemma str_lt_irrefl (a : string) : ~ str_lt a a.
Proof.
  rewrite str_lt_iff. intro H.
  exact (String_as_OT.lt_not_eq a a H eq_refl).
Qed.

Lemma str_le_iff (a b : string) : str_le a b <-> str_lt a b \/ a = b.
Proof.
  unfold str_le, str_lt, String.leb, String.ltb.
  destruct (String.compare a b) eqn:E; split; intro H; auto.
  - right. now apply String.compare_eq_iff.
  - destruct H as [H | H]; [discriminate |].
    subst b. assert (String_as_OT.cmp a a = Eq) as E'
      by now apply String_as_OT.cmp_eq.
    unfold String_as_OT.cmp in E'. congruence.
Qed.

Lemma str_le_trans (a b c : string) : str_le a b -> str_le b c -> str_le a c.
Proof.
  rewrite !str_le_iff.
  intros [H1 | H1] [H2 | H2]; subst; auto.
  left. eapply str_lt_trans; eassumption.
Qed.

Lemma str_le_total (a b : string) : str_le a b \/ str_le b a.
Proof. apply String.leb_total. Qed.

Lemma str_le_neq_lt (a b : string) : str_le a b -> a <> b -> str_lt a b.
Proof.
  rewrite str_le_iff. intros [H | H] N; [assumption | contradiction].
Qed.

(** Two lists in strictly ascending order with the same elements are the
    same list. *)
Lemma strictly_sorted_unique (l1 l2 : list string) :
  StronglySorted str_lt l1 -> StronglySorted str_lt l2 ->
  (forall x, In x l1 <-> In x l2) -> l1 = l2.
Proof.
  revert l2. induction l1 as [| a l1 IH]; intros l2 S1 S2 E.
  - destruct l2 as [| b l2]; [reflexivity |].
    exfalso. apply (proj2 (E b)). now left.
  - destruct l2 as [| b l2].
    + exfalso. apply (proj1 (E a)). now left.
    + inversion S1 as [| ? ? S1' F1]; subst.
      inversion S2 as [| ? ? S2' F2]; subst.
      rewrite Forall_forall in F1, F2.
      assert (a = b) as ->.
      { destruct (proj1 (E a) (or_introl eq_refl)) as [? | Ha]; [congruence |].
        destruct (proj2 (E b) (or_introl eq_refl)) as [? | Hb]; [congruence |].
        exfalso. apply (@str_lt_irrefl a).
        eapply str_lt_trans; [apply F1, Hb | apply F2, Ha]. }
      f_equal. apply IH; trivial.
      intro x. split; intro H.
      * destruct (proj1 (E x) (or_intror H)) as [<- | ?]; trivial.
        exfalso. exact (str_lt_irrefl _ (F1 _ H)).
      * destruct (proj2 (E x) (or_intror H)) as [<- | ?]; trivial.
        exfalso. exact (str_lt_irrefl _ (F2 _ H)).
Qed.

(* ================================================================== *)
(** * Dictionaries *)

Section DictFacts.
Variable V : Type.
Implicit Types (d : Dict V) (k : string) (v : V).

Lemma dict_get_In d k v : dict_get d k = Some v -> In (k, v) d.
Proof.
  induction d as [| [k' v'] d IH]; simpl; [discriminate |].
  destruct (String.eqb k k') eqn:E.
  - apply String.eqb_eq in E. intros [= ->]. left. congruence.
  - intro H. right. auto.
Qed.

Lemma dict_get_None d k : dict_get d k = None <-> ~ In k (dict_keys d).
Proof.
  induction d as [| [k' v'] d IH]; simpl.
  - split; auto.
  - destruct (String.eqb k k') eqn:E.
    + apply String.eqb_eq in E. split; [discriminate |].
      intro H. exfalso. apply H. left. congruence.
    + apply String.eqb_neq in E. rewrite IH. split.
      * intros H [H' | H']; [congruence | contradiction].
      * intros H H'. apply H. now right.
Qed.

Lemma dict_get_keys d k : In k (dict_keys d) -> exists v, dict_get d k = Some v.
Proof.
  intro H. destruct (dict_get d k) as [v |] eqn:E; [now exists v |].
  apply dict_get_None in E. contradiction.
Qed.

(** The keys after [d[k] = v]. *)
Lemma dict_keys_set d k v :
  dict_keys (dict_set d k v) =
  match dict_get d k with
  | Some _ => dict_keys d
  | None => (dict_keys d ++ [k])%list
  end.
Proof.
  induction d as [| [k' v'] d IH]; simpl; [reflexivity |].
  destruct (String.eqb k k'); simpl; [reflexivity |].
  rewrite IH. now destruct (dict_get d k).
Qed.

Lemma dict_keys_set_In d k v k' :
  In k' (dict_keys (dict_set d k v)) <-> In k' (dict_keys d) \/ k' = k.
Proof.
  rewrite dict_keys_set. destruct (dict_get d k) as [v0 |] eqn:E.
  - split; [auto |]. intros [H | ->]; trivial.
    apply dict_get_In in E. change k with (fst (k, v0)).
    now apply in_map.
  - rewrite in_app_iff. simpl. intuition.
Qed.

Lemma dict_set_In d k v x : In x (dict_set d k v) -> In x d \/ x = (k, v).
Proof.
  induction d as [| [k' v'] d IH]; simpl.
  - intros [<- | []]. now right.
  - destruct (String.eqb k k') eqn:E; simpl.
    + apply String.eqb_eq in E. subst k'. intros [<- | H]; auto.
    + intros [<- | H]; auto. destruct (IH H); auto.
Qed.

Lemma dict_of_items_In_acc (l : list (string * V)) acc x :
  In x (fold_left (fun d kv => dict_set d (fst kv) (snd kv)) l acc) ->
  In x acc \/ In x l.
Proof.
  revert acc. induction l as [| [k v] l IH]; simpl; intros acc H; [auto |].
  destruct (IH _ H) as [H' | H']; [| auto].
  destruct (dict_set_In _ _ _ _ H') as [? | ->]; auto.
Qed.

Lemma dict_of_items_keys_acc (l : list (string * V)) acc k :
  In k (dict_keys (fold_left (fun d kv => dict_set d (fst kv) (snd kv)) l acc))
  <-> In k (dict_keys acc) \/ In k (map fst l).
Proof.
  revert acc. induction l as [| [k0 v0] l IH]; simpl; intro acc.
  - intuition.
  - rewrite IH, dict_keys_set_In. intuition.
Qed.

(** Sorting the items. *)
Lemma insert_item_perm (x : string * V) l : Permutation (x :: l) (insert_item x l).
Proof.
  induction l as [| y l IH]; simpl; [reflexivity |].
  destruct (String.leb (fst x) (fst y)); [reflexivity |].
  rewrite perm_swap. now constructor.
Qed.

Lemma sorted_perm (l : list (string * V)) : Permutation l (sorted l).
Proof.
  induction l as [| x l IH]; simpl; [constructor |].
  rewrite <- insert_item_perm. now constructor.
Qed.

Lemma sorted_In (l : list (string * V)) x : In x (sorted l) <-> In x l.
Proof.
  split; apply Permutation_in; [symmetry |]; apply sorted_perm.
Qed.

Lemma insert_item_sorted (x : string * V) l :
  StronglySorted (fun a b => str_le (fst a) (fst b)) l ->
  StronglySorted (fun a b => str_le (fst a) (fst b)) (insert_item x l).
Proof.
  induction 1 as [| y l S IH F]; simpl.
  - repeat constructor.
  - destruct (String.leb (fst x) (fst y)) eqn:E.
    + constructor; [now constructor |].
      constructor; [exact E |].
      eapply Forall_impl; [| exact F].
      intros z Hz. eapply str_le_trans; [exact E | exact Hz].
    + constructor; [exact IH |].
      rewrite Forall_forall in *. intros z Hz.
      apply (Permutation_in _ (Permutation_sym (insert_item_perm x l))) in Hz.
      destruct Hz as [<- | Hz]; [| auto].
      destruct (str_le_total (fst x) (fst y)) as [H | H]; [| exact H].
      unfold str_le in H. congruence.
Qed.

Lemma sorted_sorted (l : list (string * V)) :
  StronglySorted (fun a b => str_le (fst a) (fst b)) (sorted l).
Proof.
  induction l as [| x l IH]; simpl; [constructor |].
  now apply insert_item_sorted.
Qed.

Lemma strictly_sorted_snoc (l : list string) k :
  StronglySorted str_lt l -> Forall (fun a => str_lt a k) l ->
  StronglySorted str_lt (l ++ [k])%list.
Proof.
  induction 1 as [| a l S IH F]; simpl; intro H.
  - repeat constructor.
  - inversion H; subst. constructor; [auto |].
    apply Forall_app. split; [exact F | now repeat constructor].
Qed.

(** [dict(...)] of items in ascending order has its keys in strictly
    ascending order: a key that comes again takes the place it has. *)
Lemma dict_of_items_sorted_acc (l : list (string * V)) acc :
  StronglySorted (fun a b => str_le (fst a) (fst b)) l ->
  StronglySorted str_lt (dict_keys acc) ->
  (forall a x, In a (dict_keys acc) -> In x l -> str_le a (fst x)) ->
  StronglySorted str_lt
    (dict_keys (fold_left (fun d kv => dict_set d (fst kv) (snd kv)) l acc)).
Proof.
  intro S. revert acc. induction S as [| [k v] l S IH F]; simpl; intros acc Sa B.
  - exact Sa.
  - rewrite Forall_forall in F. apply IH.
    + rewrite dict_keys_set. destruct (dict_get acc k) eqn:E; [exact Sa |].
      apply strictly_sorted_snoc; [exact Sa |].
      rewrite Forall_forall. intros a Ha.
      apply str_le_neq_lt; [apply (B a (k, v)); auto |].
      intros ->. apply dict_get_None in E. contradiction.
    + intros a x Ha Hx. apply dict_keys_set_In in Ha.
      destruct Ha as [Ha | ->]; [apply B; auto |].
      exact (F x Hx).
Qed.

Lemma dict_of_sorted_keys_sorted d :
  StronglySorted str_lt (dict_keys (dict_of_items (sorted d))).
Proof.
  apply dict_of_items_sorted_acc.
  - apply sorted_sorted.
  - constructor.
  - intros a x [].
Qed.

Lemma dict_of_sorted_keys_In d k :
  In k (dict_keys (dict_of_items (sorted d))) <-> In k (dict_keys d).
Proof.
  unfold dict_of_items. rewrite dict_of_items_keys_acc. simpl.
  unfold dict_keys. rewrite !in_map_iff. split.
  - intros [[] | [x [E H]]]. exists x. split; trivial. now apply sorted_In.
  - intros [x [E H]]. right. exists x. split; trivial. now apply sorted_In.
Qed.

Lemma dict_of_sorted_get_In d k v :
  dict_get (dict_of_items (sorted d)) k = Some v -> In (k, v) d.
Proof.
  intro H. apply dict_get_In in H.
  apply dict_of_items_In_acc in H. destruct H as [[] | H].
  now apply sorted_In.
Qed.

End DictFacts.

(* ================================================================== *)
(** * More on dictionaries *)

Section DictMore.
Variable V : Type.
Implicit Types (d : Dict V) (k : string) (v : V).

Lemma dict_get_set_same d k v : dict_get (dict_set d k v) k = Some v.
Proof.
  induction d as [| [k' v'] d IH]; simpl.
  - now rewrite String.eqb_refl.
  - destruct (String.eqb k k') eqn:E; simpl; rewrite E; [reflexivity | exact IH].
Qed.

Lemma dict_get_set_other d k v k' :
  k' <> k -> dict_get (dict_set d k v) k' = dict_get d k'.
Proof.
  intro N. induction d as [| [k0 v0] d IH]; simpl.
  - apply String.eqb_neq in N. now rewrite N.
  - destruct (String.eqb k k0) eqn:E; simpl; [| now rewrite IH].
    apply String.eqb_eq in E. subst k0.
    apply String.eqb_neq in N. now rewrite N.
Qed.

Lemma dict_set_NoDup d k v :
  NoDup (dict_keys d) -> NoDup (dict_keys (dict_set d k v)).
Proof.
  intro H. rewrite dict_keys_set. destruct (dict_get d k) eqn:E; [exact H |].
  apply dict_get_None in E.
  apply NoDup_app; [exact H | repeat constructor; intros [] |].
  intros x Hx [<- | []]. contradiction.
Qed.

Lemma dict_get_NoDup_In d k v :
  NoDup (dict_keys d) -> In (k, v) d -> dict_get d k = Some v.
Proof.
  induction d as [| [k' v'] d IH]; simpl; intros N H; [destruct H |].
  inversion N as [| ? ? Hk N']; subst.
  destruct H as [[= -> ->] | H].
  - now rewrite String.eqb_refl.
  - destruct (String.eqb k k') eqn:E; [| auto].
    apply String.eqb_eq in E. subst k'. exfalso. apply Hk.
    change k with (fst (k, v)). now apply in_map.
Qed.

Lemma dict_of_items_NoDup_acc (l : list (string * V)) acc :
  NoDup (dict_keys acc) ->
  NoDup (dict_keys (fold_left (fun d kv => dict_set d (fst kv) (snd kv)) l acc)).
Proof.
  revert acc. induction l as [| [k v] l IH]; simpl; intros acc H; [exact H |].
  apply IH. now apply dict_set_NoDup.
Qed.

Lemma dict_of_items_get_later (l : list (string * V)) acc k :
  ~ In k (map fst l) ->
  dict_get (fold_left (fun d kv => dict_set d (fst kv) (snd kv)) l acc) k
  = dict_get acc k.
Proof.
  revert acc. induction l as [| [k0 v0] l IH]; simpl; intros acc H;
    [reflexivity |].
  rewrite IH by tauto. apply dict_get_set_other. intros ->. tauto.
Qed.

(** In [dict(items)] a name is bound to the value that comes last under
    it. *)
Lemma dict_of_items_last (l1 l2 : list (string * V)) k v :
  ~ In k (map fst l2) ->
  dict_get (dict_of_items (l1 ++ (k, v) :: l2)) k = Some v.
Proof.
  intro H. unfold dict_of_items. rewrite fold_left_app. simpl.
  rewrite dict_of_items_get_later by exact H.
  apply dict_get_set_same.
Qed.

Lemma dict_set_length d k v : List.length (dict_set d k v) <= S (List.length d).
Proof.
  induction d as [| [k' v'] d IH]; simpl; [lia |].
  destruct (String.eqb k k'); simpl; lia.
Qed.

Lemma dict_of_items_length_acc (l : list (string * V)) acc :
  List.length (fold_left (fun d kv => dict_set d (fst kv) (snd kv)) l acc)
  <= List.length acc + List.length l.
Proof.
  revert acc. induction l as [| [k v] l IH]; simpl; intro acc; [lia |].
  specialize (IH (dict_set acc k v)).
  pose proof (dict_set_length acc k v). lia.
Qed.

Lemma dict_set_fresh d k v :
  ~ In k (dict_keys d) -> dict_set d k v = (d ++ [(k, v)])%list.
Proof.
  induction d as [| [k' v'] d IH]; simpl; intro H; [reflexivity |].
  destruct (String.eqb k k') eqn:E.
  - apply String.eqb_eq in E. subst. tauto.
  - rewrite IH by tauto. reflexivity.
Qed.

Lemma dict_of_items_id_acc (l : list (string * V)) acc :
  NoDup (map fst (acc ++ l)) ->
  fold_left (fun d kv => dict_set d (fst kv) (snd kv)) l acc
  = (acc ++ l)%list.
Proof.
  revert acc. induction l as [| [k v] l IH]; simpl; intros acc H.
  - now rewrite app_nil_r.
  - assert (~ In k (dict_keys acc)) as Hk.
    { rewrite map_app in H. simpl in H.
      apply NoDup_remove_2 in H. intro Hin. apply H.
      apply in_or_app. now left. }
    rewrite dict_set_fresh by exact Hk.
    rewrite IH; rewrite <- app_assoc; simpl; [reflexivity | exact H].
Qed.

(** The items of a dictionary, sorted and made a dictionary again, are the
    sorted items. *)
Lemma dict_of_sorted_id d :
  NoDup (dict_keys d) -> dict_of_items (sorted d) = sorted d.
Proof.
  intro H. unfold dict_of_items. apply dict_of_items_id_acc. simpl.
  apply (Permutation_NoDup (l := dict_keys d)); [| exact H].
  apply Permutation_map, sorted_perm.
Qed.

Lemma dict_get_perm d d' k :
  NoDup (dict_keys d) -> Permutation d d' -> dict_get d' k = dict_get d k.
Proof.
  intros N P.
  assert (NoDup (dict_keys d')) as N'.
  { apply (Permutation_NoDup (l := dict_keys d)); [| exact N].
    now apply Permutation_map. }
  destruct (dict_get d k) as [v |] eqn:E.
  - apply dict_get_NoDup_In; [exact N' |].
    apply (Permutation_in _ P). now apply dict_get_In.
  - apply dict_get_None. apply dict_get_None in E. intro H. apply E.
    apply (Permutation_in (l := dict_keys d')); [| exact H].
    apply Permutation_map. now symmetry.
Qed.

Lemma dict_of_sorted_get d k :
  NoDup (dict_keys d) -> dict_get (dict_of_items (sorted d)) k = dict_get d k.
Proof.
  intro H. rewrite dict_of_sorted_id by exact H.
  apply dict_get_perm; [exact H | apply sorted_perm].
Qed.

End DictMore.

(* ================================================================== *)
(** * Reasoning on computations *)

Section Frames.
Variables (X : Type) (f : World -> X).

Lemma preserves_ret A (a : A) : preserves f (ret a).
Proof. intro w. reflexivity. Qed.

Lemma preserves_raise A (e : PyExc) : preserves f (@raise A e).
Proof. intro w. reflexivity. Qed.

Lemma preserves_lift A (o : Outcome A) : preserves f (lift o).
Proof. intro w. reflexivity. Qed.

Lemma preserves_gets A (g : World -> A) : preserves f (gets g).
Proof. intro w. reflexivity. Qed.

Lemma preserves_modify (g : World -> World) :
  (forall w, f (g w) = f w) -> preserves f (modify g).
Proof. intros H w. apply H. Qed.

Lemma preserves_bind A B (m : M A) (k : A -> M B) :
  preserves f m -> (forall a, preserves f (k a)) -> preserves f (bind m k).
Proof.
  intros Hm Hk w. unfold bind. specialize (Hm w).
  destruct (m w) as [[a | e] w1]; simpl in *.
  - now rewrite Hk.
  - exact Hm.
Qed.

Lemma preserves_try_except A (c : PyExc -> bool) (body : M A) h :
  preserves f body -> (forall e, preserves f (h e)) ->
  preserves f (try_except c body h).
Proof.
  intros Hm Hh w. unfold try_except. specialize (Hm w).
  destruct (body w) as [[a | e] w1]; simpl in *; [exact Hm |].
  destruct (c e); simpl; [| exact Hm].
  now rewrite Hh.
Qed.

Lemma preserves_for_each A (l : list A) body :
  (forall x, preserves f (body x)) -> preserves f (for_each l body).
Proof.
  intro H. induction l as [| x l IH]; simpl.
  - apply preserves_ret.
  - apply preserves_bind; auto.
Qed.

End Frames.

Lemma calls_hook_event w hook host :
  calls (with_trace (trace w ++ [EvHook hook host]) w) = calls w.
Proof.
  unfold calls. simpl. rewrite filter_app. simpl. apply app_nil_r.
Qed.

(** Breaks a goal [preserves f m] along the shape of [m]. *)
Ltac frame_step :=
  match goal with
  | |- preserves _ (bind _ _) => apply preserves_bind; [| intro]
  | |- preserves _ (try_except _ _ _) => apply preserves_try_except; [| intro]
  | |- preserves _ (for_each _ _) => apply preserves_for_each; intro
  | |- preserves _ (ret _) => apply preserves_ret
  | |- preserves _ (raise _) => apply preserves_raise
  | |- preserves _ (lift _) => apply preserves_lift
  | |- preserves _ (gets _) => apply preserves_gets
  | |- preserves _ (modify _) =>
      apply preserves_modify; intro;
      first [reflexivity | apply calls_hook_event | solve [auto]]
  | |- preserves _ (match ?x with _ => _ end) => destruct x
  | |- preserves _ (let _ := _ in _) => cbv zeta
  end.

Ltac frame :=
  unfold subscript, call_hook, record_event, log_warning, log_debug,
    utils.get_loader;
  repeat frame_step.

Section Raising.
Variable P : PyExc -> Prop.

Lemma raises_only_ret A (a : A) : raises_only P (ret a).
Proof. intros w e. discriminate. Qed.

Lemma raises_only_gets A (g : World -> A) : raises_only P (gets g).
Proof. intros w e. discriminate. Qed.

Lemma raises_only_modify g : raises_only P (modify g).
Proof. intros w e. discriminate. Qed.

Lemma raises_only_raise A (e : PyExc) : P e -> raises_only P (@raise A e).
Proof. intros H w e' [= <-]. exact H. Qed.

Lemma raises_only_lift A (o : Outcome A) :
  (forall e, o = Raise e -> P e) -> raises_only P (lift o).
Proof. intros H w e E. apply H. exact E. Qed.

Lemma raises_only_bind A B (m : M A) (k : A -> M B) :
  raises_only P m -> (forall a, raises_only P (k a)) ->
  raises_only P (bind m k).
Proof.
  intros Hm Hk w e. unfold bind. specialize (Hm w).
  destruct (m w) as [[a | e'] w1]; simpl in *.
  - apply Hk.
  - intros [= <-]. now apply Hm.
Qed.

Lemma raises_only_for_each A (l : list A) body :
  (forall x, In x l -> raises_only P (body x)) ->
  raises_only P (for_each l body).
Proof.
  induction l as [| x l IH]; simpl; intro H.
  - apply raises_only_ret.
  - apply raises_only_bind; [apply H; now left |].
    intros _. apply IH. intros y Hy. apply H. now right.
Qed.

Lemma raises_only_try_except A (Q : PyExc -> Prop) (c : PyExc -> bool)
    (body : M A) (h : PyExc -> M A) :
  raises_only Q body ->
  (forall e, Q e -> if c e then raises_only P (h e) else P e) ->
  raises_only P (try_except c body h).
Proof.
  intros Hm Hh w e. unfold try_except. specialize (Hm w).
  destruct (body w) as [[a | e'] w1]; simpl in *; [discriminate |].
  specialize (Hh e' (Hm e' eq_refl)).
  destruct (c e'); simpl.
  - apply Hh.
  - intros [= <-]. exact Hh.
Qed.

End Raising.

(** A computation of type [unit] that raises nothing returns. *)
Lemma never_raises_returns (m : M unit) w :
  raises_only (fun _ => False) m -> fst (m w) = Ret tt.
Proof.
  intro H. specialize (H w). destruct (fst (m w)) as [[] | e]; [reflexivity |].
  destruct (H e eq_refl).
Qed.

Section Writers.

Lemma with_trace_nil w : with_trace (trace w ++ []) w = w.
Proof. destruct w. unfold with_trace. simpl. now rewrite app_nil_r. Qed.

Lemma with_trace_app w a b :
  with_trace (trace (with_trace (trace w ++ a) w) ++ b)
    (with_trace (trace w ++ a) w)
  = with_trace (trace w ++ (a ++ b)) w.
Proof. unfold with_trace. simpl. now rewrite app_assoc. Qed.

Lemma appends_fst A (m : M A) o evs w : appends m o evs -> fst (m w) = o.
Proof. intro H. now rewrite H. Qed.

Lemma appends_trace A (m : M A) o evs w :
  appends m o evs -> trace (snd (m w)) = (trace w ++ evs)%list.
Proof. intro H. now rewrite H. Qed.

Lemma writer_lift A (o : Outcome A) : writer (lift o).
Proof.
  exists o, []. intro w. unfold lift. now rewrite with_trace_nil.
Qed.

Lemma writer_ret A (a : A) : writer (ret a).
Proof. apply (writer_lift _ (Ret a)). Qed.

Lemma writer_raise A (e : PyExc) : writer (@raise A e).
Proof. apply (writer_lift _ (Raise e)). Qed.

Lemma writer_record_event ev : writer (record_event ev).
Proof. exists (Ret tt), [ev]. intro w. reflexivity. Qed.

Lemma writer_bind A B (m : M A) (k : A -> M B) :
  writer m -> (forall a, writer (k a)) -> writer (bind m k).
Proof.
  intros [o [evs Hm]] Hk. destruct o as [a | e].
  - destruct (Hk a) as [o' [evs' Hk']].
    exists o', (evs ++ evs')%list. intro w. unfold bind.
    rewrite Hm, Hk'. now rewrite with_trace_app.
  - exists (Raise e), evs. intro w. unfold bind. now rewrite Hm.
Qed.

Lemma writer_try_except A c (body : M A) h :
  writer body -> (forall e, writer (h e)) -> writer (try_except c body h).
Proof.
  intros [o [evs Hm]] Hh. destruct o as [a | e].
  - exists (Ret a), evs. intro w. unfold try_except. now rewrite Hm.
  - destruct (c e) eqn:C.
    + destruct (Hh e) as [o' [evs' Hh']].
      exists o', (evs ++ evs')%list. intro w. unfold try_except.
      rewrite Hm, C, Hh'. now rewrite with_trace_app.
    + exists (Raise e), evs. intro w. unfold try_except. now rewrite Hm, C.
Qed.

(** The result of a writer is the same in every state. *)
Lemma writer_fst A (m : M A) w w' : writer m -> fst (m w) = fst (m w').
Proof. intros [o [evs H]]. now rewrite !H. Qed.

(** A writer leaves everything but the trace. *)
Lemma writer_preserves A X (f : World -> X) (m : M A) :
  (forall t w, f (with_trace t w) = f w) -> writer m -> preserves f m.
Proof. intros Hf [o [evs H]] w. rewrite H. simpl. apply Hf. Qed.

End Writers.

Ltac writer_step :=
  match goal with
  | |- writer (bind _ _) => apply writer_bind; [| intro]
  | |- writer (try_except _ _ _) => apply writer_try_except; [| intro]
  | |- writer (ret _) => apply writer_ret
  | |- writer (raise _) => apply writer_raise
  | |- writer (lift _) => apply writer_lift
  | |- writer (record_event _) => apply writer_record_event
  | |- writer (match ?x with _ => _ end) => destruct x
  | |- writer (let _ := _ in _) => cbv zeta
  end.

(* ================================================================== *)
(** * What each operation leaves alone *)

Lemma ignores_trace_hooks X (f : World -> X) : ignores_trace f -> ignores_hooks f.
Proof. intros H w hook host. apply H. Qed.

Lemma calls_ignores_hooks : ignores_hooks calls.
Proof. intros w hook host. apply calls_hook_event. Qed.

Lemma calls_ignores_log : ignores_log calls.
Proof. intros l w. reflexivity. Qed.

Section LinkLoadFrames.
Variables (X : Type) (f : World -> X).
Hypothesis f_hooks : ignores_hooks f.

Lemma point_link_preserves point host :
  preserves f (ExtensionPoint.link point host).
Proof. unfold ExtensionPoint.link. frame. Qed.

Lemma point_load_preserves point host :
  preserves f (ExtensionPoint.load point host).
Proof. unfold ExtensionPoint.load. frame. Qed.

Lemma link_point_preserves pkg point_name host :
  preserves f (ExtensionPackage.link_point pkg point_name host).
Proof.
  unfold ExtensionPackage.link_point. frame.
  apply point_link_preserves.
Qed.

Lemma load_point_preserves pkg point_name host :
  preserves f (ExtensionPackage.load_point pkg point_name host).
Proof.
  unfold ExtensionPackage.load_point. frame.
  apply point_load_preserves.
Qed.

Lemma link_all_points_preserves pkg host :
  preserves f (ExtensionPackage.link_all_points pkg host).
Proof.
  unfold ExtensionPackage.link_all_points. frame.
  apply link_point_preserves.
Qed.

Lemma load_all_points_preserves pkg host :
  preserves f (ExtensionPackage.load_all_points pkg host).
Proof.
  unfold ExtensionPackage.load_all_points. frame.
  apply load_point_preserves.
Qed.

Hypothesis f_log : ignores_log f.

Lemma link_extension_preserves self n host :
  preserves f (ExtensionManager.link_extension self n host).
Proof.
  unfold ExtensionManager.link_extension, ExtensionManager.enabled_extensions.
  frame. apply link_all_points_preserves.
Qed.

Lemma load_extension_preserves self n host :
  preserves f (ExtensionManager.load_extension self n host).
Proof.
  unfold ExtensionManager.load_extension, ExtensionManager.enabled_extensions.
  frame. apply load_all_points_preserves.
Qed.

Lemma link_all_extensions_preserves self host :
  preserves f (ExtensionManager.link_all_extensions self host).
Proof.
  unfold ExtensionManager.link_all_extensions,
    ExtensionManager.enabled_extensions.
  frame. apply link_extension_preserves.
Qed.

Lemma load_all_extensions_preserves self host :
  preserves f (ExtensionManager.load_all_extensions self host).
Proof.
  unfold ExtensionManager.load_all_extensions,
    ExtensionManager.enabled_extensions.
  frame. apply load_extension_preserves.
Qed.

End LinkLoadFrames.

(* ================================================================== *)
(** * Construction *)

Section ConstructionFacts.
Variable env : Env.

Lemma call_writer o : writer (call o).
Proof. unfold call. repeat writer_step. Qed.

Lemma point_new_writer m : writer (ExtensionPoint.new env m).
Proof.
  unfold ExtensionPoint.new, ExtensionPoint._valid_metadata.
  repeat writer_step. apply call_writer.
Qed.

Lemma validate_name_loop_writer todo seen points :
  writer (ExtensionPackage._validate_name_loop env todo seen points).
Proof.
  revert seen points. induction todo as [| m todo IH]; intros; simpl.
  - apply writer_ret.
  - repeat writer_step; [apply point_new_writer | apply IH].
Qed.

Lemma package_new_writer n : writer (ExtensionPackage.new env n).
Proof.
  unfold ExtensionPackage.new, ExtensionPackage._validate_name.
  repeat writer_step. apply validate_name_loop_writer.
Qed.

(** What [add_extension] does, by the result of construction. *)
Lemma add_extension_cases self n w :
  match ExtensionPackage.new env n w with
  | (Ret pkg, w1) =>
      ExtensionManager.add_extension env self n w =
      (Ret tt, with_enabled (dict_set (_enabled_extensions w1) n pkg) w1)
  | (Raise e, w1) =>
      ExtensionManager.add_extension env self n w =
      if is_Exception e
      then (Ret tt, with_log (log w1 ++ [LogWarning e]) w1)
      else (Raise e, w1)
  end.
Proof.
  unfold ExtensionManager.add_extension, try_except, bind.
  destruct (ExtensionPackage.new env n w) as [[pkg | e] w1]; reflexivity.
Qed.

Section ConstructionFrames.
Variables (X : Type) (f : World -> X).
Hypothesis f_trace : ignores_trace f.

Lemma point_new_preserves m : preserves f (ExtensionPoint.new env m).
Proof. apply writer_preserves; [exact f_trace | apply point_new_writer]. Qed.

Lemma package_new_preserves n : preserves f (ExtensionPackage.new env n).
Proof. apply writer_preserves; [exact f_trace | apply package_new_writer]. Qed.

Hypothesis f_log : ignores_log f.
Hypothesis f_enabled : ignores_enabled f.

Lemma add_extension_preserves self n :
  preserves f (ExtensionManager.add_extension env self n).
Proof.
  unfold ExtensionManager.add_extension. frame.
  apply package_new_preserves.
Qed.

Lemma from_jpserver_extensions_preserves self jp :
  preserves f (ExtensionManager.from_jpserver_extensions env self jp).
Proof.
  unfold ExtensionManager.from_jpserver_extensions. frame.
  apply add_extension_preserves.
Qed.

End ConstructionFrames.

Lemma manager_new_preserves X (f : World -> X) :
  ignores_instances f -> preserves f ExtensionManager.new.
Proof. intro H. unfold ExtensionManager.new. frame. Qed.

End ConstructionFacts.

(* ================================================================== *)
(** * ExtensionPoint: validation, name, link and load *)

Section PointClaims.
Variable env : Env.




Lemma package_new_run n packets w :
  get_metadata env n = Ret packets ->
  ExtensionPackage.new env n w =
  (r <- ExtensionPackage._validate_name_loop env packets [] [] ;;
   ret {| name := n; _metadata := fst r; _extension_points := snd r |}) w.
Proof.
  intro H. unfold ExtensionPackage.new, ExtensionPackage._validate_name.
  unfold try_except, bind at 1, lift. now rewrite H.
Qed.


(** C6.  A packet with a factory under 'app', of which the module is
    found: validation calls the factory, once, and with what the factory
    returns the point is made, its packet holding the object returned in the
    place of the factory; if the factory raises, so does validation.  No
    later [link] or [load], of the point or of anything above it, calls a
    factory. *)
Theorem factory_called_once_at_validation :
  forall (m : Packet) (module_name : string) (module f : PyObj)
         (out : Outcome (option PyObj)) (w : World),
    pk_module m = Some module_name ->
    import_module env module_name = Ret module ->
    pk_app m = Some (Some f) ->
    obj_call f = Some out ->
    trace (snd (ExtensionPoint.new env m w))
      = (trace w ++ [EvCall (obj_id f)])%list
    /\ match out with
       | Ret v =>
           exists point,
             fst (ExtensionPoint.new env m w) = Ret point
             /\ metadata point = packet_set_app m v
             /\ pk_app (metadata point) = Some v
             /\ ExtensionPoint.app point = v
             /\ (forall host w',
                   calls (snd (ExtensionPoint.link point host w')) = calls w'
                   /\ calls (snd (ExtensionPoint.load point host w'))
                      = calls w')
       | Raise e => fst (ExtensionPoint.new env m w) = Raise e
       end
    /\ (forall self host w',
          calls (snd (ExtensionManager.link_all_extensions self host w'))
            = calls w'
          /\ calls (snd (ExtensionManager.load_all_extensions self host w'))
             = calls w').
Proof.
  intros m module_name module f out w Hmod Himp Happ Hcall.
  unfold ExtensionPoint.new, ExtensionPoint._valid_metadata.
  rewrite Hmod. unfold packet_get_app. rewrite Happ.
  unfold try_except, bind at 1, lift. rewrite Himp.
  unfold call. rewrite Hcall.
  unfold bind, record_event, modify, lift, ret.
  assert (forall self host w',
            calls (snd (ExtensionManager.link_all_extensions self host w'))
              = calls w'
            /\ calls (snd (ExtensionManager.load_all_extensions self host w'))
               = calls w') as Hall.
  { intros self host w'. split.
    - apply (link_all_extensions_preserves _ calls calls_ignores_hooks
               calls_ignores_log).
    - apply (load_all_extensions_preserves _ calls calls_ignores_hooks
               calls_ignores_log). }
  destruct out as [v | e]; simpl.
  - split; [reflexivity |]. split; [| exact Hall].
    eexists. split; [reflexivity |]. simpl.
    split; [reflexivity |]. split; [reflexivity |]. split; [reflexivity |].
    intros host w'. split.
    + apply (point_link_preserves _ calls calls_ignores_hooks).
    + apply (point_load_preserves _ calls calls_ignores_hooks).
  - split; [reflexivity |]. split; [reflexivity | exact Hall].
Qed.

End PointClaims.

(** C7.  The name of a point: the name of its application object when it
    has one, else what its packet has under 'name', else the name of its
    module.  The property reads the point only: it is a function of it, and
    evaluating it leaves the state as it is. *)
Theorem name_resolution :
  forall (point : ExtensionPoint),
    (forall a n,
       ExtensionPoint.app point = Some a -> obj_name a = Some n ->
       ExtensionPoint.name point = Ret n)
    /\ (forall n,
          ExtensionPoint.app point = None ->
          pk_name (metadata point) = Some n ->
          ExtensionPoint.name point = Ret n)
    /\ (ExtensionPoint.app point = None ->
        pk_name (metadata point) = None ->
        ExtensionPoint.name point = Ret (ExtensionPoint.module_name point))
    /\ (forall w, lift (ExtensionPoint.name point) w
                  = (ExtensionPoint.name point, w)).
Proof.
  intro point. unfold ExtensionPoint.name, ExtensionPoint.getattr_name.
  repeat split.
  - intros a n -> ->. reflexivity.
  - intros n -> ->. reflexivity.
  - intros -> ->. reflexivity.
Qed.

(** C5.  A point with no application object: when its module has no
    function [_load_jupyter_server_extension], [load] raises
    [LoaderNotFoundError] and does nothing else; when its module has no
    function [_link_jupyter_server_extension], [link] returns [None] and
    does nothing at all. *)
Theorem load_hook_mandatory_link_hook_optional :
  forall (point : ExtensionPoint) (host : ServerApp) (w : World),
    ExtensionPoint.app point = None ->
    (obj_load (ExtensionPoint.module point) = None ->
     ExtensionPoint.load point host w =
     (Raise (LoaderNotFoundError
               "_load_jupyter_server_extension function was not found."), w))
    /\ (obj_link (ExtensionPoint.module point) = None ->
        ExtensionPoint.link point host w = (Ret RetNone, w)).
Proof.
  intros point host w Happ. split; intro H.
  - unfold ExtensionPoint.load, utils.get_loader. rewrite Happ, H. reflexivity.
  - unfold ExtensionPoint.link. rewrite Happ, H. reflexivity.
Qed.

(* ================================================================== *)
(** * ExtensionManager: what the operations run to *)

Lemma for_each_invariant A (I : World -> Prop) (l : list A) body :
  (forall x w, I w -> I (snd (body x w))) ->
  forall w, I w -> I (snd (for_each l body w)).
Proof.
  intro H. induction l as [| x l IH]; intros w Hw; simpl; [exact Hw |].
  unfold bind. specialize (H x w Hw).
  destruct (body x w) as [[[] | e] w1]; simpl in *; auto.
Qed.

(** A loop of which every turn returns runs all its turns. *)
Lemma for_each_returns A (I : World -> Prop) (l : list A) body :
  (forall x w, In x l -> I w ->
               fst (body x w) = Ret tt /\ I (snd (body x w))) ->
  forall w, I w ->
  for_each l body w = (Ret tt, fold_left (fun w x => snd (body x w)) l w).
Proof.
  induction l as [| x l IH]; intros H w Hw; simpl; [reflexivity |].
  unfold bind. destruct (H x w (or_introl eq_refl) Hw) as [H1 H2].
  destruct (body x w) as [o w1]. simpl in *. subst o.
  apply IH; [| exact H2]. intros y w' Hy. apply H. now right.
Qed.

Lemma for_each_map A B (f : A -> B) (l : list A) (body : B -> M unit) :
  for_each (map f l) body = for_each l (fun x => body (f x)).
Proof.
  induction l as [| x l IH]; simpl; [reflexivity |]. now rewrite IH.
Qed.

Lemma for_each_app_run A (l1 l2 : list A) body w w1 :
  for_each l1 body w = (Ret tt, w1) ->
  for_each (l1 ++ l2) body w = for_each l2 body w1.
Proof.
  revert w. induction l1 as [| x l1 IH]; simpl; intros w H.
  - now injection H as <-.
  - unfold bind in *. destruct (body x w) as [[[] | e] w0]; [| discriminate].
    now apply IH.
Qed.

Lemma link_extension_run self n host w pkg :
  dict_get (enabled_view w) n = Some pkg ->
  ExtensionManager.link_extension self n host w =
  if negb (dict_get_flag (_linked_extensions w) n) then
    try_except is_Exception
      (ExtensionPackage.link_all_points pkg host ;;
       log_debug ("The '" ++ n ++ "' extension was successfully linked."))
      (fun e => log_warning e) w
  else (Ret tt, w).
Proof.
  intro H. unfold ExtensionManager.link_extension,
    ExtensionManager.enabled_extensions, bind, gets, subscript.
  fold (enabled_view w). rewrite H. unfold ret.
  now destruct (dict_get_flag (_linked_extensions w) n).
Qed.

Lemma link_extension_absent self n host w :
  dict_get (enabled_view w) n = None ->
  ExtensionManager.link_extension self n host w = (Raise (KeyError n), w).
Proof.
  intro H. unfold ExtensionManager.link_extension,
    ExtensionManager.enabled_extensions, bind, gets, subscript.
  fold (enabled_view w). now rewrite H.
Qed.

Lemma load_extension_run self n host w :
  ExtensionManager.load_extension self n host w =
  try_except is_Exception
    match dict_get (enabled_view w) n with
    | Some pkg => ExtensionPackage.load_all_points pkg host
    | None => raise (AttributeError "load_all_points")
    end
    (fun e => log_warning e) w.
Proof. reflexivity. Qed.

Lemma link_point_run pkg point_name host w point :
  dict_get (ExtensionPackage.extension_points pkg) point_name = Some point ->
  ExtensionPackage.link_point pkg point_name host w =
  if negb (dict_get_flag (_linked_points w) point_name) then
    (ExtensionPoint.link point host ;; ret tt) w
  else (Ret tt, w).
Proof.
  intro H. unfold ExtensionPackage.link_point, bind at 1, gets, subscript.
  rewrite H.
  destruct (dict_get_flag (_linked_points w) point_name); reflexivity.
Qed.

(* ================================================================== *)
(** * Exceptions that [except Exception] catches *)

Section Catchable.
Variable host : ServerApp.

Lemma call_hook_raises h :
  hook_catchable host (Some h) = true -> raises_only caught (call_hook h host).
Proof.
  unfold hook_catchable, call_hook. intro H.
  apply raises_only_bind; [apply raises_only_modify |]. intros _.
  apply raises_only_lift. intros e E. now rewrite E in H.
Qed.

Lemma point_link_raises point :
  point_catchable host point = true ->
  raises_only caught (ExtensionPoint.link point host).
Proof.
  unfold point_catchable, hook_owner. intro H.
  apply andb_prop in H. destruct H as [H _].
  intros w e. unfold ExtensionPoint.link, bind, ret, raise.
  destruct (ExtensionPoint.app point) as [a |].
  - destruct (obj_link a) as [h |].
    + now apply call_hook_raises.
    + intros [= <-]. reflexivity.
  - destruct (obj_link (ExtensionPoint.module point)) as [h |].
    + now apply call_hook_raises.
    + discriminate.
Qed.

Lemma point_load_raises point :
  point_catchable host point = true ->
  raises_only caught (ExtensionPoint.load point host).
Proof.
  unfold point_catchable. intro H.
  apply andb_prop in H. destruct H as [_ H].
  intros w e. unfold ExtensionPoint.load, utils.get_loader, bind, ret, raise.
  fold (hook_owner point).
  destruct (obj_load (hook_owner point)) as [h |].
  - now apply call_hook_raises.
  - intros [= <-]. reflexivity.
Qed.

Lemma package_point_catchable pkg point_name point :
  package_catchable host pkg = true ->
  dict_get (ExtensionPackage.extension_points pkg) point_name = Some point ->
  point_catchable host point = true.
Proof.
  unfold package_catchable. rewrite forallb_forall. intros H E.
  apply dict_get_In in E. exact (H _ E).
Qed.

Lemma link_point_raises pkg point_name :
  package_catchable host pkg = true ->
  raises_only caught (ExtensionPackage.link_point pkg point_name host).
Proof.
  intros H w e.
  unfold ExtensionPackage.link_point, bind at 1, gets, subscript.
  destruct (dict_get_flag (_linked_points w) point_name); simpl;
    [discriminate |].
  unfold bind at 1.
  destruct (dict_get (ExtensionPackage.extension_points pkg) point_name)
    as [point |] eqn:E; simpl.
  - pose proof (point_link_raises point
                  (package_point_catchable _ _ _ H E) w e) as P.
    unfold bind.
    destruct (ExtensionPoint.link point host w) as [[r | e'] w1];
      simpl in *; [discriminate |].
    intros [= <-]. now apply P.
  - intros [= <-]. reflexivity.
Qed.

Lemma load_point_raises pkg point_name :
  package_catchable host pkg = true ->
  raises_only caught (ExtensionPackage.load_point pkg point_name host).
Proof.
  intros H w e.
  unfold ExtensionPackage.load_point, bind at 1, subscript.
  destruct (dict_get (ExtensionPackage.extension_points pkg) point_name)
    as [point |] eqn:E; simpl.
  - pose proof (point_load_raises point
                  (package_point_catchable _ _ _ H E) w e) as P.
    unfold bind.
    destruct (ExtensionPoint.load point host w) as [[r | e'] w1];
      simpl in *; [discriminate |].
    intros [= <-]. now apply P.
  - intros [= <-]. reflexivity.
Qed.

Lemma link_all_points_raises pkg :
  package_catchable host pkg = true ->
  raises_only caught (ExtensionPackage.link_all_points pkg host).
Proof.
  intro H. apply raises_only_for_each. intros. now apply link_point_raises.
Qed.

Lemma load_all_points_raises pkg :
  package_catchable host pkg = true ->
  raises_only caught (ExtensionPackage.load_all_points pkg host).
Proof.
  intro H. apply raises_only_for_each. intros. now apply load_point_raises.
Qed.

Lemma registry_package_catchable w n pkg :
  registry_catchable host w = true ->
  dict_get (enabled_view w) n = Some pkg ->
  package_catchable host pkg = true.
Proof.
  unfold registry_catchable. rewrite forallb_forall. intros H E.
  apply dict_of_sorted_get_In in E. exact (H _ E).
Qed.

(** Whatever a handler [except Exception: self.log.warning(e)] guards, if
    it raises instances of [Exception] only, the whole returns. *)
Lemma guarded_returns (body : M unit) w :
  raises_only caught body ->
  fst (try_except is_Exception body (fun e => log_warning e) w) = Ret tt.
Proof.
  intro H. apply never_raises_returns.
  apply raises_only_try_except with (Q := caught); [exact H |].
  intros e He. rewrite He. apply raises_only_modify.
Qed.

Lemma link_extension_returns self n w :
  registry_catchable host w = true ->
  In n (dict_keys (enabled_view w)) ->
  fst (ExtensionManager.link_extension self n host w) = Ret tt.
Proof.
  intros H Hin. destruct (dict_get_keys _ _ _ Hin) as [pkg E].
  rewrite (link_extension_run self n host w pkg E).
  destruct (negb (dict_get_flag (_linked_extensions w) n)); [| reflexivity].
  apply guarded_returns.
  apply raises_only_bind; [| intros; apply raises_only_modify].
  apply link_all_points_raises.
  exact (registry_package_catchable _ _ _ H E).
Qed.

Lemma load_extension_returns self n w :
  registry_catchable host w = true ->
  fst (ExtensionManager.load_extension self n host w) = Ret tt.
Proof.
  intro H. rewrite load_extension_run. apply guarded_returns.
  destruct (dict_get (enabled_view w) n) as [pkg |] eqn:E.
  - apply load_all_points_raises.
    exact (registry_package_catchable _ _ _ H E).
  - now apply raises_only_raise.
Qed.

End Catchable.

(* ================================================================== *)
(** * ExtensionManager: linking and loading all extensions *)

Lemma registry_catchable_same host w w' :
  _enabled_extensions w' = _enabled_extensions w ->
  registry_catchable host w' = registry_catchable host w.
Proof. unfold registry_catchable. now intros ->. Qed.

Lemma enabled_view_same w w' :
  _enabled_extensions w' = _enabled_extensions w ->
  enabled_view w' = enabled_view w.
Proof. unfold enabled_view. now intros ->. Qed.

Lemma link_extension_guarded self n pkg host w0 e w1 :
  dict_get (enabled_view w0) n = Some pkg ->
  dict_get_flag (_linked_extensions w0) n = false ->
  ExtensionPackage.link_all_points pkg host w0 = (Raise e, w1) ->
  is_Exception e = true ->
  ExtensionManager.link_extension self n host w0
  = (Ret tt, with_log (log w0 ++ [LogWarning e]) w1).
Proof.
  intros E F L C. rewrite (link_extension_run self n host w0 pkg E), F. simpl.
  pose proof (link_all_points_preserves _ log (fun _ _ _ => eq_refl)
                pkg host w0) as P.
  unfold try_except, bind. rewrite L in *. simpl in P.
  rewrite C. unfold log_warning, modify. now rewrite P.
Qed.

Lemma load_extension_guarded self n pkg host w0 e w1 :
  dict_get (enabled_view w0) n = Some pkg ->
  ExtensionPackage.load_all_points pkg host w0 = (Raise e, w1) ->
  ExtensionManager.load_extension self n host w0
  = if is_Exception e
    then (Ret tt, with_log (log w0 ++ [LogWarning e]) w1)
    else (Raise e, w1).
Proof.
  intros E L. rewrite load_extension_run, E.
  pose proof (load_all_points_preserves _ log (fun _ _ _ => eq_refl)
                pkg host w0) as P.
  unfold try_except. rewrite L in *. simpl in P.
  destruct (is_Exception e); [| reflexivity].
  unfold log_warning, modify. now rewrite P.
Qed.

Section OnePhase.
Variable host : ServerApp.

Lemma point_link_raises_only point :
  point_link_catchable host point = true ->
  raises_only caught (ExtensionPoint.link point host).
Proof.
  unfold point_link_catchable, hook_owner. intro H.
  intros w e. unfold ExtensionPoint.link, bind, ret, raise.
  destruct (ExtensionPoint.app point) as [a |].
  - destruct (obj_link a) as [h |].
    + now apply call_hook_raises.
    + intros [= <-]. reflexivity.
  - destruct (obj_link (ExtensionPoint.module point)) as [h |].
    + now apply call_hook_raises.
    + discriminate.
Qed.

Lemma point_load_raises_only point :
  point_load_catchable host point = true ->
  raises_only caught (ExtensionPoint.load point host).
Proof.
  unfold point_load_catchable. intro H.
  intros w e. unfold ExtensionPoint.load, utils.get_loader, bind, ret, raise.
  fold (hook_owner point).
  destruct (obj_load (hook_owner point)) as [h |].
  - now apply call_hook_raises.
  - intros [= <-]. reflexivity.
Qed.

Lemma link_all_points_raises_only pkg :
  package_link_catchable host pkg = true ->
  raises_only caught (ExtensionPackage.link_all_points pkg host).
Proof.
  unfold package_link_catchable. rewrite forallb_forall. intro H.
  apply raises_only_for_each. intros point_name _ w e.
  unfold ExtensionPackage.link_point, bind at 1, gets, subscript.
  destruct (dict_get_flag (_linked_points w) point_name); simpl;
    [discriminate |].
  unfold bind at 1.
  destruct (dict_get (ExtensionPackage.extension_points pkg) point_name)
    as [point |] eqn:E; simpl.
  - pose proof (point_link_raises_only point (H _ (dict_get_In _ _ _ _ E))
                  w e) as P.
    unfold bind.
    destruct (ExtensionPoint.link point host w) as [[r | e'] w1];
      simpl in *; [discriminate |].
    intros [= <-]. now apply P.
  - intros [= <-]. reflexivity.
Qed.

Lemma load_all_points_raises_only pkg :
  package_load_catchable host pkg = true ->
  raises_only caught (ExtensionPackage.load_all_points pkg host).
Proof.
  unfold package_load_catchable. rewrite forallb_forall. intro H.
  apply raises_only_for_each. intros point_name _ w e.
  unfold ExtensionPackage.load_point, bind at 1, subscript.
  destruct (dict_get (ExtensionPackage.extension_points pkg) point_name)
    as [point |] eqn:E; simpl.
  - pose proof (point_load_raises_only point (H _ (dict_get_In _ _ _ _ E))
                  w e) as P.
    unfold bind.
    destruct (ExtensionPoint.load point host w) as [[r | e'] w1];
      simpl in *; [discriminate |].
    intros [= <-]. now apply P.
  - intros [= <-]. reflexivity.
Qed.

Lemma link_extension_returns_for self n w pkg :
  dict_get (enabled_view w) n = Some pkg ->
  package_link_catchable host pkg = true ->
  fst (ExtensionManager.link_extension self n host w) = Ret tt.
Proof.
  intros E H. rewrite (link_extension_run self n host w pkg E).
  destruct (negb (dict_get_flag (_linked_extensions w) n)); [| reflexivity].
  apply guarded_returns.
  apply raises_only_bind; [| intros; apply raises_only_modify].
  now apply link_all_points_raises_only.
Qed.

Lemma load_extension_returns_for self n w :
  (forall pkg,
     dict_get (enabled_view w) n = Some pkg ->
     package_load_catchable host pkg = true) ->
  fst (ExtensionManager.load_extension self n host w) = Ret tt.
Proof.
  intro H. rewrite load_extension_run. apply guarded_returns.
  destruct (dict_get (enabled_view w) n) as [pkg |] eqn:E.
  - apply load_all_points_raises_only. now apply H.
  - now apply raises_only_raise.
Qed.

Lemma registry_link_package w n pkg :
  registry_link_catchable host w = true ->
  dict_get (enabled_view w) n = Some pkg ->
  package_link_catchable host pkg = true.
Proof.
  unfold registry_link_catchable. rewrite forallb_forall. intros H E.
  apply dict_of_sorted_get_In in E. exact (H _ E).
Qed.

Lemma registry_load_package w n pkg :
  registry_load_catchable host w = true ->
  dict_get (enabled_view w) n = Some pkg ->
  package_load_catchable host pkg = true.
Proof.
  unfold registry_load_catchable. rewrite forallb_forall. intros H E.
  apply dict_of_sorted_get_In in E. exact (H _ E).
Qed.

End OnePhase.

(** What [link_extension] makes of an exception of [link_all_points]. *)
Lemma link_extension_on_raise self n pkg host w0 e w1 :
  dict_get (enabled_view w0) n = Some pkg ->
  dict_get_flag (_linked_extensions w0) n = false ->
  ExtensionPackage.link_all_points pkg host w0 = (Raise e, w1) ->
  ExtensionManager.link_extension self n host w0
  = if is_Exception e
    then (Ret tt, with_log (log w0 ++ [LogWarning e]) w1)
    else (Raise e, w1).
Proof.
  intros E F L. rewrite (link_extension_run self n host w0 pkg E), F. simpl.
  pose proof (link_all_points_preserves _ log (fun _ _ _ => eq_refl)
                pkg host w0) as P.
  unfold try_except, bind. rewrite L in *. simpl in P.
  destruct (is_Exception e); [| reflexivity].
  unfold log_warning, modify. now rewrite P.
Qed.

(** A loop of which the turns before one return and that one raises:
    the loop raises there, and the turns after it are not run. *)
Lemma for_each_aborts A (I : World -> Prop) (before after : list A) (x : A)
    body e w w2 :
  (forall y w0, In y before -> I w0 ->
                fst (body y w0) = Ret tt /\ I (snd (body y w0))) ->
  I w ->
  body x (fold_left (fun w0 y => snd (body y w0)) before w) = (Raise e, w2) ->
  for_each (before ++ x :: after) body w = (Raise e, w2).
Proof.
  intros H Hw Hx.
  rewrite (for_each_app_run _ before (x :: after) body w _
             (for_each_returns _ I before body H w Hw)).
  simpl. unfold bind. now rewrite Hx.
Qed.

Lemma fold_after_link_frame X (f : World -> X) self host names w :
  ignores_hooks f -> ignores_log f ->
  f (fold_left (after_link self host) names w) = f w.
Proof.
  intros Hh Hl. revert w. induction names as [| n names IH]; intro w; simpl;
    [reflexivity |].
  rewrite IH. now apply link_extension_preserves.
Qed.

Lemma fold_after_load_frame X (f : World -> X) self host names w :
  ignores_hooks f -> ignores_log f ->
  f (fold_left (after_load self host) names w) = f w.
Proof.
  intros Hh Hl. revert w. induction names as [| n names IH]; intro w; simpl;
    [reflexivity |].
  rewrite IH. now apply load_extension_preserves.
Qed.

(** C1, as amended.  The names [enabled_extensions] gives are in
    strictly ascending order.  When the link hooks of the enabled
    extensions raise, on the host, nothing but instances of [Exception],
    [link_all_extensions] returns, and the state it leaves is the one
    reached by [link_extension] on each enabled name, once each, in that
    order; the same for [load_all_extensions] and the load hooks.  An
    extension of which the linking or loading raises an instance of
    [Exception] has it logged as a warning by the call for that
    extension, which returns; an exception that is not an instance of
    [Exception] is not caught by that call, which raises it, unlogged.
    When the extensions before one in the order raise instances of
    [Exception] only and that one raises an exception that is not, the
    exception reaches the caller of [link_all_extensions] (of
    [load_all_extensions]) in the state where it was raised: the
    extensions after it are not attempted.  Neither loop changes the
    registry or the linked flags. *)
Theorem all_extensions_attempted_in_order :
  forall (self : ExtensionManager) (host : ServerApp) (w : World),
    StronglySorted str_lt (dict_keys (enabled_view w))
    /\ (registry_link_catchable host w = true ->
        ExtensionManager.link_all_extensions self host w
        = (Ret tt,
           fold_left (after_link self host) (dict_keys (enabled_view w)) w))
    /\ (registry_load_catchable host w = true ->
        ExtensionManager.load_all_extensions self host w
        = (Ret tt,
           fold_left (after_load self host) (dict_keys (enabled_view w)) w))
    /\ (forall n pkg w0 e w1,
          dict_get (enabled_view w0) n = Some pkg ->
          dict_get_flag (_linked_extensions w0) n = false ->
          ExtensionPackage.link_all_points pkg host w0 = (Raise e, w1) ->
          ExtensionManager.link_extension self n host w0
          = if is_Exception e
            then (Ret tt, with_log (log w0 ++ [LogWarning e]) w1)
            else (Raise e, w1))
    /\ (forall n pkg w0 e w1,
          dict_get (enabled_view w0) n = Some pkg ->
          ExtensionPackage.load_all_points pkg host w0 = (Raise e, w1) ->
          ExtensionManager.load_extension self n host w0
          = if is_Exception e
            then (Ret tt, with_log (log w0 ++ [LogWarning e]) w1)
            else (Raise e, w1))
    /\ (forall before n after pkg e w2,
          dict_keys (enabled_view w) = (before ++ n :: after)%list ->
          (forall k pkg',
             In k before -> dict_get (enabled_view w) k = Some pkg' ->
             package_link_catchable host pkg' = true) ->
          dict_get (enabled_view w) n = Some pkg ->
          dict_get_flag (_linked_extensions w) n = false ->
          ExtensionPackage.link_all_points pkg host
            (fold_left (after_link self host) before w)
          = (Raise e, w2) ->
          is_Exception e = false ->
          ExtensionManager.link_all_extensions self host w = (Raise e, w2))
    /\ (forall before n after pkg e w2,
          dict_keys (enabled_view w) = (before ++ n :: after)%list ->
          (forall k pkg',
             In k before -> dict_get (enabled_view w) k = Some pkg' ->
             package_load_catchable host pkg' = true) ->
          dict_get (enabled_view w) n = Some pkg ->
          ExtensionPackage.load_all_points pkg host
            (fold_left (after_load self host) before w)
          = (Raise e, w2) ->
          is_Exception e = false ->
          ExtensionManager.load_all_extensions self host w = (Raise e, w2))
    /\ (forall w',
          w' = snd (ExtensionManager.link_all_extensions self host w) \/
          w' = snd (ExtensionManager.load_all_extensions self host w) ->
          _enabled_extensions w' = _enabled_extensions w
          /\ _linked_extensions w' = _linked_extensions w
          /\ _linked_points w' = _linked_points w).
Proof.
  intros self host w.
  split; [apply dict_of_sorted_keys_sorted |].
  split; [| split; [| split; [| split; [| split; [| split]]]]].
  - intro H.
    unfold ExtensionManager.link_all_extensions,
      ExtensionManager.enabled_extensions, bind, gets.
    fold (enabled_view w).
    apply (for_each_returns _
             (fun w' => _enabled_extensions w' = _enabled_extensions w));
      [| reflexivity].
    intros n w' Hn Hw'. split.
    + rewrite <- (enabled_view_same w w' Hw') in Hn.
      destruct (dict_get_keys _ _ _ Hn) as [pkg E].
      apply (link_extension_returns_for host self n w' pkg E).
      apply (registry_link_package host w n pkg H).
      now rewrite <- (enabled_view_same w w' Hw').
    + rewrite <- Hw'.
      apply (link_extension_preserves _ _enabled_extensions);
        intros ?; reflexivity.
  - intro H.
    unfold ExtensionManager.load_all_extensions,
      ExtensionManager.enabled_extensions, bind, gets.
    fold (enabled_view w).
    apply (for_each_returns _
             (fun w' => _enabled_extensions w' = _enabled_extensions w));
      [| reflexivity].
    intros n w' Hn Hw'. split.
    + apply load_extension_returns_for. intros pkg E.
      apply (registry_load_package host w n pkg H).
      now rewrite <- (enabled_view_same w w' Hw').
    + rewrite <- Hw'.
      apply (load_extension_preserves _ _enabled_extensions);
        intros ?; reflexivity.
  - intros n pkg w0 e w1. apply link_extension_on_raise.
  - intros n pkg w0 e w1. apply load_extension_guarded.
  - intros before n after pkg e w2 Hnames Hbefore E F L C.
    unfold ExtensionManager.link_all_extensions,
      ExtensionManager.enabled_extensions, bind, gets.
    fold (enabled_view w). rewrite Hnames.
    apply (for_each_aborts _
             (fun w' => _enabled_extensions w' = _enabled_extensions w));
      [| reflexivity |].
    + intros k w' Hk Hw'. split.
      * assert (In k (dict_keys (enabled_view w))) as Hin
          by (rewrite Hnames; apply in_or_app; now left).
        destruct (dict_get_keys _ _ _ Hin) as [pkg' E'].
        apply (link_extension_returns_for host self k w' pkg').
        -- now rewrite (enabled_view_same w w' Hw').
        -- exact (Hbefore k pkg' Hk E').
      * rewrite <- Hw'.
        apply (link_extension_preserves _ _enabled_extensions);
          intros ?; reflexivity.
    + change (fun (w0 : World) (y : string) =>
                snd (ExtensionManager.link_extension self y host w0))
        with (after_link self host).
      rewrite (link_extension_on_raise self n pkg host _ e w2); [now rewrite C | | | exact L].
      * rewrite (enabled_view_same w); [exact E |].
        apply fold_after_link_frame; intros ?; reflexivity.
      * rewrite fold_after_link_frame; [exact F | |]; intros ?; reflexivity.
  - intros before n after pkg e w2 Hnames Hbefore E L C.
    unfold ExtensionManager.load_all_extensions,
      ExtensionManager.enabled_extensions, bind, gets.
    fold (enabled_view w). rewrite Hnames.
    apply (for_each_aborts _
             (fun w' => _enabled_extensions w' = _enabled_extensions w));
      [| reflexivity |].
    + intros k w' Hk Hw'. split.
      * apply load_extension_returns_for. intros pkg' E'.
        apply (Hbefore k pkg' Hk).
        now rewrite <- (enabled_view_same w w' Hw').
      * rewrite <- Hw'.
        apply (load_extension_preserves _ _enabled_extensions);
          intros ?; reflexivity.
    + change (fun (w0 : World) (y : string) =>
                snd (ExtensionManager.load_extension self y host w0))
        with (after_load self host).
      rewrite (load_extension_guarded self n pkg host _ e w2); [now rewrite C | | exact L].
      rewrite (enabled_view_same w); [exact E |].
      apply fold_after_load_frame; intros ?; reflexivity.
  - intros w' [-> | ->]; repeat split;
      first [ apply link_all_extensions_preserves
            | apply load_all_extensions_preserves ];
      intros ?; reflexivity.
Qed.

(** C9, as amended.  [load_extension] on any name: for a name that is not
    enabled the lookup gives [None], the call on it raises
    [AttributeError], which is logged as a warning, and [load_extension]
    returns; for an enabled name, what [load_all_points] raises is logged
    as a warning and not raised again when it is an instance of
    [Exception], and goes through to the caller, unlogged, when it is not;
    so [load_extension] never raises an instance of [Exception], and it
    returns whenever the hooks raise nothing else. *)
Theorem load_extension_catches_Exception :
  forall (self : ExtensionManager) (name : string) (host : ServerApp)
         (w : World),
    (dict_get (enabled_view w) name = None ->
     ExtensionManager.load_extension self name host w
     = (Ret tt,
        with_log (log w ++ [LogWarning (AttributeError "load_all_points")]) w))
    /\ (forall pkg w1,
          dict_get (enabled_view w) name = Some pkg ->
          ExtensionPackage.load_all_points pkg host w = (Ret tt, w1) ->
          ExtensionManager.load_extension self name host w = (Ret tt, w1))
    /\ (forall pkg e w1,
          dict_get (enabled_view w) name = Some pkg ->
          ExtensionPackage.load_all_points pkg host w = (Raise e, w1) ->
          ExtensionManager.load_extension self name host w
          = if is_Exception e
            then (Ret tt, with_log (log w ++ [LogWarning e]) w1)
            else (Raise e, w1))
    /\ (forall e,
          fst (ExtensionManager.load_extension self name host w) = Raise e ->
          is_Exception e = false)
    /\ (registry_catchable host w = true ->
        fst (ExtensionManager.load_extension self name host w) = Ret tt).
Proof.
  intros self name host w. split; [| split; [| split; [| split]]].
  - intro E. rewrite load_extension_run, E. reflexivity.
  - intros pkg w1 E L. rewrite load_extension_run, E.
    unfold try_except. now rewrite L.
  - intros pkg e w1. apply load_extension_guarded.
  - intros e. rewrite load_extension_run. unfold try_except.
    destruct (match dict_get (enabled_view w) name with
              | Some pkg => ExtensionPackage.load_all_points pkg host
              | None => raise (AttributeError "load_all_points")
              end w) as [[[] | e'] w1]; simpl; [discriminate |].
    destruct (is_Exception e') eqn:C; simpl; [discriminate |].
    now intros [= <-].
  - apply load_extension_returns.
Qed.

(* ================================================================== *)
(** * The dictionaries of the classes *)

Section ClassState.
Variable env : Env.

(** An operation changes no part of the state that none of its writes
    reaches. *)
Lemma step_preserves X (f : World -> X) :
  ignores_trace f -> ignores_log f -> ignores_enabled f ->
  ignores_instances f ->
  forall w w', step env w w' -> f w' = f w.
Proof.
  intros Ht Hl He Hi w w' S.
  pose proof (ignores_trace_hooks _ f Ht) as Hh.
  destruct S.
  - now apply point_new_preserves.
  - now apply point_link_preserves.
  - now apply point_load_preserves.
  - now apply package_new_preserves.
  - now apply link_point_preserves.
  - now apply load_point_preserves.
  - now apply link_all_points_preserves.
  - now apply load_all_points_preserves.
  - now apply manager_new_preserves.
  - now apply add_extension_preserves.
  - now apply from_jpserver_extensions_preserves.
  - now apply link_extension_preserves.
  - now apply load_extension_preserves.
  - now apply link_all_extensions_preserves.
  - now apply load_all_extensions_preserves.
Qed.

Lemma reachable_linked_empty w :
  reachable env w -> _linked_points w = [] /\ _linked_extensions w = [].
Proof.
  induction 1 as [| w w' _ [IH1 IH2] S]; [split; reflexivity |].
  split.
  - rewrite <- IH1.
    apply (step_preserves _ _linked_points) with (5 := S);
      intros ? ?; reflexivity.
  - rewrite <- IH2.
    apply (step_preserves _ _linked_extensions) with (5 := S);
      intros ? ?; reflexivity.
Qed.

(** C8.  In every state the operations of the module reach, the two
    dictionaries of linked flags are empty.  So [link_point] on a name of
    the package runs the [link] of the point, calling the link hook when
    there is one, and [link_extension] on an enabled name runs
    [link_all_points] of the package under its handler: the test on the
    flag never turns a call into nothing. *)
Theorem linked_flags_never_set :
  forall (w : World),
    reachable env w ->
    _linked_points w = []
    /\ _linked_extensions w = []
    /\ (forall pkg point_name point host,
          dict_get (ExtensionPackage.extension_points pkg) point_name
            = Some point ->
          ExtensionPackage.link_point pkg point_name host w
            = (ExtensionPoint.link point host ;; ret tt) w
          /\ (forall h,
                obj_link (hook_owner point) = Some h ->
                trace (snd (ExtensionPackage.link_point pkg point_name host w))
                = (trace w ++ [EvHook (hook_id h) host])%list))
    /\ (forall self n pkg host,
          dict_get (enabled_view w) n = Some pkg ->
          ExtensionManager.link_extension self n host w
          = try_except is_Exception
              (ExtensionPackage.link_all_points pkg host ;;
               log_debug
                 ("The '" ++ n ++ "' extension was successfully linked."))
              (fun e => log_warning e) w).
Proof.
  intros w R. destruct (reachable_linked_empty w R) as [E1 E2].
  split; [exact E1 |]. split; [exact E2 |]. split.
  - intros pkg point_name point host E.
    assert (ExtensionPackage.link_point pkg point_name host w
            = (ExtensionPoint.link point host ;; ret tt) w) as L.
    { rewrite (link_point_run pkg point_name host w point E), E1.
      reflexivity. }
    split; [exact L |]. intros h Hh. rewrite L.
    unfold ExtensionPoint.link, hook_owner in *.
    destruct (ExtensionPoint.app point) as [a |];
      unfold bind, ret, call_hook, bind, record_event, modify, lift;
      rewrite Hh; simpl;
      now destruct (hook_run h host).
  - intros self n pkg host E.
    rewrite (link_extension_run self n host w pkg E), E2. reflexivity.
Qed.

(** C10.  The registry belongs to the class: once [add_extension] on one
    instance has made the package of a name, the name is in what
    [enabled_extensions] gives on any instance, the ones made later
    included; the property gives the same dictionary whatever the
    instance.  In the same way the flags [link_point] reads are those of
    the class, the same for every package: under a flag that is set, no
    package links the point of that name. *)
Theorem enabled_extensions_is_class_state :
  forall (self other : ExtensionManager) (n : string)
         (pkg : ExtensionPackage) (w w1 : World),
    ExtensionPackage.new env n w = (Ret pkg, w1) ->
    let w' := snd (ExtensionManager.add_extension env self n w) in
    fst (ExtensionManager.add_extension env self n w) = Ret tt
    /\ ExtensionManager.enabled_extensions other w'
       = ExtensionManager.enabled_extensions self w'
    /\ (exists d,
          ExtensionManager.enabled_extensions other w' = (Ret d, w')
          /\ In n (dict_keys d))
    /\ (forall later w'',
          ExtensionManager.new w' = (Ret later, w'') ->
          exists d,
            ExtensionManager.enabled_extensions later w'' = (Ret d, w'')
            /\ In n (dict_keys d))
    /\ (forall pkg1 pkg2 point_name host w0,
          dict_get_flag (_linked_points w0) point_name = true ->
          ExtensionPackage.link_point pkg1 point_name host w0 = (Ret tt, w0)
          /\ ExtensionPackage.link_point pkg2 point_name host w0
             = (Ret tt, w0)).
Proof.
  intros self other n pkg w w1 E w'.
  pose proof (add_extension_cases env self n w) as C. rewrite E in C.
  assert (In n (dict_keys (enabled_view w'))) as Hin.
  { subst w'. rewrite C. simpl. unfold enabled_view. simpl.
    apply dict_of_sorted_keys_In, dict_keys_set_In. now right. }
  split; [now rewrite C |]. split; [reflexivity |]. split.
  - exists (enabled_view w'). split; [reflexivity | exact Hin].
  - split.
    + intros later w'' N. exists (enabled_view w''). split; [reflexivity |].
      unfold ExtensionManager.new, bind, gets, modify, ret in N.
      injection N as _ <-. exact Hin.
    + intros pkg1 pkg2 point_name host w0 F.
      unfold ExtensionPackage.link_point, bind, gets. rewrite F.
      split; reflexivity.
Qed.

Lemma registry_sound_same w w' :
  _enabled_extensions w' = _enabled_extensions w ->
  registry_sound env w -> registry_sound env w'.
Proof. unfold registry_sound. now intros ->. Qed.

Lemma constructs_at n w pkg :
  fst (ExtensionPackage.new env n w) = Ret pkg -> constructs env n.
Proof.
  intro H. exists pkg. intro w0. rewrite <- H.
  apply writer_fst, package_new_writer.
Qed.

Lemma constructs_not_raising n w e :
  constructs env n -> fst (ExtensionPackage.new env n w) <> Raise e.
Proof. intros [pkg H]. rewrite H. discriminate. Qed.

Lemma package_new_enabled n w :
  _enabled_extensions (snd (ExtensionPackage.new env n w))
  = _enabled_extensions w.
Proof.
  apply (package_new_preserves env _ _enabled_extensions).
  intros ? ?; reflexivity.
Qed.

Lemma add_extension_sound self n w :
  registry_sound env w ->
  registry_sound env (snd (ExtensionManager.add_extension env self n w)).
Proof.
  intro H. pose proof (add_extension_cases env self n w) as C.
  pose proof (package_new_enabled n w) as P.
  destruct (ExtensionPackage.new env n w) as [[pkg | e] w1] eqn:E;
    rewrite C; simpl in P.
  - intros k Hk. simpl in Hk. apply dict_keys_set_In in Hk.
    rewrite P in Hk. destruct Hk as [Hk | ->]; [now apply H |].
    apply (constructs_at n w pkg). now rewrite E.
  - apply (registry_sound_same w); [| exact H].
    destruct (is_Exception e); exact P.
Qed.

Lemma reachable_registry_sound w : reachable env w -> registry_sound env w.
Proof.
  induction 1 as [| w w' _ IH S]; [intros n [] |].
  destruct S;
    try (apply (registry_sound_same w); [| exact IH];
         first [ apply point_new_preserves
               | apply point_link_preserves
               | apply point_load_preserves
               | apply package_new_preserves
               | apply link_point_preserves
               | apply load_point_preserves
               | apply link_all_points_preserves
               | apply load_all_points_preserves
               | apply manager_new_preserves
               | apply link_extension_preserves
               | apply load_extension_preserves
               | apply link_all_extensions_preserves
               | apply load_all_extensions_preserves ];
         intros ?; reflexivity).
  - now apply add_extension_sound.
  - unfold ExtensionManager.from_jpserver_extensions.
    apply for_each_invariant; [| exact IH].
    intros [k []] w0 H0; simpl; [now apply add_extension_sound | exact H0].
Qed.

(** C4, as amended.  A name of which the package cannot be made, the
    construction raising an instance of [Exception] (as
    [ExtensionModuleNotFound] and [ExtensionMetadataError] are):
    [add_extension] returns, with the exception logged as a warning, and
    does not add the name; the registry is as it was, and so is what
    [enabled_extensions] gives, on any instance.  So the name is absent
    afterwards when it was absent before, as it is in every state the
    operations of the module reach while names resolve in one way; and a
    name that was enabled before stays enabled. *)
Theorem failed_extension_is_skipped :
  forall (self : ExtensionManager) (n : string) (w w1 : World) (e : PyExc),
    ExtensionPackage.new env n w = (Raise e, w1) ->
    is_Exception e = true ->
    let w' := snd (ExtensionManager.add_extension env self n w) in
    ExtensionManager.add_extension env self n w
      = (Ret tt, with_log (log w ++ [LogWarning e]) w1)
    /\ _enabled_extensions w' = _enabled_extensions w
    /\ (forall other,
          ExtensionManager.enabled_extensions other w'
          = (Ret (enabled_view w), w'))
    /\ (~ In n (dict_keys (enabled_view w)) ->
        ~ In n (dict_keys (enabled_view w')))
    /\ (In n (dict_keys (enabled_view w)) ->
        In n (dict_keys (enabled_view w')))
    /\ (reachable env w -> ~ In n (dict_keys (enabled_view w'))).
Proof.
  intros self n w w1 e E C w'.
  pose proof (add_extension_cases env self n w) as A.
  pose proof (package_new_enabled n w) as P.
  pose proof (package_new_preserves env _ log (fun _ _ => eq_refl) n w) as L.
  rewrite E in A, P, L. rewrite C in A. simpl in P, L.
  assert (_enabled_extensions w' = _enabled_extensions w) as Hsame.
  { subst w'. rewrite A. exact P. }
  assert (enabled_view w' = enabled_view w) as Hview.
  { unfold enabled_view. now rewrite Hsame. }
  split; [now rewrite A, L |]. split; [exact Hsame |].
  split; [intro other; rewrite <- Hview; reflexivity |].
  rewrite Hview. split; [auto |]. split; [auto |].
  intros R Hin. unfold enabled_view in Hin.
  rewrite dict_of_sorted_keys_In in Hin.
  apply (constructs_not_raising n w e (reachable_registry_sound w R n Hin)).
  now rewrite E.
Qed.

End ClassState.

(* ================================================================== *)
(** * The order of [enabled_extensions] *)

Section EnabledOrder.
Variable env : Env.

(** The names in the registry after [from_jpserver_extensions] has
    returned: those there before, and those asked for of which the package
    is made. *)
Lemma from_jpserver_extensions_keys self jp :
  forall w w',
  ExtensionManager.from_jpserver_extensions env self jp w = (Ret tt, w') ->
  forall k,
  In k (dict_keys (_enabled_extensions w')) <->
  In k (dict_keys (_enabled_extensions w))
  \/ (In (k, true) jp /\ constructs env k).
Proof.
  unfold ExtensionManager.from_jpserver_extensions.
  induction jp as [| [n b] jp IH]; intros w w' H k; simpl in H.
  - injection H as <-. simpl. tauto.
  - unfold bind in H. simpl in H. destruct b.
    + pose proof (add_extension_cases env self n w) as C.
      pose proof (package_new_enabled env n w) as P.
      destruct (ExtensionPackage.new env n w) as [[pkg | e] w1] eqn:E;
        simpl in P.
      * rewrite C in H. rewrite (IH _ _ H k). simpl.
        rewrite dict_keys_set_In, P. split.
        -- intros [[Hk | ->] | [Hk Hc]]; auto.
           right. split; [now left |].
           apply (constructs_at env n w pkg). now rewrite E.
        -- intros [Hk | [[[= ->] | Hk] Hc]]; auto.
      * rewrite C in H. destruct (is_Exception e); [| discriminate].
        rewrite (IH _ _ H k). simpl. rewrite P. split.
        -- intros [Hk | [Hk Hc]]; auto.
        -- intros [Hk | [[[= <-] | Hk] Hc]]; auto.
           exfalso. apply (constructs_not_raising env n w e Hc).
           now rewrite E.
    + unfold ret in H. rewrite (IH _ _ H k). simpl. split.
      * intros [Hk | [Hk Hc]]; auto.
      * intros [Hk | [[[=] | Hk] Hc]]; auto.
Qed.

(** C2.  In every state, what [enabled_extensions] gives, on every
    instance, enumerates the registry in strictly ascending order of the
    names: its names are those of the registry, each entry of it is an
    entry of the registry, and when the names of the registry are
    distinct - as those of a dictionary are - its entries are the entries
    of the registry, in another order, each name bound as in the registry.
    After [from_jpserver_extensions] has returned, the names are those
    enabled before and those the map enables of which the package is
    made.  The order in which the extensions were added plays no part:
    two runs of [from_jpserver_extensions] from one state, on the same
    items in two orders, leave the same sequence of names. *)
Theorem enabled_extensions_in_name_order :
  forall (w : World),
    StronglySorted str_lt (dict_keys (enabled_view w))
    /\ (forall self,
          ExtensionManager.enabled_extensions self w
          = (Ret (enabled_view w), w))
    /\ (forall k,
          In k (dict_keys (enabled_view w))
          <-> In k (dict_keys (_enabled_extensions w)))
    /\ (forall k pkg,
          dict_get (enabled_view w) k = Some pkg ->
          In (k, pkg) (_enabled_extensions w))
    /\ (NoDup (dict_keys (_enabled_extensions w)) ->
        Permutation (_enabled_extensions w) (enabled_view w)
        /\ forall k,
             dict_get (enabled_view w) k
             = dict_get (_enabled_extensions w) k)
    /\ (forall self jp w1,
          ExtensionManager.from_jpserver_extensions env self jp w
            = (Ret tt, w1) ->
          forall k,
            In k (dict_keys (enabled_view w1))
            <-> In k (dict_keys (enabled_view w))
                \/ (In (k, true) jp /\ constructs env k))
    /\ (forall self jp1 jp2 w1 w2,
          Permutation jp1 jp2 ->
          ExtensionManager.from_jpserver_extensions env self jp1 w
            = (Ret tt, w1) ->
          ExtensionManager.from_jpserver_extensions env self jp2 w
            = (Ret tt, w2) ->
          dict_keys (enabled_view w1) = dict_keys (enabled_view w2)).
Proof.
  intro w. split; [apply dict_of_sorted_keys_sorted |].
  split; [reflexivity |].
  split; [intro k; apply dict_of_sorted_keys_In |].
  split; [intros k pkg; apply dict_of_sorted_get_In |].
  split; [| split].
  - intro N. unfold enabled_view. split.
    + rewrite dict_of_sorted_id by exact N. apply sorted_perm.
    + intro k. now apply dict_of_sorted_get.
  - intros self jp w1 H k. unfold enabled_view.
    rewrite !dict_of_sorted_keys_In.
    apply (from_jpserver_extensions_keys self jp w w1 H k).
  - intros self jp1 jp2 w1 w2 Hperm H1 H2.
    apply strictly_sorted_unique; try apply dict_of_sorted_keys_sorted.
    intro k. unfold enabled_view. rewrite !dict_of_sorted_keys_In.
    rewrite (from_jpserver_extensions_keys self jp1 w w1 H1 k).
    rewrite (from_jpserver_extensions_keys self jp2 w w2 H2 k).
    split; intros [Hk | [Hk Hc]]; auto; right; split; trivial.
    + exact (Permutation_in _ Hperm Hk).
    + exact (Permutation_in _ (Permutation_sym Hperm) Hk).
Qed.

End EnabledOrder.

(* ================================================================== *)
(** * The statements on the sample installation *)

Lemma sample_world_reachable (names : list string) :
  reachable Sample.env (Sample.world_after names).
Proof.
  apply reachable_step with (w := initial_world); [constructor |].
  apply step_from_jpserver_extensions.
Qed.

(** The scenario of the spec: b_ext and a_ext enabled, c_ext not. *)
Example enabled_map_scenario :
  dict_keys
    (enabled_view
       (snd (ExtensionManager.from_jpserver_extensions Sample.env
               Sample.manager Sample.jp_b_a_c initial_world)))
  = ["a_ext"; "b_ext"].
Proof. reflexivity. Qed.

(** The scenario of the spec: the point of pkgX is named after its
    application object. *)
Example app_name_scenario :
  ExtensionPoint.new Sample.env (Sample.app_packet "pkgX" Sample.XApp)
    initial_world
  = (Ret Sample.x_point,
     with_trace [EvCall "XApp"] initial_world)
  /\ ExtensionPoint.name Sample.x_point = Ret "X".
Proof. split; reflexivity. Qed.

(** Loading goes on after an extension of which the load hook raises:
    the hooks run in the order of the names, the failure is a warning. *)
Example load_all_after_failure :
  ExtensionManager.load_all_extensions Sample.manager Sample.host
    Sample.world_with_failures
  = (Ret tt,
     with_log [LogWarning (UserException "RuntimeError")]
       (with_trace
          [EvHook "a_ext._load" Sample.host;
           EvHook "b_ext._load" Sample.host;
           EvHook "flaky._load" Sample.host;
           EvHook "stuck._load" Sample.host]
          Sample.world_with_failures)).
Proof. reflexivity. Qed.

Lemma all_extensions_attempted_in_order_witness :
  (registry_link_catchable Sample.host Sample.world_with_failures = true
   /\ ExtensionManager.link_all_extensions Sample.manager Sample.host
        Sample.world_with_failures
      = (Ret tt,
         fold_left (after_link Sample.manager Sample.host)
           (dict_keys (enabled_view Sample.world_with_failures))
           Sample.world_with_failures))
  /\ (registry_load_catchable Sample.host Sample.world_with_failures = true
      /\ ExtensionManager.load_all_extensions Sample.manager Sample.host
           Sample.world_with_failures
         = (Ret tt,
            fold_left (after_load Sample.manager Sample.host)
              (dict_keys (enabled_view Sample.world_with_failures))
              Sample.world_with_failures))
  /\ ExtensionManager.link_extension Sample.manager "stuck" Sample.host
       Sample.world_with_failures
     = (Ret tt,
        with_log [LogWarning (UserException "RuntimeError")]
          (with_trace [EvHook "stuck._link" Sample.host]
             Sample.world_with_failures))
  /\ ExtensionManager.load_extension Sample.manager "flaky" Sample.host
       Sample.world_with_failures
     = (Ret tt,
        with_log [LogWarning (UserException "RuntimeError")]
          (with_trace [EvHook "flaky._load" Sample.host]
             Sample.world_with_failures))
  /\ (registry_link_catchable Sample.host Sample.world_with_exit = true
      /\ ExtensionManager.link_all_extensions Sample.manager Sample.host
           Sample.world_with_exit
         = (Ret tt,
            fold_left (after_link Sample.manager Sample.host)
              (dict_keys (enabled_view Sample.world_with_exit))
              Sample.world_with_exit))
  /\ ExtensionManager.load_all_extensions Sample.manager Sample.host
       Sample.world_with_exit
     = (Raise (BaseExceptionOnly "SystemExit"),
        with_trace
          [EvHook "a_ext._load" Sample.host;
           EvHook "exiting._load" Sample.host]
          Sample.world_with_exit)
  /\ ExtensionManager.link_all_extensions Sample.manager Sample.host
       Interrupted.world
     = (Raise (BaseExceptionOnly "KeyboardInterrupt"),
        with_log [LogDebug "The 'a_ext' extension was successfully linked."]
          (with_trace
             [EvHook "a_ext._link" Sample.host;
              EvHook "halting._link" Sample.host]
             Interrupted.world)).
Proof.
  pose proof (all_extensions_attempted_in_order Sample.manager Sample.host
                Sample.world_with_failures) as H.
  pose proof (all_extensions_attempted_in_order Sample.manager Sample.host
                Sample.world_with_exit) as X.
  pose proof (all_extensions_attempted_in_order Sample.manager Sample.host
                Interrupted.world) as I.
  split; [split; [reflexivity | exact (proj1 (proj2 H) eq_refl)] |].
  split; [split; [reflexivity | exact (proj1 (proj2 (proj2 H)) eq_refl)] |].
  split.
  { exact (proj1 (proj2 (proj2 (proj2 H))) "stuck" Sample.stuck_package
             Sample.world_with_failures (UserException "RuntimeError")
             (with_trace [EvHook "stuck._link" Sample.host]
                Sample.world_with_failures)
             eq_refl eq_refl eq_refl). }
  split.
  { exact (proj1 (proj2 (proj2 (proj2 (proj2 H)))) "flaky"
             Sample.flaky_package Sample.world_with_failures
             (UserException "RuntimeError")
             (with_trace [EvHook "flaky._load" Sample.host]
                Sample.world_with_failures)
             eq_refl eq_refl). }
  split; [split; [reflexivity | exact (proj1 (proj2 X) eq_refl)] |].
  split.
  - apply (proj1 (proj2 (proj2 (proj2 (proj2 (proj2 (proj2 X))))))
             ["a_ext"] "exiting" ["flaky"] Interrupted.exiting_package);
      try reflexivity.
    intros k pkg' [<- | []] [= <-]. reflexivity.
  - apply (proj1 (proj2 (proj2 (proj2 (proj2 (proj2 I)))))
             ["a_ext"] "halting" ["stuck"] Interrupted.halting_package);
      try reflexivity.
    intros k pkg' [<- | []] [= <-]. reflexivity.
Defined.

(** C1, as stated, fails: the load hook of one enabled extension raises
    [SystemExit]; [load_all_extensions] does not return, it raises, and
    the extension after it in the order of the names is not attempted. *)
Lemma load_all_extensions_aborted_by_SystemExit :
  fst (ExtensionManager.load_all_extensions Sample.manager Sample.host
         Sample.world_with_exit)
  = Raise (BaseExceptionOnly "SystemExit")
  /\ ~ returns_normally
         (ExtensionManager.load_all_extensions Sample.manager Sample.host)
         Sample.world_with_exit
  /\ dict_keys (enabled_view Sample.world_with_exit)
     = ["a_ext"; "exiting"; "flaky"]
  /\ trace (snd (ExtensionManager.load_all_extensions Sample.manager
                   Sample.host Sample.world_with_exit))
     = [EvHook "a_ext._load" Sample.host;
        EvHook "exiting._load" Sample.host].
Proof.
  split; [reflexivity |]. split; [| split; reflexivity].
  intros [a [w' H]]. discriminate H.
Qed.

Lemma enabled_extensions_in_name_order_witness :
  Permutation Sample.jp_b_a_c Sample.jp_a_b_c
  /\ StronglySorted str_lt
       (dict_keys
          (enabled_view
             (snd (ExtensionManager.from_jpserver_extensions Sample.env
                     Sample.manager Sample.jp_b_a_c initial_world))))
  /\ dict_keys
       (enabled_view
          (snd (ExtensionManager.from_jpserver_extensions Sample.env
                  Sample.manager Sample.jp_b_a_c initial_world)))
     = dict_keys
         (enabled_view
            (snd (ExtensionManager.from_jpserver_extensions Sample.env
                    Sample.manager Sample.jp_a_b_c initial_world)))
  /\ In "a_ext"
       (dict_keys
          (enabled_view
             (snd (ExtensionManager.from_jpserver_extensions Sample.env
                     Sample.manager Sample.jp_b_a_c initial_world))))
  /\ (In "b_ext" (dict_keys (enabled_view (Sample.world_after ["b_ext"]))) <->
      In "b_ext"
        (dict_keys (_enabled_extensions (Sample.world_after ["b_ext"]))))
  /\ (NoDup
        (dict_keys (_enabled_extensions (Sample.world_after ["b_ext"; "a_ext"])))
      /\ Permutation
           (_enabled_extensions (Sample.world_after ["b_ext"; "a_ext"]))
           (enabled_view (Sample.world_after ["b_ext"; "a_ext"]))).
Proof.
  pose proof (enabled_extensions_in_name_order Sample.env initial_world) as H.
  destruct H as [_ [_ [_ [_ [_ [Hnames Horder]]]]]].
  split; [apply perm_swap |]. split.
  - exact (proj1 (enabled_extensions_in_name_order Sample.env _)).
  - split.
    + apply (Horder Sample.manager Sample.jp_b_a_c Sample.jp_a_b_c).
      * apply perm_swap.
      * reflexivity.
      * reflexivity.
    + split.
      * apply (proj2 (Hnames Sample.manager Sample.jp_b_a_c _ eq_refl "a_ext")).
        right. split; [right; now left |].
        exists Sample.a_package. intro w. reflexivity.
      * split.
        -- exact (proj1 (proj2 (proj2 (enabled_extensions_in_name_order
                                         Sample.env
                                         (Sample.world_after ["b_ext"]))))
                    "b_ext").
        -- assert (NoDup
                     (dict_keys
                        (_enabled_extensions
                           (Sample.world_after ["b_ext"; "a_ext"])))) as N.
           { repeat constructor; simpl; intuition discriminate. }
           split; [exact N |].
           exact (proj1 (proj1 (proj2 (proj2 (proj2 (proj2
                    (enabled_extensions_in_name_order Sample.env
                       (Sample.world_after ["b_ext"; "a_ext"]))))))
                    N)).
Defined.


Lemma failed_extension_is_skipped_witness :
  (ExtensionPackage.new Sample.env "nope" (Sample.world_after ["a_ext"])
   = (Raise
        (ExtensionModuleNotFound
           "The module 'nope' could not be found. Are you sure the extension is installed?"),
      Sample.world_after ["a_ext"])
   /\ reachable Sample.env (Sample.world_after ["a_ext"])
   /\ ExtensionManager.add_extension Sample.env Sample.manager "nope"
        (Sample.world_after ["a_ext"])
      = (Ret tt,
         with_log
           [LogWarning
              (ExtensionModuleNotFound
                 "The module 'nope' could not be found. Are you sure the extension is installed?")]
           (Sample.world_after ["a_ext"]))
   /\ ~ In "nope"
          (dict_keys
             (enabled_view
                (snd (ExtensionManager.add_extension Sample.env
                        Sample.manager "nope"
                        (Sample.world_after ["a_ext"]))))))
  /\ (ExtensionPackage.new Removed.env "a_ext" (Sample.world_after ["a_ext"])
      = (Raise
           (ExtensionModuleNotFound
              "The module 'a_ext' could not be found. Are you sure the extension is installed?"),
         Sample.world_after ["a_ext"])
      /\ In "a_ext" (dict_keys (enabled_view (Sample.world_after ["a_ext"])))
      /\ In "a_ext"
           (dict_keys
              (enabled_view
                 (snd (ExtensionManager.add_extension Removed.env
                         Sample.manager "a_ext"
                         (Sample.world_after ["a_ext"])))))).
Proof.
  pose proof (failed_extension_is_skipped Sample.env Sample.manager "nope"
                (Sample.world_after ["a_ext"]) (Sample.world_after ["a_ext"])
                _ eq_refl eq_refl) as H.
  pose proof (failed_extension_is_skipped Removed.env Sample.manager "a_ext"
                (Sample.world_after ["a_ext"]) (Sample.world_after ["a_ext"])
                _ eq_refl eq_refl) as G.
  assert (In "a_ext" (dict_keys (enabled_view (Sample.world_after ["a_ext"]))))
    as Hin by (simpl; now left).
  split.
  - split; [reflexivity |]. split; [apply sample_world_reachable |].
    split; [exact (proj1 H) |].
    exact (proj2 (proj2 (proj2 (proj2 (proj2 H))))
             (sample_world_reachable ["a_ext"])).
  - split; [reflexivity |]. split; [exact Hin |].
    exact (proj1 (proj2 (proj2 (proj2 (proj2 G)))) Hin).
Defined.

(** C4, as stated, fails: an extension is enabled; its package is then
    removed from the installation; [add_extension] on its name logs the
    warning and returns, and the name is still in what
    [enabled_extensions] gives. *)
Lemma failed_extension_stays_enabled :
  fst (ExtensionPackage.new Removed.env "a_ext" (Sample.world_after ["a_ext"]))
  = Raise
      (ExtensionModuleNotFound
         "The module 'a_ext' could not be found. Are you sure the extension is installed?")
  /\ ExtensionManager.add_extension Removed.env Sample.manager "a_ext"
       (Sample.world_after ["a_ext"])
     = (Ret tt,
        with_log
          [LogWarning
             (ExtensionModuleNotFound
                "The module 'a_ext' could not be found. Are you sure the extension is installed?")]
          (Sample.world_after ["a_ext"]))
  /\ fst (ExtensionManager.enabled_extensions Sample.manager
            (snd (ExtensionManager.add_extension Removed.env Sample.manager
                    "a_ext" (Sample.world_after ["a_ext"]))))
     = Ret [("a_ext", Sample.a_package)]
  /\ ~ ~ In "a_ext"
         (dict_keys
            (enabled_view
               (snd (ExtensionManager.add_extension Removed.env
                       Sample.manager "a_ext"
                       (Sample.world_after ["a_ext"]))))).
Proof.
  do 3 (split; [reflexivity |]).
  intro H. apply H. simpl. now left.
Qed.

(** Bad metadata is skipped in the same way as a name that does not
    resolve. *)
Example bad_metadata_is_skipped :
  ExtensionManager.add_extension Sample.env Sample.manager "half"
    (Sample.world_after ["a_ext"])
  = (Ret tt,
     with_log
       [LogWarning
          (ExtensionMetadataError
             "There is no 'module' key in the extension's metadata packet.")]
       (Sample.world_after ["a_ext"]))
  /\ dict_keys
       (enabled_view
          (snd (ExtensionManager.add_extension Sample.env Sample.manager
                  "half" (Sample.world_after ["a_ext"]))))
     = ["a_ext"].
Proof. split; reflexivity. Qed.

Lemma load_hook_mandatory_link_hook_optional_witness :
  ExtensionPoint.app Sample.bare_point = None
  /\ obj_load (ExtensionPoint.module Sample.bare_point) = None
  /\ obj_link (ExtensionPoint.module Sample.bare_point) = None
  /\ ExtensionPoint.load Sample.bare_point Sample.host initial_world
     = (Raise (LoaderNotFoundError
                 "_load_jupyter_server_extension function was not found."),
        initial_world)
  /\ ExtensionPoint.link Sample.bare_point Sample.host initial_world
     = (Ret RetNone, initial_world).
Proof.
  pose proof (load_hook_mandatory_link_hook_optional Sample.bare_point
                Sample.host initial_world eq_refl) as H.
  do 3 (split; [reflexivity |]).
  split; [exact (proj1 H eq_refl) | exact (proj2 H eq_refl)].
Defined.

Lemma factory_called_once_at_validation_witness :
  pk_module (Sample.app_packet "pkgX" Sample.XApp) = Some "pkgX"
  /\ import_module Sample.env "pkgX" = Ret (Sample.bare_module "pkgX")
  /\ pk_app (Sample.app_packet "pkgX" Sample.XApp) = Some (Some Sample.XApp)
  /\ obj_call Sample.XApp = Some (Ret (Some Sample.x_app))
  /\ trace (snd (ExtensionPoint.new Sample.env
                   (Sample.app_packet "pkgX" Sample.XApp) initial_world))
     = [EvCall "XApp"]
  /\ exists point,
       fst (ExtensionPoint.new Sample.env
              (Sample.app_packet "pkgX" Sample.XApp) initial_world)
       = Ret point
       /\ ExtensionPoint.app point = Some Sample.x_app.
Proof.
  do 4 (split; [reflexivity |]).
  pose proof (factory_called_once_at_validation Sample.env
                (Sample.app_packet "pkgX" Sample.XApp) "pkgX"
                (Sample.bare_module "pkgX") Sample.XApp
                (Ret (Some Sample.x_app)) initial_world
                eq_refl eq_refl eq_refl eq_refl) as H.
  split; [exact (proj1 H) |].
  destruct (proj1 (proj2 H)) as [point [H1 [_ [_ [H2 _]]]]].
  exists point. split; [exact H1 | exact H2].
Defined.

Lemma name_resolution_witness :
  (ExtensionPoint.app Sample.x_point = Some Sample.x_app
   /\ obj_name Sample.x_app = Some "X"
   /\ ExtensionPoint.name Sample.x_point = Ret "X")
  /\ (ExtensionPoint.app Sample.named_point = None
      /\ pk_name (metadata Sample.named_point) = Some "nickname"
      /\ ExtensionPoint.name Sample.named_point = Ret "nickname")
  /\ (ExtensionPoint.app Sample.bare_point = None
      /\ pk_name (metadata Sample.bare_point) = None
      /\ ExtensionPoint.name Sample.bare_point = Ret "bare").
Proof.
  split; [| split]; (split; [reflexivity |]); (split; [reflexivity |]).
  - exact (proj1 (name_resolution Sample.x_point) Sample.x_app "X"
             eq_refl eq_refl).
  - exact (proj1 (proj2 (name_resolution Sample.named_point)) "nickname"
             eq_refl eq_refl).
  - exact (proj1 (proj2 (proj2 (name_resolution Sample.bare_point)))
             eq_refl eq_refl).
Defined.

Lemma linked_flags_never_set_witness :
  reachable Sample.env
    (snd (ExtensionManager.link_all_extensions Sample.manager Sample.host
            (Sample.world_after ["b_ext"; "a_ext"])))
  /\ _linked_points
       (snd (ExtensionManager.link_all_extensions Sample.manager Sample.host
               (Sample.world_after ["b_ext"; "a_ext"])))
     = []
  /\ _linked_extensions
       (snd (ExtensionManager.link_all_extensions Sample.manager Sample.host
               (Sample.world_after ["b_ext"; "a_ext"])))
     = []
  /\ trace
       (snd (ExtensionPackage.link_point Sample.a_package "a_ext" Sample.host
               (snd (ExtensionManager.link_all_extensions Sample.manager
                       Sample.host (Sample.world_after ["b_ext"; "a_ext"])))))
     = [EvHook "a_ext._link" Sample.host;
        EvHook "b_ext._link" Sample.host;
        EvHook "a_ext._link" Sample.host].
Proof.
  assert (reachable Sample.env
            (snd (ExtensionManager.link_all_extensions Sample.manager
                    Sample.host (Sample.world_after ["b_ext"; "a_ext"]))))
    as R.
  { apply reachable_step with (w := Sample.world_after ["b_ext"; "a_ext"]).
    - apply sample_world_reachable.
    - apply step_link_all_extensions. }
  pose proof (linked_flags_never_set Sample.env _ R) as H.
  split; [exact R |].
  split; [exact (proj1 H) |]. split; [exact (proj1 (proj2 H)) |].
  exact (proj2 (proj1 (proj2 (proj2 H)) Sample.a_package "a_ext"
                  Sample.a_point Sample.host eq_refl)
           (Sample.returns_none "a_ext._link") eq_refl).
Defined.

(** Linking a second time runs the link hooks a second time. *)
Example link_twice_links_twice :
  trace (snd (ExtensionManager.link_all_extensions Sample.manager Sample.host
                (snd (ExtensionManager.link_all_extensions Sample.manager
                        Sample.host (Sample.world_after ["a_ext"])))))
  = [EvHook "a_ext._link" Sample.host; EvHook "a_ext._link" Sample.host].
Proof. reflexivity. Qed.

Lemma load_extension_catches_Exception_witness :
  dict_get (enabled_view (Sample.world_after ["b_ext"])) "ghost" = None
  /\ ExtensionManager.load_extension Sample.manager "ghost" Sample.host
       (Sample.world_after ["b_ext"])
     = (Ret tt,
        with_log [LogWarning (AttributeError "load_all_points")]
          (Sample.world_after ["b_ext"]))
  /\ ExtensionManager.load_extension Sample.manager "flaky" Sample.host
       Sample.world_with_failures
     = (Ret tt,
        with_log [LogWarning (UserException "RuntimeError")]
          (with_trace [EvHook "flaky._load" Sample.host]
             Sample.world_with_failures)).
Proof.
  split; [reflexivity |]. split.
  - exact (proj1 (load_extension_catches_Exception Sample.manager "ghost"
                    Sample.host (Sample.world_after ["b_ext"])) eq_refl).
  - exact (proj1 (proj2 (proj2 (load_extension_catches_Exception
                                  Sample.manager "flaky" Sample.host
                                  Sample.world_with_failures)))
             Sample.flaky_package (UserException "RuntimeError")
             (with_trace [EvHook "flaky._load" Sample.host]
                Sample.world_with_failures)
             eq_refl eq_refl).
Defined.

(** C9, as stated, fails: the load hook of an enabled extension raises
    [SystemExit]; [load_extension] raises it again to its caller and logs
    nothing. *)
Lemma load_extension_lets_SystemExit_through :
  ExtensionManager.load_extension Sample.manager "exiting" Sample.host
    Sample.world_with_exit
  = (Raise (BaseExceptionOnly "SystemExit"),
     with_trace [EvHook "exiting._load" Sample.host] Sample.world_with_exit)
  /\ ~ returns_normally
         (ExtensionManager.load_extension Sample.manager "exiting"
            Sample.host)
         Sample.world_with_exit
  /\ log (snd (ExtensionManager.load_extension Sample.manager "exiting"
                 Sample.host Sample.world_with_exit))
     = [].
Proof.
  split; [reflexivity |]. split; [| reflexivity].
  intros [a [w' H]]. discriminate H.
Qed.

Lemma enabled_extensions_is_class_state_witness :
  ExtensionPackage.new Sample.env "a_ext" initial_world
  = (Ret Sample.a_package, initial_world)
  /\ fst (ExtensionManager.add_extension Sample.env Sample.manager "a_ext"
            initial_world)
     = Ret tt
  /\ exists d,
       ExtensionManager.enabled_extensions Sample.other_manager
         (snd (ExtensionManager.add_extension Sample.env Sample.manager
                 "a_ext" initial_world))
       = (Ret d,
          snd (ExtensionManager.add_extension Sample.env Sample.manager
                 "a_ext" initial_world))
       /\ In "a_ext" (dict_keys d).
Proof.
  pose proof (enabled_extensions_is_class_state Sample.env Sample.manager
                Sample.other_manager "a_ext" Sample.a_package initial_world
                initial_world eq_refl) as H.
  split; [reflexivity |].
  split; [exact (proj1 H) | exact (proj1 (proj2 (proj2 H)))].
Defined.

(* ================================================================== *)
(** * ExtensionPoint: the other ways of validation, link and load *)

Section PointMore.
Variable env : Env.

(** X1.  A packet of which the module cannot be imported: when
    [import_module] raises [ImportError] the point is not made and
    [ExtensionModuleNotFound] is raised, naming the module; any other
    exception of the import goes through as it is.  In both cases nothing
    else has happened: no factory was called. *)
Theorem module_import_failure :
  forall (m : Packet) (module_name : string) (e : PyExc) (w : World),
    pk_module m = Some module_name ->
    import_module env module_name = Raise e ->
    ExtensionPoint.new env m w
    = (Raise
         (if is_ImportError e
          then ExtensionModuleNotFound
                 ("The submodule '" ++ module_name ++
                  "' could not be found. Are you sure the extension is installed?")
          else e),
       w).
Proof.
  intros m module_name e w Hm Hi.
  unfold ExtensionPoint.new, ExtensionPoint._valid_metadata.
  rewrite Hm. unfold bind at 1, try_except, lift. rewrite Hi.
  now destruct (is_ImportError e).
Qed.

(** X2.  What validation does with 'app' when the module is found.  With
    no 'app', or [None] under it, the point keeps the packet as it came
    and nothing is called.  With an object under 'app' that is not
    callable, validation raises [TypeError].  So a packet goes through
    validation once: the packet a point keeps, in which the factory made
    way for an application object that is not callable, fails it. *)
Theorem validation_of_app_field :
  forall (m : Packet) (module_name : string) (module : PyObj) (w : World),
    pk_module m = Some module_name ->
    import_module env module_name = Ret module ->
    (packet_get_app m = None ->
     ExtensionPoint.new env m w
     = (Ret {| metadata := m;
               _module_name := module_name;
               _module := module |},
        w))
    /\ (forall a,
          packet_get_app m = Some a -> obj_call a = None ->
          ExtensionPoint.new env m w
          = (Raise (TypeError "object is not callable"), w))
    /\ (forall f a point w1 w',
          packet_get_app m = Some f ->
          obj_call f = Some (Ret (Some a)) ->
          obj_call a = None ->
          ExtensionPoint.new env m w = (Ret point, w1) ->
          ExtensionPoint.new env (metadata point) w'
          = (Raise (TypeError "object is not callable"), w')).
Proof.
  intros m module_name module w Hm Hi.
  assert (forall m' a w',
            pk_module m' = Some module_name ->
            packet_get_app m' = Some a -> obj_call a = None ->
            ExtensionPoint.new env m' w'
            = (Raise (TypeError "object is not callable"), w')) as Hbad.
  { intros m' a w' Hm' Ha Hc.
    unfold ExtensionPoint.new, ExtensionPoint._valid_metadata.
    rewrite Hm', Ha. unfold bind at 1, try_except, lift. rewrite Hi.
    unfold bind, call. rewrite Hc. reflexivity. }
  split; [| split].
  - intro Ha. unfold ExtensionPoint.new, ExtensionPoint._valid_metadata.
    rewrite Hm, Ha. unfold bind at 1, try_except, lift. rewrite Hi.
    reflexivity.
  - intros a Ha Hc. now apply Hbad with (a := a).
  - intros f a point w1 w' Hf Hcf Hca E.
    unfold ExtensionPoint.new, ExtensionPoint._valid_metadata in E.
    rewrite Hm, Hf in E. unfold bind at 1, try_except, lift in E.
    rewrite Hi in E. unfold call in E. rewrite Hcf in E.
    unfold bind, record_event, modify, lift, ret in E. simpl in E.
    injection E as <- _.
    apply Hbad with (a := a); [exact Hm | reflexivity | exact Hca].
Qed.

End PointMore.

Lemma point_link_run point host w h :
  obj_link (hook_owner point) = Some h ->
  ExtensionPoint.link point host w
  = (hook_run h host, with_trace (trace w ++ [EvHook (hook_id h) host]) w).
Proof.
  unfold hook_owner, ExtensionPoint.link. intro Hh.
  destruct (ExtensionPoint.app point) as [a |];
    unfold bind at 1, ret;
    rewrite Hh; unfold call_hook, bind, record_event, modify, lift;
    reflexivity.
Qed.

Lemma point_load_run point host w h :
  obj_load (hook_owner point) = Some h ->
  ExtensionPoint.load point host w
  = (hook_run h host, with_trace (trace w ++ [EvHook (hook_id h) host]) w).
Proof.
  intro Hh.
  unfold ExtensionPoint.load, utils.get_loader. fold (hook_owner point).
  rewrite Hh. reflexivity.
Qed.

Lemma point_load_no_loader point host w :
  obj_load (hook_owner point) = None ->
  ExtensionPoint.load point host w
  = (Raise (LoaderNotFoundError
              "_load_jupyter_server_extension function was not found."), w).
Proof.
  intro Hh.
  unfold ExtensionPoint.load, utils.get_loader. fold (hook_owner point).
  rewrite Hh. reflexivity.
Qed.

(** X3.  [link] takes the linker from the application object when the
    point has one, from the module otherwise.  When that object has the
    function, [link] calls it, once, and what the call gives - a result or
    an exception - is what [link] gives: nothing is caught here.  When the
    application object lacks it, [link] raises [AttributeError] and calls
    nothing: the function that does nothing stands in for a module only,
    and a link function of the module is not looked at. *)
Theorem link_passes_on_hook_outcome :
  forall (point : ExtensionPoint) (host : ServerApp) (w : World),
    (forall h,
       obj_link (hook_owner point) = Some h ->
       ExtensionPoint.link point host w
       = (hook_run h host,
          with_trace (trace w ++ [EvHook (hook_id h) host]) w))
    /\ (forall a,
          ExtensionPoint.app point = Some a -> obj_link a = None ->
          ExtensionPoint.link point host w
          = (Raise (AttributeError "_link_jupyter_server_extension"), w)).
Proof.
  intros point host w. split.
  - intros h Hh. now apply point_link_run.
  - unfold ExtensionPoint.link. intros a -> Hl. rewrite Hl. reflexivity.
Qed.

(** X4.  [load] takes the loader from the application object when the
    point has one, from the module otherwise.  When that object has the
    function, [load] calls it, once, and gives what the call gives, result
    or exception. *)
Theorem load_passes_on_hook_outcome :
  forall (point : ExtensionPoint) (host : ServerApp) (w : World) (h : Hook),
    obj_load (hook_owner point) = Some h ->
    ExtensionPoint.load point host w
    = (hook_run h host,
       with_trace (trace w ++ [EvHook (hook_id h) host]) w).
Proof.
  intros point host w h Hh. now apply point_load_run.
Qed.

(** X5.  A name that is not a point of the package: [load_point] raises
    [KeyError], and so does [link_point] when the flag of the name is not
    set; when it is set, [link_point] returns before it looks the point
    up.  In each case nothing is called. *)
Theorem point_lookup_failure :
  forall (pkg : ExtensionPackage) (point_name : string) (host : ServerApp)
         (w : World),
    dict_get (ExtensionPackage.extension_points pkg) point_name = None ->
    ExtensionPackage.load_point pkg point_name host w
    = (Raise (KeyError point_name), w)
    /\ ExtensionPackage.link_point pkg point_name host w
       = if dict_get_flag (_linked_points w) point_name
         then (Ret tt, w)
         else (Raise (KeyError point_name), w).
Proof.
  intros pkg point_name host w H. split.
  - unfold ExtensionPackage.load_point, bind, subscript. now rewrite H.
  - unfold ExtensionPackage.link_point, bind, gets, subscript.
    destruct (dict_get_flag (_linked_points w) point_name); simpl;
      [reflexivity |].
    now rewrite H.
Qed.

(* ================================================================== *)
(** * ExtensionPackage: what construction builds *)

Section PackageMore.
Variable env : Env.

(** X6.  A package of which the metadata cannot be found: when
    [get_metadata] raises [ImportError] the package is not made and
    [ExtensionModuleNotFound] is raised, naming the package; any other
    exception goes through as it is.  Nothing else has happened. *)
Theorem package_metadata_failure :
  forall (n : string) (e : PyExc) (w : World),
    get_metadata env n = Raise e ->
    ExtensionPackage.new env n w
    = (Raise
         (if is_ImportError e
          then ExtensionModuleNotFound
                 ("The module '" ++ n ++
                  "' could not be found. Are you sure the extension is installed?")
          else e),
       w).
Proof.
  intros n e w H.
  unfold ExtensionPackage.new, ExtensionPackage._validate_name.
  unfold bind at 1, try_except, lift. rewrite H.
  now destruct (is_ImportError e).
Qed.

Lemma point_new_result m w point w1 :
  ExtensionPoint.new env m w = (Ret point, w1) ->
  w1 = with_trace (trace w ++ factory_calls [m]) w.
Proof.
  unfold ExtensionPoint.new, ExtensionPoint._valid_metadata, factory_calls.
  simpl. destruct (pk_module m) as [mn |]; [| discriminate].
  unfold bind at 1, try_except, lift.
  destruct (import_module env mn) as [module | e];
    [| destruct (is_ImportError e); discriminate].
  destruct (packet_get_app m) as [f |].
  - unfold call. destruct (obj_call f) as [[v | e] |];
      unfold bind, record_event, modify, lift, ret, raise; simpl;
      try discriminate.
    intros [= _ <-]. reflexivity.
  - unfold bind, ret. intros [= _ <-]. simpl. now rewrite with_trace_nil.
Qed.

(** What the loop of [_validate_name] leaves when it returns. *)
Lemma validate_name_loop_result todo :
  forall seen points w seen' points' w',
  ExtensionPackage._validate_name_loop env todo seen points w
  = (Ret (seen', points'), w') ->
  exists items,
    Forall2 (made_from env) todo items
    /\ points'
       = fold_left (fun d kv => dict_set d (fst kv) (snd kv)) items points
    /\ seen' = (seen ++ map (fun item => metadata (snd item)) items)%list
    /\ w' = with_trace (trace w ++ factory_calls todo) w.
Proof.
  induction todo as [| m todo IH]; intros seen points w seen' points' w' H;
    simpl in H.
  - injection H as <- <- <-. exists []. simpl.
    rewrite app_nil_r, with_trace_nil. repeat split. constructor.
  - unfold bind at 1 in H.
    destruct (ExtensionPoint.new env m w) as [[point | e] w1] eqn:E;
      [| discriminate].
    unfold bind at 1, lift in H.
    destruct (ExtensionPoint.name point) as [pn | e] eqn:N; [| discriminate].
    destruct (IH _ _ _ _ _ _ H) as [items [F [Hp [Hs Hw]]]].
    exists ((pn, point) :: items). split; [| split; [| split]].
    + constructor; [| exact F]. split; [| exact N]. simpl. intro w0.
      rewrite (writer_fst _ _ w0 w (point_new_writer env m)). now rewrite E.
    + exact Hp.
    + rewrite Hs, <- app_assoc. reflexivity.
    + rewrite Hw, (point_new_result _ _ _ _ E).
      rewrite with_trace_app. unfold factory_calls. simpl.
      now rewrite app_nil_r.
Qed.

Lemma package_new_result n packets w pkg w' :
  get_metadata env n = Ret packets ->
  ExtensionPackage.new env n w = (Ret pkg, w') ->
  exists items,
    Forall2 (made_from env) packets items
    /\ pkg = {| name := n;
                _metadata := map (fun item => metadata (snd item)) items;
                _extension_points := dict_of_items items |}
    /\ w' = with_trace (trace w ++ factory_calls packets) w.
Proof.
  intros Hget H. rewrite (package_new_run env n packets w Hget) in H.
  unfold bind in H.
  destruct (ExtensionPackage._validate_name_loop env packets [] [] w)
    as [[[seen' points'] | e] w1] eqn:E; [| discriminate].
  unfold ret in H. injection H as <- <-.
  destruct (validate_name_loop_result _ _ _ _ _ _ _ E)
    as [items [F [Hp [Hs Hw]]]].
  exists items. split; [exact F |]. split; [| exact Hw].
  simpl. now rewrite Hp, Hs.
Qed.

Lemma made_from_wf packets items :
  Forall2 (made_from env) packets items ->
  forall k p, In (k, p) items -> ExtensionPoint.name p = Ret k.
Proof.
  induction 1 as [| m item packets items [_ Hn] _ IH]; intros k p Hin;
    [destruct Hin |].
  destruct Hin as [-> | Hin]; [exact Hn | now apply IH].
Qed.

Lemma package_new_packets n w pkg w' :
  ExtensionPackage.new env n w = (Ret pkg, w') ->
  exists packets, get_metadata env n = Ret packets.
Proof.
  unfold ExtensionPackage.new, ExtensionPackage._validate_name.
  unfold bind at 1, try_except, lift.
  destruct (get_metadata env n) as [packets | e]; [now exists packets |].
  destruct (is_ImportError e); discriminate.
Qed.

Lemma dict_of_items_wf packets items :
  Forall2 (made_from env) packets items ->
  package_wf {| name := "";
                _metadata := [];
                _extension_points := dict_of_items items |}.
Proof.
  intro F. split; simpl.
  - apply dict_of_items_NoDup_acc. constructor.
  - intros k p E. apply dict_get_In in E.
    apply dict_of_items_In_acc in E. destruct E as [[] | E].
    exact (made_from_wf _ _ F k p E).
Qed.

Lemma package_new_wf n w pkg w' :
  ExtensionPackage.new env n w = (Ret pkg, w') ->
  name pkg = n /\ package_wf pkg.
Proof.
  intro H. destruct (package_new_packets _ _ _ _ H) as [packets Hget].
  destruct (package_new_result _ _ _ _ _ Hget H) as [items [F [-> _]]].
  split; [reflexivity |]. exact (dict_of_items_wf _ _ F).
Qed.

(** X7.  A package that construction returns: it has the name asked for;
    its points are the points made from the packets, in order, each stored
    under its own name by [points[name] = point], so that the names are
    distinct, a point is found under its name, and there are no more
    points than packets; and its metadata are the packets as validation
    left them. *)
Theorem package_construction_result :
  forall (n : string) (packets : list Packet) (w w' : World)
         (pkg : ExtensionPackage),
    get_metadata env n = Ret packets ->
    ExtensionPackage.new env n w = (Ret pkg, w') ->
    name pkg = n
    /\ (exists items,
          Forall2 (made_from env) packets items
          /\ ExtensionPackage.extension_points pkg = dict_of_items items
          /\ _metadata pkg = map (fun item => metadata (snd item)) items)
    /\ package_wf pkg
    /\ List.length (ExtensionPackage.extension_points pkg)
       <= List.length packets.
Proof.
  intros n packets w w' pkg Hget H.
  destruct (package_new_result _ _ _ _ _ Hget H) as [items [F [-> _]]].
  split; [reflexivity |]. split; [| split].
  - exists items. repeat split. exact F.
  - exact (dict_of_items_wf _ _ F).
  - simpl. unfold dict_of_items.
    pose proof (dict_of_items_length_acc _ items []) as L.
    rewrite <- (Forall2_length F) in L. exact L.
Qed.

(** X8.  Construction calls the factories of the packets in the order of
    the packets, each once, and does nothing else to the state. *)
Theorem package_construction_calls_factories_in_order :
  forall (n : string) (packets : list Packet) (w w' : World)
         (pkg : ExtensionPackage),
    get_metadata env n = Ret packets ->
    ExtensionPackage.new env n w = (Ret pkg, w') ->
    w' = with_trace (trace w ++ factory_calls packets) w.
Proof.
  intros n packets w w' pkg Hget H.
  destruct (package_new_result _ _ _ _ _ Hget H) as [items [_ [_ Hw]]].
  exact Hw.
Qed.

Lemma made_from_other_names packets items k w :
  Forall2 (made_from env) packets items ->
  (forall m' point',
     In m' packets ->
     fst (ExtensionPoint.new env m' w) = Ret point' ->
     ExtensionPoint.name point' <> Ret k) ->
  ~ In k (map fst items).
Proof.
  induction 1 as [| m' item packets items [Hp Hn] _ IH]; intros Hother Hin;
    [destruct Hin |].
  destruct Hin as [E | Hin].
  - apply (Hother m' (snd item) (or_introl eq_refl) (Hp w)).
    now rewrite Hn, E.
  - apply IH; [| exact Hin].
    intros m'' p'' Hm'' Hp''. apply (Hother m'' p''); [now right | exact Hp''].
Qed.

(** X9.  Two packets that give points of one name: the later point is the
    one the package keeps under the name.  Whatever comes before the
    packet [m], when no packet after it gives a point named as the point
    of [m], the point of [m] is what the name is bound to. *)
Theorem last_packet_of_a_name_wins :
  forall (n : string) (before after : list Packet) (m : Packet)
         (point : ExtensionPoint) (k : string) (w w' : World)
         (pkg : ExtensionPackage),
    get_metadata env n = Ret (before ++ m :: after)%list ->
    ExtensionPackage.new env n w = (Ret pkg, w') ->
    fst (ExtensionPoint.new env m w) = Ret point ->
    ExtensionPoint.name point = Ret k ->
    (forall m' point',
       In m' after ->
       fst (ExtensionPoint.new env m' w) = Ret point' ->
       ExtensionPoint.name point' <> Ret k) ->
    dict_get (ExtensionPackage.extension_points pkg) k = Some point.
Proof.
  intros n before after m point k w w' pkg Hget H Hm Hk Hafter.
  destruct (package_new_result _ _ _ _ _ Hget H) as [items [F [-> _]]].
  simpl. apply Forall2_app_inv_l in F.
  destruct F as [items1 [items2 [F1 [F2 ->]]]].
  inversion F2 as [| m0 [k0 p0] ? items3 [Hp0 Hn0] F3]; subst.
  simpl in Hp0, Hn0. rewrite (Hp0 w) in Hm. injection Hm as ->.
  rewrite Hk in Hn0. injection Hn0 as <-.
  apply dict_of_items_last.
  exact (made_from_other_names _ _ k w F3 Hafter).
Qed.

End PackageMore.

(* ================================================================== *)
(** * ExtensionPackage: linking and loading the points *)

(** A loop of which every turn returns and adds events to the trace. *)
Lemma for_each_appends A (I : World -> Prop) (l : list A) body
    (evs : A -> list Event) :
  (forall t w, I w -> I (with_trace t w)) ->
  (forall x w, In x l -> I w ->
     body x w = (Ret tt, with_trace (trace w ++ evs x) w)) ->
  forall w, I w ->
  for_each l body w = (Ret tt, with_trace (trace w ++ flat_map evs l) w).
Proof.
  intros HI. induction l as [| x l IH]; intros H w Hw; simpl.
  - now rewrite with_trace_nil.
  - unfold bind. rewrite (H x w (or_introl eq_refl) Hw).
    rewrite IH.
    + now rewrite with_trace_app.
    + intros y w0 Hy. apply H. now right.
    + now apply HI.
Qed.

Section PointsOfAPackage.
Variables (pkg : ExtensionPackage) (host : ServerApp).
Hypothesis distinct :
  NoDup (dict_keys (ExtensionPackage.extension_points pkg)).

Lemma load_point_run item w :
  In item (ExtensionPackage.extension_points pkg) ->
  ExtensionPackage.load_point pkg (fst item) host w
  = (x <- ExtensionPoint.load (snd item) host ;; ret tt) w.
Proof.
  intro Hin. unfold ExtensionPackage.load_point, bind at 1, subscript.
  destruct item as [k p]. simpl.
  now rewrite (dict_get_NoDup_In _ _ k p distinct Hin).
Qed.

Lemma load_point_returns item w :
  In item (ExtensionPackage.extension_points pkg) ->
  load_returns host (snd item) ->
  ExtensionPackage.load_point pkg (fst item) host w
  = (Ret tt, with_trace (trace w ++ load_calls host [item]) w).
Proof.
  intros Hin [h [r [Hh Hr]]]. rewrite (load_point_run item w Hin).
  unfold bind. rewrite (point_load_run _ host w h Hh), Hr.
  unfold load_calls. simpl. now rewrite Hh, app_nil_r.
Qed.

Lemma link_point_returns item w :
  In item (ExtensionPackage.extension_points pkg) ->
  link_returns host (snd item) ->
  dict_get_flag (_linked_points w) (fst item) = false ->
  ExtensionPackage.link_point pkg (fst item) host w
  = (Ret tt, with_trace (trace w ++ link_calls host [item]) w).
Proof.
  intros Hin Hl Hf. destruct item as [k p]. simpl in *.
  rewrite (link_point_run pkg k host w p
             (dict_get_NoDup_In _ _ k p distinct Hin)), Hf.
  simpl. unfold link_returns in Hl. unfold link_calls. simpl.
  destruct (obj_link (hook_owner p)) as [h |] eqn:Hh.
  - destruct Hl as [r Hr]. unfold bind.
    rewrite (point_link_run p host w h Hh), Hr. now rewrite app_nil_r.
  - unfold hook_owner in Hh. unfold ExtensionPoint.link, bind.
    rewrite Hl in *. rewrite Hh. simpl. unfold ret.
    now rewrite with_trace_nil.
Qed.

End PointsOfAPackage.

Lemma load_all_points_run pkg host w :
  NoDup (dict_keys (ExtensionPackage.extension_points pkg)) ->
  Forall (fun item => load_returns host (snd item))
    (ExtensionPackage.extension_points pkg) ->
  ExtensionPackage.load_all_points pkg host w
  = (Ret tt,
     with_trace
       (trace w ++ load_calls host (ExtensionPackage.extension_points pkg))
       w).
Proof.
  intros N F. unfold ExtensionPackage.load_all_points, dict_keys.
  rewrite for_each_map. unfold load_calls.
  rewrite Forall_forall in F.
  apply (for_each_appends _ (fun _ => True)); auto.
  intros item w0 Hin _.
  rewrite (load_point_returns pkg host N item w0 Hin (F item Hin)).
  unfold load_calls. simpl. now rewrite app_nil_r.
Qed.

Lemma link_all_points_run pkg host w :
  NoDup (dict_keys (ExtensionPackage.extension_points pkg)) ->
  Forall (fun item => link_returns host (snd item))
    (ExtensionPackage.extension_points pkg) ->
  (forall k,
     In k (dict_keys (ExtensionPackage.extension_points pkg)) ->
     dict_get_flag (_linked_points w) k = false) ->
  ExtensionPackage.link_all_points pkg host w
  = (Ret tt,
     with_trace
       (trace w ++ link_calls host (ExtensionPackage.extension_points pkg))
       w).
Proof.
  intros N F Hflags.
  unfold ExtensionPackage.link_all_points, dict_keys.
  rewrite for_each_map. unfold link_calls.
  rewrite Forall_forall in F.
  apply (for_each_appends _
           (fun w0 => _linked_points w0 = _linked_points w)); auto.
  intros item w0 Hin Hw0.
  rewrite (link_point_returns pkg host N item w0 Hin (F item Hin)).
  - unfold link_calls. simpl. now rewrite app_nil_r.
  - rewrite Hw0. apply Hflags. now apply in_map.
Qed.

(** X10.  [load_all_points] on a package of which the points are stored
    under distinct names and load without raising: it returns, and what it
    has done is to call the load hook of each point, once, in the order in
    which the points were stored. *)
Theorem load_all_points_in_insertion_order :
  forall (pkg : ExtensionPackage) (host : ServerApp) (w : World),
    NoDup (dict_keys (ExtensionPackage.extension_points pkg)) ->
    Forall (fun item => load_returns host (snd item))
      (ExtensionPackage.extension_points pkg) ->
    ExtensionPackage.load_all_points pkg host w
    = (Ret tt,
       with_trace
         (trace w ++ load_calls host (ExtensionPackage.extension_points pkg))
         w).
Proof.
  intros pkg host w. apply load_all_points_run.
Qed.

(** X11.  [link_all_points] in a state where no point of the package is
    flagged as linked, on a package of which the points are stored under
    distinct names and link without raising: it returns, and what it has
    done is to call the link hook of each point that has one, once, in the
    order in which the points were stored. *)
Theorem link_all_points_in_insertion_order :
  forall (pkg : ExtensionPackage) (host : ServerApp) (w : World),
    NoDup (dict_keys (ExtensionPackage.extension_points pkg)) ->
    Forall (fun item => link_returns host (snd item))
      (ExtensionPackage.extension_points pkg) ->
    (forall k,
       In k (dict_keys (ExtensionPackage.extension_points pkg)) ->
       dict_get_flag (_linked_points w) k = false) ->
    ExtensionPackage.link_all_points pkg host w
    = (Ret tt,
       with_trace
         (trace w ++ link_calls host (ExtensionPackage.extension_points pkg))
         w).
Proof.
  intros pkg host w. apply link_all_points_run.
Qed.

(** X12.  [load_all_points] keeps no failure to itself: when the points
    before one load without raising and that one raises - its hook does,
    or it has none - [load_all_points] raises that exception, having called
    the load hooks of the points up to that one, and those only. *)
Theorem load_all_points_stops_at_first_failure :
  forall (pkg : ExtensionPackage) (host : ServerApp) (w : World)
         (before after : Dict ExtensionPoint) (k : string)
         (p : ExtensionPoint) (e : PyExc),
    NoDup (dict_keys (ExtensionPackage.extension_points pkg)) ->
    ExtensionPackage.extension_points pkg = (before ++ (k, p) :: after)%list ->
    Forall (fun item => load_returns host (snd item)) before ->
    fst (ExtensionPoint.load p host w) = Raise e ->
    ExtensionPackage.load_all_points pkg host w
    = (Raise e,
       with_trace (trace w ++ load_calls host (before ++ [(k, p)])%list) w).
Proof.
  intros pkg host w before after k p e N Hpts F Hp.
  assert (for_each (map fst before)
            (fun point_name => ExtensionPackage.load_point pkg point_name host)
            w
          = (Ret tt, with_trace (trace w ++ load_calls host before) w)) as Hb.
  { rewrite for_each_map. unfold load_calls. rewrite Forall_forall in F.
    apply (for_each_appends _ (fun _ => True)); auto.
    intros item w0 Hin _.
    rewrite (load_point_returns pkg host N item w0); auto.
    - unfold load_calls. simpl. now rewrite app_nil_r.
    - rewrite Hpts. apply in_or_app. now left. }
  unfold ExtensionPackage.load_all_points, dict_keys.
  rewrite Hpts, map_app. rewrite (for_each_app_run _ _ _ _ _ _ Hb).
  simpl. unfold bind at 1.
  rewrite (load_point_run pkg host N (k, p)) by
    (rewrite Hpts; apply in_or_app; right; now left).
  simpl. unfold bind. unfold load_calls. rewrite flat_map_app. simpl.
  destruct (obj_load (hook_owner p)) as [h |] eqn:Hh.
  - rewrite (point_load_run p host _ h Hh).
    rewrite (point_load_run p host w h Hh) in Hp. simpl in Hp. rewrite Hp.
    rewrite with_trace_app, app_nil_r. reflexivity.
  - rewrite (point_load_no_loader p host _ Hh).
    rewrite (point_load_no_loader p host w Hh) in Hp. simpl in Hp.
    injection Hp as <-. rewrite !app_nil_r. reflexivity.
Qed.

(* ================================================================== *)
(** * ExtensionManager: the registry *)

Section RegistryMore.
Variable env : Env.

Lemma registry_wf_same w w' :
  _enabled_extensions w' = _enabled_extensions w ->
  registry_wf w -> registry_wf w'.
Proof. unfold registry_wf. now intros ->. Qed.

Lemma add_extension_wf self n w :
  registry_wf w ->
  registry_wf (snd (ExtensionManager.add_extension env self n w)).
Proof.
  intros [N H]. pose proof (add_extension_cases env self n w) as C.
  pose proof (package_new_enabled env n w) as P.
  destruct (ExtensionPackage.new env n w) as [[pkg | e] w1] eqn:E;
    rewrite C; simpl in P.
  - split; simpl; rewrite P.
    + now apply dict_set_NoDup.
    + intros k pkg' G. destruct (String.string_dec k n) as [-> | Hk].
      * rewrite dict_get_set_same in G. injection G as <-.
        exact (package_new_wf env n w pkg w1 E).
      * rewrite dict_get_set_other in G by exact Hk. now apply H.
  - apply (registry_wf_same w); [| now split].
    destruct (is_Exception e); exact P.
Qed.

Lemma reachable_registry_wf w : reachable env w -> registry_wf w.
Proof.
  induction 1 as [| w w' _ IH S].
  { split; [constructor | intros n pkg [=]]. }
  destruct S;
    try (apply (registry_wf_same w); [| exact IH];
         first [ apply point_new_preserves
               | apply point_link_preserves
               | apply point_load_preserves
               | apply package_new_preserves
               | apply link_point_preserves
               | apply load_point_preserves
               | apply link_all_points_preserves
               | apply load_all_points_preserves
               | apply manager_new_preserves
               | apply link_extension_preserves
               | apply load_extension_preserves
               | apply link_all_extensions_preserves
               | apply load_all_extensions_preserves ];
         intros ?; reflexivity).
  - now apply add_extension_wf.
  - unfold ExtensionManager.from_jpserver_extensions.
    apply for_each_invariant; [| exact IH].
    intros [k []] w0 H0; simpl; [now apply add_extension_wf | exact H0].
Qed.

(** X13.  What the registry is, in every state the operations of the
    module reach: its names are distinct; under a name is a package of
    that name; and the points of the package are stored under distinct
    names, each under its own. *)
Theorem registry_is_well_formed :
  forall (w : World),
    reachable env w ->
    NoDup (dict_keys (_enabled_extensions w))
    /\ (forall n pkg,
          dict_get (_enabled_extensions w) n = Some pkg ->
          name pkg = n
          /\ NoDup (dict_keys (ExtensionPackage.extension_points pkg))
          /\ (forall k p,
                dict_get (ExtensionPackage.extension_points pkg) k = Some p ->
                ExtensionPoint.name p = Ret k)).
Proof.
  intros w R. destruct (reachable_registry_wf w R) as [N H].
  split; [exact N |]. intros n pkg G. destruct (H n pkg G) as [Hn [Hd Hp]].
  repeat split; assumption.
Qed.

(** X14.  [enabled_extensions] loses nothing and adds nothing: in a
    state the operations of the module reach, the dictionary it gives has
    the items of the registry, in another order, and a name is bound in it
    to what it is bound to in the registry; reading it changes nothing. *)
Theorem enabled_extensions_has_the_registry :
  forall (self : ExtensionManager) (w : World),
    reachable env w ->
    exists view,
      ExtensionManager.enabled_extensions self w = (Ret view, w)
      /\ Permutation (_enabled_extensions w) view
      /\ (forall k, dict_get view k = dict_get (_enabled_extensions w) k).
Proof.
  intros self w R. destruct (reachable_registry_wf w R) as [N _].
  exists (enabled_view w). split; [reflexivity |].
  unfold enabled_view. split.
  - rewrite dict_of_sorted_id by exact N. apply sorted_perm.
  - intro k. now apply dict_of_sorted_get.
Qed.

(** X15.  [add_extension] on a name of which the package is made: the
    package is what [enabled_extensions] then has under the name; every
    other name is bound as before; a name that was enabled already keeps
    its place, the new package taking the place of the old; and nothing
    is logged. *)
Theorem add_extension_enables :
  forall (self : ExtensionManager) (n : string) (pkg : ExtensionPackage)
         (w w1 : World),
    reachable env w ->
    ExtensionPackage.new env n w = (Ret pkg, w1) ->
    let w' := snd (ExtensionManager.add_extension env self n w) in
    dict_get (enabled_view w') n = Some pkg
    /\ (forall k, k <> n ->
          dict_get (enabled_view w') k = dict_get (enabled_view w) k)
    /\ (In n (dict_keys (_enabled_extensions w)) ->
        dict_keys (_enabled_extensions w') = dict_keys (_enabled_extensions w))
    /\ (~ In n (dict_keys (_enabled_extensions w)) ->
        dict_keys (_enabled_extensions w')
        = (dict_keys (_enabled_extensions w) ++ [n])%list)
    /\ log w' = log w.
Proof.
  intros self n pkg w w1 R E w'.
  destruct (reachable_registry_wf w R) as [N _].
  pose proof (add_extension_cases env self n w) as C.
  pose proof (package_new_enabled env n w) as P.
  pose proof (package_new_preserves env _ log (fun _ _ => eq_refl) n w) as L.
  rewrite E in C, P, L. simpl in P, L.
  assert (_enabled_extensions w'
          = dict_set (_enabled_extensions w) n pkg) as Hreg.
  { subst w'. rewrite C. simpl. now rewrite P. }
  assert (NoDup (dict_keys (_enabled_extensions w'))) as N'.
  { rewrite Hreg. now apply dict_set_NoDup. }
  unfold enabled_view. rewrite Hreg in *.
  split; [rewrite dict_of_sorted_get by assumption;
          apply dict_get_set_same |].
  split; [intros k Hk; rewrite !dict_of_sorted_get by assumption;
          now apply dict_get_set_other |].
  rewrite dict_keys_set. split; [| split].
  - intro Hin. destruct (dict_get_keys _ _ _ Hin) as [v ->]. reflexivity.
  - intro Hout. apply dict_get_None in Hout. now rewrite Hout.
  - subst w'. rewrite C. exact L.
Qed.

(** X16.  No operation of the module takes a name out of the registry:
    what is enabled before an operation is enabled after it. *)
Theorem enabled_names_are_never_removed :
  forall (w w' : World) (k : string),
    step env w w' ->
    In k (dict_keys (enabled_view w)) ->
    In k (dict_keys (enabled_view w')).
Proof.
  intros w w' k S. unfold enabled_view. rewrite !dict_of_sorted_keys_In.
  assert (forall self n w0,
            In k (dict_keys (_enabled_extensions w0)) ->
            In k (dict_keys
                    (_enabled_extensions
                       (snd (ExtensionManager.add_extension env self n w0)))))
    as Hadd.
  { intros self n w0 Hk.
    pose proof (add_extension_cases env self n w0) as C.
    pose proof (package_new_enabled env n w0) as P.
    destruct (ExtensionPackage.new env n w0) as [[pkg | e] w1];
      rewrite C; simpl in P.
    - simpl. rewrite P. apply dict_keys_set_In. now left.
    - destruct (is_Exception e); simpl; now rewrite P. }
  destruct S;
    try (intro Hk;
         match goal with
         | |- In k (dict_keys (_enabled_extensions (snd (?m ?w0)))) =>
             replace (_enabled_extensions (snd (m w0)))
               with (_enabled_extensions w0); [exact Hk | symmetry]
         end;
         first [ apply point_new_preserves
               | apply point_link_preserves
               | apply point_load_preserves
               | apply package_new_preserves
               | apply link_point_preserves
               | apply load_point_preserves
               | apply link_all_points_preserves
               | apply load_all_points_preserves
               | apply manager_new_preserves
               | apply link_extension_preserves
               | apply load_extension_preserves
               | apply link_all_extensions_preserves
               | apply load_all_extensions_preserves ];
         intros ?; reflexivity).
  - apply Hadd.
  - unfold ExtensionManager.from_jpserver_extensions.
    apply (for_each_invariant _
             (fun w0 => In k (dict_keys (_enabled_extensions w0)))).
    intros [n []] w0 H0; simpl; [now apply Hadd | exact H0].
Qed.

(** X17.  [from_jpserver_extensions] is [add_extension] on the names the
    map enables, in the order of the map; the names it does not enable
    play no part, and with no name enabled nothing happens at all. *)
Theorem from_jpserver_extensions_adds_the_enabled :
  forall (self : ExtensionManager) (jp : Dict bool) (w : World),
    ExtensionManager.from_jpserver_extensions env self jp w
    = for_each (dict_keys (filter snd jp))
        (ExtensionManager.add_extension env self) w
    /\ (forallb (fun item => negb (snd item)) jp = true ->
        ExtensionManager.from_jpserver_extensions env self jp w = (Ret tt, w)).
Proof.
  intros self jp. unfold ExtensionManager.from_jpserver_extensions.
  assert (forall w,
            for_each jp
              (fun item =>
                 if snd item
                 then ExtensionManager.add_extension env self (fst item)
                 else ret tt) w
            = for_each (dict_keys (filter snd jp))
                (ExtensionManager.add_extension env self) w) as Heq.
  { induction jp as [| [n b] jp IH]; intro w; simpl; [reflexivity |].
    destruct b; simpl.
    - unfold bind.
      destruct (ExtensionManager.add_extension env self n w)
        as [[[] | e] w1]; [apply IH | reflexivity].
    - unfold bind, ret. apply IH. }
  intro w. split; [apply Heq |].
  intro H. rewrite Heq.
  replace (filter snd jp) with (@nil (string * bool)); [reflexivity |].
  clear Heq. induction jp as [| [n b] jp IH]; simpl in *; [reflexivity |].
  apply andb_prop in H. destruct H as [Hb H]. destruct b; [discriminate |].
  now apply IH.
Qed.

Lemma add_extension_raises self n :
  raises_only (fun e => is_Exception e = false)
    (ExtensionManager.add_extension env self n).
Proof.
  intros w e. pose proof (add_extension_cases env self n w) as C.
  destruct (ExtensionPackage.new env n w) as [[pkg | e'] w1]; rewrite C;
    [discriminate |].
  destruct (is_Exception e') eqn:X; simpl; [discriminate |].
  now intros [= <-].
Qed.

(** X18.  [add_extension] never raises an instance of [Exception],
    whatever the name and whatever goes wrong in the construction of the
    package; neither does [from_jpserver_extensions].  What they let
    through is an exception of construction that is not one. *)
Theorem add_extension_never_raises_Exception :
  forall (self : ExtensionManager) (w : World) (e : PyExc),
    (forall n,
       fst (ExtensionManager.add_extension env self n w) = Raise e ->
       is_Exception e = false
       /\ fst (ExtensionPackage.new env n w) = Raise e)
    /\ (forall jp,
          fst (ExtensionManager.from_jpserver_extensions env self jp w)
            = Raise e ->
          is_Exception e = false).
Proof.
  intros self w e. split.
  - intros n H. split; [exact (add_extension_raises self n w e H) |].
    pose proof (add_extension_cases env self n w) as C.
    destruct (ExtensionPackage.new env n w) as [[pkg | e'] w1];
      rewrite C in H; [discriminate |].
    destruct (is_Exception e'); simpl in *; [discriminate |].
    now injection H as ->.
  - intros jp. unfold ExtensionManager.from_jpserver_extensions.
    apply (raises_only_for_each (fun e => is_Exception e = false)).
    intros [n []] _; simpl;
      [apply add_extension_raises | apply raises_only_ret].
Qed.

End RegistryMore.

(** X19.  [link_extension] looks the name up before it tests the flag: on
    a name that is not enabled it raises [KeyError], flag or no flag, and
    nothing is logged.  On an enabled name of which the flag is set it
    does nothing.  On an enabled name of which the flag is not set, when
    [link_all_points] returns, it logs that the extension was linked, at
    the debug level, and sets no flag. *)
Theorem link_extension_outcomes :
  forall (self : ExtensionManager) (n : string) (host : ServerApp)
         (w : World),
    (dict_get (enabled_view w) n = None ->
     ExtensionManager.link_extension self n host w = (Raise (KeyError n), w))
    /\ (forall pkg,
          dict_get (enabled_view w) n = Some pkg ->
          dict_get_flag (_linked_extensions w) n = true ->
          ExtensionManager.link_extension self n host w = (Ret tt, w))
    /\ (forall pkg w1,
          dict_get (enabled_view w) n = Some pkg ->
          dict_get_flag (_linked_extensions w) n = false ->
          ExtensionPackage.link_all_points pkg host w = (Ret tt, w1) ->
          ExtensionManager.link_extension self n host w
          = (Ret tt,
             with_log
               (log w ++
                [LogDebug ("The '" ++ n ++
                           "' extension was successfully linked.")])
               w1)
          /\ _linked_extensions w1 = _linked_extensions w).
Proof.
  intros self n host w. split; [apply link_extension_absent |]. split.
  - intros pkg E F. rewrite (link_extension_run self n host w pkg E), F.
    reflexivity.
  - intros pkg w1 E F L.
    pose proof (link_all_points_preserves _ log (fun _ _ _ => eq_refl)
                  pkg host w) as P.
    pose proof (link_all_points_preserves _ _linked_extensions
                  (fun _ _ _ => eq_refl) pkg host w) as Q.
    rewrite L in P, Q. simpl in P, Q. split; [| exact Q].
    rewrite (link_extension_run self n host w pkg E), F. simpl.
    unfold try_except, bind. rewrite L.
    unfold log_debug, modify. now rewrite P.
Qed.

(* ================================================================== *)
(** * ExtensionManager: the order of the hooks, from end to end *)

Lemma fold_left_effects A (l : list A) (entry : A -> LogEntry)
    (evs : A -> list Event) w :
  fold_left
    (fun w x => with_log (log w ++ [entry x])
                  (with_trace (trace w ++ evs x) w)) l w
  = with_log (log w ++ map entry l)
      (with_trace (trace w ++ flat_map evs l) w).
Proof.
  revert w. induction l as [| x l IH]; intro w; simpl.
  - destruct w. unfold with_log, with_trace. simpl. now rewrite !app_nil_r.
  - rewrite IH. unfold with_log, with_trace. simpl.
    now rewrite <- !app_assoc.
Qed.

(** A loop of which every turn returns, with a known effect. *)
Lemma for_each_runs A (I : World -> Prop) (l : list A) body
    (effect : A -> World -> World) :
  (forall x w, In x l -> I w ->
     body x w = (Ret tt, effect x w) /\ I (effect x w)) ->
  forall w, I w ->
  for_each l body w = (Ret tt, fold_left (fun w x => effect x w) l w).
Proof.
  induction l as [| x l IH]; intros H w Hw; simpl; [reflexivity |].
  unfold bind. destruct (H x w (or_introl eq_refl) Hw) as [H1 H2].
  rewrite H1. apply IH; [| exact H2].
  intros y w' Hy. apply H. now right.
Qed.

Section HooksInOrder.
Variable env : Env.

(** X20.  [load_all_extensions] from end to end, in a state the
    operations of the module reach and when every point of every enabled
    extension loads without raising: it returns, nothing is logged, and
    what has been called are the load hooks, extension after extension in
    the order of their names and, within an extension, point after point
    in the order in which the package stored them. *)
Theorem load_all_extensions_calls_hooks_in_order :
  forall (self : ExtensionManager) (host : ServerApp) (w : World),
    reachable env w ->
    Forall
      (fun item =>
         Forall (fun point => load_returns host (snd point))
           (ExtensionPackage.extension_points (snd item)))
      (_enabled_extensions w) ->
    ExtensionManager.load_all_extensions self host w
    = (Ret tt,
       with_trace
         (trace w ++
          flat_map
            (fun item =>
               load_calls host (ExtensionPackage.extension_points (snd item)))
            (enabled_view w))
         w).
Proof.
  intros self host w R F.
  destruct (reachable_registry_wf env w R) as [N Hwf].
  pose proof (dict_of_sorted_id _ _ N) as Hview. fold (enabled_view w) in Hview.
  unfold ExtensionManager.load_all_extensions,
    ExtensionManager.enabled_extensions, bind, gets.
  fold (enabled_view w). unfold dict_keys. rewrite for_each_map.
  apply (for_each_appends _
           (fun w0 => _enabled_extensions w0 = _enabled_extensions w)); auto.
  intros [n pkg] w0 Hin Hw0. simpl.
  assert (In (n, pkg) (_enabled_extensions w)) as Hreg.
  { rewrite Hview in Hin. exact (proj1 (sorted_In _ _ _) Hin). }
  rewrite load_extension_run, (enabled_view_same w w0 Hw0).
  assert (dict_get (enabled_view w) n = Some pkg) as ->.
  { unfold enabled_view. rewrite dict_of_sorted_get by exact N.
    now apply dict_get_NoDup_In. }
  unfold try_except. rewrite load_all_points_run; [reflexivity | |].
  - exact (proj1 (proj2 (Hwf n pkg (dict_get_NoDup_In _ _ n pkg N Hreg)))).
  - rewrite Forall_forall in F. exact (F (n, pkg) Hreg).
Qed.

(** X21.  [link_all_extensions] from end to end, in a state the
    operations of the module reach and when every point of every enabled
    extension links without raising: it returns; what has been called are
    the link hooks, extension after extension in the order of their names
    and, within an extension, point after point in the order in which the
    package stored them; and one message per extension is logged at the
    debug level, in the order of the names. *)
Theorem link_all_extensions_calls_hooks_in_order :
  forall (self : ExtensionManager) (host : ServerApp) (w : World),
    reachable env w ->
    Forall
      (fun item =>
         Forall (fun point => link_returns host (snd point))
           (ExtensionPackage.extension_points (snd item)))
      (_enabled_extensions w) ->
    ExtensionManager.link_all_extensions self host w
    = (Ret tt,
       with_log
         (log w ++
          map (fun item =>
                 LogDebug ("The '" ++ fst item ++
                           "' extension was successfully linked."))
            (enabled_view w))
         (with_trace
            (trace w ++
             flat_map
               (fun item =>
                  link_calls host
                    (ExtensionPackage.extension_points (snd item)))
               (enabled_view w))
            w)).
Proof.
  intros self host w R F.
  destruct (reachable_registry_wf env w R) as [N Hwf].
  destruct (reachable_linked_empty env w R) as [Hlp Hle].
  pose proof (dict_of_sorted_id _ _ N) as Hview. fold (enabled_view w) in Hview.
  unfold ExtensionManager.link_all_extensions,
    ExtensionManager.enabled_extensions, bind, gets.
  fold (enabled_view w). unfold dict_keys. rewrite for_each_map.
  rewrite <- fold_left_effects.
  apply (for_each_runs _
           (fun w0 => _enabled_extensions w0 = _enabled_extensions w
                      /\ _linked_points w0 = []
                      /\ _linked_extensions w0 = []));
    [| repeat split; assumption].
  intros [n pkg] w0 Hin [Hw0 [Hlp0 Hle0]]. simpl.
  assert (In (n, pkg) (_enabled_extensions w)) as Hreg.
  { rewrite Hview in Hin. exact (proj1 (sorted_In _ _ _) Hin). }
  assert (dict_get (enabled_view w0) n = Some pkg) as E.
  { rewrite (enabled_view_same w w0 Hw0). unfold enabled_view.
    rewrite dict_of_sorted_get by exact N. now apply dict_get_NoDup_In. }
  rewrite (link_extension_run self n host w0 pkg E), Hle0. simpl.
  unfold try_except, bind. rewrite link_all_points_run.
  - unfold log_debug, modify. simpl. repeat split; assumption.
  - exact (proj1 (proj2 (Hwf n pkg (dict_get_NoDup_In _ _ n pkg N Hreg)))).
  - rewrite Forall_forall in F. exact (F (n, pkg) Hreg).
  - intros k _. now rewrite Hlp0.
Qed.

End HooksInOrder.

(* ================================================================== *)
(** * The further statements on the sample installation *)

Lemma cases_world_reachable (names : list string) :
  reachable Cases.env (Cases.world_after names).
Proof.
  apply reachable_step with (w := initial_world); [constructor |].
  apply step_from_jpserver_extensions.
Qed.

Lemma module_import_failure_witness :
  pk_module (Sample.packet "missing") = Some "missing"
  /\ import_module Cases.env "missing"
     = Raise (Sample.no_module_named "missing")
  /\ ExtensionPoint.new Cases.env (Sample.packet "missing") initial_world
     = (Raise
          (ExtensionModuleNotFound
             "The submodule 'missing' could not be found. Are you sure the extension is installed?"),
        initial_world).
Proof.
  do 2 (split; [reflexivity |]).
  exact (module_import_failure Cases.env (Sample.packet "missing") "missing"
           (Sample.no_module_named "missing") initial_world
           eq_refl eq_refl).
Defined.

(** An import that fails otherwise than by [ImportError] is not
    renamed. *)
Example broken_module_raises_its_own :
  ExtensionPoint.new Cases.env (Sample.packet "broken") initial_world
  = (Raise (UserException "SyntaxError"), initial_world).
Proof. reflexivity. Qed.

Lemma validation_of_app_field_witness :
  pk_module (Sample.app_packet "pkgX" Sample.XApp) = Some "pkgX"
  /\ import_module Sample.env "pkgX" = Ret (Sample.bare_module "pkgX")
  /\ ExtensionPoint.new Sample.env (Sample.app_packet "pkgX" Sample.XApp)
       initial_world
     = (Ret Sample.x_point, with_trace [EvCall "XApp"] initial_world)
  /\ ExtensionPoint.new Sample.env (metadata Sample.x_point) initial_world
     = (Raise (TypeError "object is not callable"), initial_world).
Proof.
  do 3 (split; [reflexivity |]).
  exact (proj2 (proj2 (validation_of_app_field Sample.env
                         (Sample.app_packet "pkgX" Sample.XApp) "pkgX"
                         (Sample.bare_module "pkgX") initial_world
                         eq_refl eq_refl))
           Sample.XApp Sample.x_app Sample.x_point
           (with_trace [EvCall "XApp"] initial_world) initial_world
           eq_refl eq_refl eq_refl eq_refl).
Defined.

Lemma link_passes_on_hook_outcome_witness :
  (obj_link (hook_owner Sample.stuck_point)
   = Some (Sample.raises "stuck._link" (UserException "RuntimeError"))
   /\ ExtensionPoint.link Sample.stuck_point Sample.host initial_world
      = (Raise (UserException "RuntimeError"),
         with_trace [EvHook "stuck._link" Sample.host] initial_world))
  /\ (ExtensionPoint.app Cases.plain_point = Some Cases.plain_app
      /\ obj_link Cases.plain_app = None
      /\ obj_link (ExtensionPoint.module Cases.plain_point)
         = Some (Sample.returns_none "a_ext._link")
      /\ ExtensionPoint.link Cases.plain_point Sample.host initial_world
         = (Raise (AttributeError "_link_jupyter_server_extension"),
            initial_world)).
Proof.
  split.
  - split; [reflexivity |].
    exact (proj1 (link_passes_on_hook_outcome Sample.stuck_point Sample.host
                    initial_world)
             (Sample.raises "stuck._link" (UserException "RuntimeError"))
             eq_refl).
  - do 3 (split; [reflexivity |]).
    exact (proj2 (link_passes_on_hook_outcome Cases.plain_point Sample.host
                    initial_world)
             Cases.plain_app eq_refl eq_refl).
Defined.

Lemma load_passes_on_hook_outcome_witness :
  obj_load (hook_owner Sample.flaky_point)
  = Some (Sample.raises "flaky._load" (UserException "RuntimeError"))
  /\ ExtensionPoint.load Sample.flaky_point Sample.host initial_world
     = (Raise (UserException "RuntimeError"),
        with_trace [EvHook "flaky._load" Sample.host] initial_world).
Proof.
  split; [reflexivity |].
  exact (load_passes_on_hook_outcome Sample.flaky_point Sample.host
           initial_world
           (Sample.raises "flaky._load" (UserException "RuntimeError"))
           eq_refl).
Defined.

(** With an application object, the load hook of the module is not the
    one called. *)
Example load_prefers_application_object :
  ExtensionPoint.load Cases.plain_point Sample.host initial_world
  = (Ret RetNone, with_trace [EvHook "PlainApp._load" Sample.host]
                    initial_world).
Proof. reflexivity. Qed.

Lemma point_lookup_failure_witness :
  dict_get (ExtensionPackage.extension_points Sample.a_package) "nope" = None
  /\ ExtensionPackage.load_point Sample.a_package "nope" Sample.host
       initial_world
     = (Raise (KeyError "nope"), initial_world)
  /\ ExtensionPackage.link_point Sample.a_package "nope" Sample.host
       initial_world
     = (Raise (KeyError "nope"), initial_world).
Proof.
  pose proof (point_lookup_failure Sample.a_package "nope" Sample.host
                initial_world eq_refl) as H.
  split; [reflexivity |]. split; [exact (proj1 H) | exact (proj2 H)].
Defined.

Lemma package_metadata_failure_witness :
  get_metadata Cases.env "crash" = Raise (UserException "RuntimeError")
  /\ ExtensionPackage.new Cases.env "crash" initial_world
     = (Raise (UserException "RuntimeError"), initial_world).
Proof.
  split; [reflexivity |].
  exact (package_metadata_failure Cases.env "crash"
           (UserException "RuntimeError") initial_world eq_refl).
Defined.

Lemma package_construction_result_witness :
  get_metadata Cases.env "twins"
  = Ret [Sample.named_packet "a_ext" "same";
         Sample.named_packet "b_ext" "same"]
  /\ ExtensionPackage.new Cases.env "twins" initial_world
     = (Ret (Cases.built "twins"), initial_world)
  /\ name (Cases.built "twins") = "twins"
  /\ package_wf (Cases.built "twins")
  /\ List.length (ExtensionPackage.extension_points (Cases.built "twins"))
     <= 2.
Proof.
  pose proof (package_construction_result Cases.env "twins"
                [Sample.named_packet "a_ext" "same";
                 Sample.named_packet "b_ext" "same"]
                initial_world initial_world (Cases.built "twins")
                eq_refl eq_refl) as H.
  do 2 (split; [reflexivity |]).
  split; [exact (proj1 H) |].
  split; [exact (proj1 (proj2 (proj2 H))) | exact (proj2 (proj2 (proj2 H)))].
Defined.

Lemma package_construction_calls_factories_in_order_witness :
  get_metadata Cases.env "suite"
  = Ret [Sample.app_packet "pkgX" Sample.XApp;
         Sample.packet "a_ext";
         Sample.app_packet "a_ext" Cases.PlainApp]
  /\ ExtensionPackage.new Cases.env "suite" initial_world
     = (Ret (Cases.built "suite"),
        with_trace [EvCall "XApp"; EvCall "PlainApp"] initial_world)
  /\ with_trace [EvCall "XApp"; EvCall "PlainApp"] initial_world
     = with_trace
         (trace initial_world ++
          factory_calls
            [Sample.app_packet "pkgX" Sample.XApp;
             Sample.packet "a_ext";
             Sample.app_packet "a_ext" Cases.PlainApp])
         initial_world.
Proof.
  do 2 (split; [reflexivity |]).
  exact (package_construction_calls_factories_in_order Cases.env "suite"
           [Sample.app_packet "pkgX" Sample.XApp;
            Sample.packet "a_ext";
            Sample.app_packet "a_ext" Cases.PlainApp]
           initial_world
           (with_trace [EvCall "XApp"; EvCall "PlainApp"] initial_world)
           (Cases.built "suite") eq_refl eq_refl).
Defined.

Lemma last_packet_of_a_name_wins_witness :
  get_metadata Cases.env "twins"
  = Ret ([Sample.named_packet "a_ext" "same"] ++
         Sample.named_packet "b_ext" "same" :: [])%list
  /\ ExtensionPackage.new Cases.env "twins" initial_world
     = (Ret (Cases.built "twins"), initial_world)
  /\ fst (ExtensionPoint.new Cases.env (Sample.named_packet "b_ext" "same")
            initial_world)
     = Ret Cases.twin_point
  /\ ExtensionPoint.name Cases.twin_point = Ret "same"
  /\ dict_get (ExtensionPackage.extension_points (Cases.built "twins")) "same"
     = Some Cases.twin_point.
Proof.
  do 4 (split; [reflexivity |]).
  apply (last_packet_of_a_name_wins Cases.env "twins"
           [Sample.named_packet "a_ext" "same"] []
           (Sample.named_packet "b_ext" "same") Cases.twin_point "same"
           initial_world initial_world (Cases.built "twins"));
    try reflexivity.
  intros m' point' [].
Defined.

Lemma load_all_points_in_insertion_order_witness :
  NoDup (dict_keys (ExtensionPackage.extension_points (Cases.built "suite")))
  /\ Forall (fun item => load_returns Sample.host (snd item))
       (ExtensionPackage.extension_points (Cases.built "suite"))
  /\ ExtensionPackage.load_all_points (Cases.built "suite") Sample.host
       initial_world
     = (Ret tt,
        with_trace
          [EvHook "XApp._load" Sample.host;
           EvHook "a_ext._load" Sample.host;
           EvHook "PlainApp._load" Sample.host]
          initial_world).
Proof.
  assert (NoDup (dict_keys
                   (ExtensionPackage.extension_points (Cases.built "suite"))))
    as N.
  { repeat constructor; simpl; intuition discriminate. }
  assert (Forall (fun item => load_returns Sample.host (snd item))
            (ExtensionPackage.extension_points (Cases.built "suite"))) as F.
  { repeat constructor; eexists; eexists; split; reflexivity. }
  split; [exact N |]. split; [exact F |].
  exact (load_all_points_in_insertion_order (Cases.built "suite") Sample.host
           initial_world N F).
Defined.

Lemma link_all_points_in_insertion_order_witness :
  NoDup (dict_keys (ExtensionPackage.extension_points (Cases.built "pair")))
  /\ Forall (fun item => link_returns Sample.host (snd item))
       (ExtensionPackage.extension_points (Cases.built "pair"))
  /\ ExtensionPackage.link_all_points (Cases.built "pair") Sample.host
       initial_world
     = (Ret tt, with_trace [EvHook "a_ext._link" Sample.host] initial_world).
Proof.
  assert (NoDup (dict_keys
                   (ExtensionPackage.extension_points (Cases.built "pair"))))
    as N.
  { repeat constructor; simpl; intuition discriminate. }
  assert (Forall (fun item => link_returns Sample.host (snd item))
            (ExtensionPackage.extension_points (Cases.built "pair"))) as F.
  { constructor; [eexists; reflexivity |].
    constructor; [reflexivity | constructor]. }
  split; [exact N |]. split; [exact F |].
  exact (link_all_points_in_insertion_order (Cases.built "pair") Sample.host
           initial_world N F (fun _ _ => eq_refl)).
Defined.

Lemma load_all_points_stops_at_first_failure_witness :
  ExtensionPackage.extension_points (Cases.built "trio")
  = ([("a_ext", Sample.a_point)] ++
     ("flaky", Sample.flaky_point) :: [("b_ext", Cases.b_point)])%list
  /\ fst (ExtensionPoint.load Sample.flaky_point Sample.host initial_world)
     = Raise (UserException "RuntimeError")
  /\ ExtensionPackage.load_all_points (Cases.built "trio") Sample.host
       initial_world
     = (Raise (UserException "RuntimeError"),
        with_trace
          [EvHook "a_ext._load" Sample.host;
           EvHook "flaky._load" Sample.host]
          initial_world).
Proof.
  do 2 (split; [reflexivity |]).
  apply (load_all_points_stops_at_first_failure (Cases.built "trio")
           Sample.host initial_world [("a_ext", Sample.a_point)]
           [("b_ext", Cases.b_point)] "flaky" Sample.flaky_point
           (UserException "RuntimeError")).
  - repeat constructor; simpl; intuition discriminate.
  - reflexivity.
  - repeat constructor; eexists; eexists; split; reflexivity.
  - reflexivity.
Defined.

Lemma registry_is_well_formed_witness :
  reachable Cases.env (Cases.world_after ["twins"; "a_ext"; "twins"])
  /\ dict_keys
       (_enabled_extensions (Cases.world_after ["twins"; "a_ext"; "twins"]))
     = ["twins"; "a_ext"]
  /\ NoDup
       (dict_keys
          (_enabled_extensions (Cases.world_after ["twins"; "a_ext"; "twins"]))).
Proof.
  split; [apply cases_world_reachable |]. split; [reflexivity |].
  exact (proj1 (registry_is_well_formed Cases.env _
                  (cases_world_reachable ["twins"; "a_ext"; "twins"]))).
Defined.

Lemma enabled_extensions_has_the_registry_witness :
  reachable Sample.env (Sample.world_after ["b_ext"; "a_ext"])
  /\ exists view,
       ExtensionManager.enabled_extensions Sample.other_manager
         (Sample.world_after ["b_ext"; "a_ext"])
       = (Ret view, Sample.world_after ["b_ext"; "a_ext"])
       /\ Permutation
            (_enabled_extensions (Sample.world_after ["b_ext"; "a_ext"]))
            view
       /\ dict_get view "a_ext"
          = dict_get
              (_enabled_extensions (Sample.world_after ["b_ext"; "a_ext"]))
              "a_ext".
Proof.
  split; [apply sample_world_reachable |].
  destruct (enabled_extensions_has_the_registry Sample.env
              Sample.other_manager (Sample.world_after ["b_ext"; "a_ext"])
              (sample_world_reachable ["b_ext"; "a_ext"]))
    as [view [H1 [H2 H3]]].
  exists view. split; [exact H1 |]. split; [exact H2 | exact (H3 "a_ext")].
Defined.

Lemma add_extension_enables_witness :
  reachable Sample.env (Sample.world_after ["a_ext"; "b_ext"])
  /\ ExtensionPackage.new Sample.env "a_ext"
       (Sample.world_after ["a_ext"; "b_ext"])
     = (Ret Sample.a_package, Sample.world_after ["a_ext"; "b_ext"])
  /\ dict_get
       (enabled_view
          (snd (ExtensionManager.add_extension Sample.env Sample.manager
                  "a_ext" (Sample.world_after ["a_ext"; "b_ext"]))))
       "a_ext"
     = Some Sample.a_package
  /\ dict_keys
       (_enabled_extensions
          (snd (ExtensionManager.add_extension Sample.env Sample.manager
                  "a_ext" (Sample.world_after ["a_ext"; "b_ext"]))))
     = dict_keys (_enabled_extensions (Sample.world_after ["a_ext"; "b_ext"])).
Proof.
  pose proof (add_extension_enables Sample.env Sample.manager "a_ext"
                Sample.a_package (Sample.world_after ["a_ext"; "b_ext"])
                (Sample.world_after ["a_ext"; "b_ext"])
                (sample_world_reachable ["a_ext"; "b_ext"]) eq_refl) as H.
  split; [apply sample_world_reachable |]. split; [reflexivity |].
  split; [exact (proj1 H) |].
  apply (proj1 (proj2 (proj2 H))). simpl. now left.
Defined.

Lemma enabled_names_are_never_removed_witness :
  step Sample.env (Sample.world_after ["a_ext"])
    (snd (ExtensionManager.add_extension Sample.env Sample.manager "nope"
            (Sample.world_after ["a_ext"])))
  /\ In "a_ext" (dict_keys (enabled_view (Sample.world_after ["a_ext"])))
  /\ In "a_ext"
       (dict_keys
          (enabled_view
             (snd (ExtensionManager.add_extension Sample.env Sample.manager
                     "nope" (Sample.world_after ["a_ext"]))))).
Proof.
  assert (In "a_ext"
            (dict_keys (enabled_view (Sample.world_after ["a_ext"])))) as Hin.
  { simpl. now left. }
  split; [apply step_add_extension |]. split; [exact Hin |].
  exact (enabled_names_are_never_removed Sample.env _ _ "a_ext"
           (step_add_extension Sample.env Sample.manager "nope"
              (Sample.world_after ["a_ext"]))
           Hin).
Defined.

Lemma from_jpserver_extensions_adds_the_enabled_witness :
  forallb (fun item => negb (snd item)) [("a_ext", false); ("b_ext", false)]
  = true
  /\ ExtensionManager.from_jpserver_extensions Sample.env Sample.manager
       [("a_ext", false); ("b_ext", false)] initial_world
     = (Ret tt, initial_world)
  /\ ExtensionManager.from_jpserver_extensions Sample.env Sample.manager
       Sample.jp_b_a_c initial_world
     = for_each ["b_ext"; "a_ext"]
         (ExtensionManager.add_extension Sample.env Sample.manager)
         initial_world.
Proof.
  split; [reflexivity |]. split.
  - exact (proj2 (from_jpserver_extensions_adds_the_enabled Sample.env
                    Sample.manager [("a_ext", false); ("b_ext", false)]
                    initial_world)
             eq_refl).
  - exact (proj1 (from_jpserver_extensions_adds_the_enabled Sample.env
                    Sample.manager Sample.jp_b_a_c initial_world)).
Defined.

Lemma add_extension_never_raises_Exception_witness :
  fst (ExtensionManager.add_extension Cases.env Sample.manager "fatal"
         initial_world)
  = Raise (BaseExceptionOnly "SystemExit")
  /\ is_Exception (BaseExceptionOnly "SystemExit") = false
  /\ fst (ExtensionPackage.new Cases.env "fatal" initial_world)
     = Raise (BaseExceptionOnly "SystemExit").
Proof.
  split; [reflexivity |].
  exact (proj1 (add_extension_never_raises_Exception Cases.env Sample.manager
                  initial_world (BaseExceptionOnly "SystemExit"))
           "fatal" eq_refl).
Defined.

Lemma link_extension_outcomes_witness :
  (dict_get (enabled_view (Sample.world_after ["a_ext"])) "ghost" = None
   /\ ExtensionManager.link_extension Sample.manager "ghost" Sample.host
        (Sample.world_after ["a_ext"])
      = (Raise (KeyError "ghost"), Sample.world_after ["a_ext"]))
  /\ (dict_get (enabled_view (Sample.world_after ["a_ext"])) "a_ext"
      = Some Sample.a_package
      /\ ExtensionManager.link_extension Sample.manager "a_ext" Sample.host
           (Sample.world_after ["a_ext"])
         = (Ret tt,
            with_log
              [LogDebug "The 'a_ext' extension was successfully linked."]
              (with_trace [EvHook "a_ext._link" Sample.host]
                 (Sample.world_after ["a_ext"])))).
Proof.
  pose proof (link_extension_outcomes Sample.manager "ghost" Sample.host
                (Sample.world_after ["a_ext"])) as G.
  pose proof (link_extension_outcomes Sample.manager "a_ext" Sample.host
                (Sample.world_after ["a_ext"])) as A.
  split; (split; [reflexivity |]).
  - exact (proj1 G eq_refl).
  - exact (proj1 (proj2 (proj2 A) Sample.a_package
                    (with_trace [EvHook "a_ext._link" Sample.host]
                       (Sample.world_after ["a_ext"]))
                    eq_refl eq_refl eq_refl)).
Defined.

Lemma load_all_extensions_calls_hooks_in_order_witness :
  reachable Sample.env (Sample.world_after ["pkgX"; "b_ext"; "a_ext"])
  /\ ExtensionManager.load_all_extensions Sample.manager Sample.host
       (Sample.world_after ["pkgX"; "b_ext"; "a_ext"])
     = (Ret tt,
        with_trace
          [EvCall "XApp";
           EvHook "a_ext._load" Sample.host;
           EvHook "b_ext._load" Sample.host;
           EvHook "XApp._load" Sample.host]
          (Sample.world_after ["pkgX"; "b_ext"; "a_ext"])).
Proof.
  split; [apply sample_world_reachable |].
  apply (load_all_extensions_calls_hooks_in_order Sample.env Sample.manager
           Sample.host (Sample.world_after ["pkgX"; "b_ext"; "a_ext"])
           (sample_world_reachable ["pkgX"; "b_ext"; "a_ext"])).
  repeat constructor; eexists; eexists; split; reflexivity.
Defined.

Lemma link_all_extensions_calls_hooks_in_order_witness :
  reachable Sample.env (Sample.world_after ["pkgX"; "b_ext"; "a_ext"])
  /\ ExtensionManager.link_all_extensions Sample.manager Sample.host
       (Sample.world_after ["pkgX"; "b_ext"; "a_ext"])
     = (Ret tt,
        with_log
          [LogDebug "The 'a_ext' extension was successfully linked.";
           LogDebug "The 'b_ext' extension was successfully linked.";
           LogDebug "The 'pkgX' extension was successfully linked."]
          (with_trace
             [EvCall "XApp";
              EvHook "a_ext._link" Sample.host;
              EvHook "b_ext._link" Sample.host;
              EvHook "XApp._link" Sample.host]
             (Sample.world_after ["pkgX"; "b_ext"; "a_ext"]))).
Proof.
  split; [apply sample_world_reachable |].
  apply (link_all_extensions_calls_hooks_in_order Sample.env Sample.manager
           Sample.host (Sample.world_after ["pkgX"; "b_ext"; "a_ext"])
           (sample_world_reachable ["pkgX"; "b_ext"; "a_ext"])).
  repeat constructor; eexists; reflexivity.
Defined.
